(** * Safe Recovery Service SDK: a shallow embedding and its properties

    The development follows the TypeScript sources of the SDK:
    - [errors.ts]: the error taxonomy, [SafeRecoveryServiceSdkError],
      [ensureError] and [HttpErrorCodeDict];
    - [utils.ts]: [generateSIWEMessage], [sendHttpRequest],
      [getNetworkConfig];
    - [recoveryByGuardian.ts]: the class [RecoveryByGuardianService], which
      the sources hold twice (a documented copy and an undocumented one);
    - [recoveryByCustodialGuardian.ts]: the class
      [RecoveryByCustodialGuardian];
    - [alerts.ts]: the class [Alerts].

    JavaScript values are modelled as trees ([JsVal]); the remote authority,
    the ledger, the SIWE library, the random source and the clock are
    collaborators of the program and are taken as components of a record
    ([Collaborators]) that threads an explicit world. *)

From Stdlib Require Import ZArith NArith String Ascii List Bool Lia.
From Stdlib Require DecimalString HexadecimalString HexadecimalN.
From stdpp Require Import base option list strings gmap.

Local Open Scope string_scope.
Local Open Scope Z_scope.

(* ================================================================= *)
(** ** JavaScript values *)

(** Values as the program sees them after [JSON.parse], plus [undefined]
    (the result of reading an absent property) and bigints (which the SDK
    builds itself).  An object is its list of own properties in insertion
    order; properties inherited from the prototype chain are not part of
    the model.  A number is an integer: the SDK neither computes with
    fractions nor receives them in the fields it inspects.  A string is a
    sequence of code units. *)
#[warnings="-register-all"]
Inductive JsVal : Type :=
| JUndefined
| JNull
| JBool (b : bool)
| JNum (z : Z)
| JBig (z : Z)
| JStr (s : string)
| JArr (l : list JsVal)
| JObj (l : list (string * JsVal)).

Section JsVal_nested_ind.
Variable P : JsVal -> Prop.
Hypothesis HUndefined : P JUndefined.
Hypothesis HNull : P JNull.
Hypothesis HBool : forall b, P (JBool b).
Hypothesis HNum : forall z, P (JNum z).
Hypothesis HBig : forall z, P (JBig z).
Hypothesis HStr : forall s, P (JStr s).
Hypothesis HArr : forall l, Forall P l -> P (JArr l).
Hypothesis HObj : forall l, Forall (fun kv => P (snd kv)) l -> P (JObj l).

Fixpoint JsVal_nested_ind (v : JsVal) : P v :=
  match v with
  | JUndefined => HUndefined
  | JNull => HNull
  | JBool b => HBool b
  | JNum z => HNum z
  | JBig z => HBig z
  | JStr s => HStr s
  | JArr l =>
      HArr l ((fix go (l : list JsVal) : Forall P l :=
                 match l with
                 | [] => List.Forall_nil P
                 | x :: xs => List.Forall_cons _ x xs (JsVal_nested_ind x) (go xs)
                 end) l)
  | JObj l =>
      HObj l ((fix go (l : list (string * JsVal))
                 : Forall (fun kv => P (snd kv)) l :=
                 match l with
                 | [] => List.Forall_nil _
                 | kv :: xs =>
                     List.Forall_cons _ kv xs (JsVal_nested_ind (snd kv)) (go xs)
                 end) l)
  end.
End JsVal_nested_ind.

(** Nesting depth of a value: the recursion depth its serialization needs. *)
Fixpoint js_depth (v : JsVal) : nat :=
  match v with
  | JArr l => S (fold_right (fun x d => Nat.max (js_depth x) d) 0%nat l)
  | JObj l => S (fold_right (fun kv d => Nat.max (js_depth (snd kv)) d) 0%nat l)
  | _ => 1%nat
  end.

(** [typeof v] *)
Definition typeof (v : JsVal) : string :=
  match v with
  | JUndefined => "undefined"
  | JNull => "object"
  | JBool _ => "boolean"
  | JNum _ => "number"
  | JBig _ => "bigint"
  | JStr _ => "string"
  | JArr _ => "object"
  | JObj _ => "object"
  end.

(* ================================================================= *)
(** ** Errors ([errors.ts]) *)

Inductive HttpErrorCode : Type :=
| HTTP_BAD_REQUEST          (* 400 *)
| HTTP_UNAUTHORIZED         (* 401 *)
| HTTP_FORBIDDEN            (* 403 *)
| HTTP_NOT_FOUND            (* 404 *)
| HTTP_CONFLICT             (* 409 *)
| HTTP_TOO_MANY_REQUESTS    (* 429 *)
| HTTP_INTERNAL_ERROR       (* 500 *)
| HTTP_BAD_GATEWAY          (* 502 *)
| HTTP_SERVICE_UNAVAILABLE  (* 503 *)
| HTTP_GATEWAY_TIMEOUT.     (* 504 *)

Inductive BasicErrorCode : Type :=
| UNKNOWN_ERROR
| TIMEOUT
| SIWE_ERROR
| BAD_DATA
| Http (c : HttpErrorCode).

Coercion Http : HttpErrorCode >-> BasicErrorCode.

(** [HttpErrorCodeDict]: a JS object used as a dictionary from the
    stringified code to the error kind; these are its own properties. *)
Definition HttpErrorCodeDict : gmap string HttpErrorCode :=
  {[ "400" := HTTP_BAD_REQUEST;
     "401" := HTTP_UNAUTHORIZED;
     "403" := HTTP_FORBIDDEN;
     "404" := HTTP_NOT_FOUND;
     "409" := HTTP_CONFLICT;
     "429" := HTTP_TOO_MANY_REQUESTS;
     "500" := HTTP_INTERNAL_ERROR;
     "502" := HTTP_BAD_GATEWAY;
     "503" := HTTP_SERVICE_UNAVAILABLE;
     "504" := HTTP_GATEWAY_TIMEOUT ]}.

(** The ten keys of [HttpErrorCodeDict]. *)
Definition HttpErrorCodeKeys : list string :=
  ["400"; "401"; "403"; "404"; "409"; "429"; "500"; "502"; "503"; "504"].

(** [HttpErrorCodeDict] is an object literal, so it inherits from
    [Object.prototype], whose properties have these names. *)
Definition Object_prototype_names : list string :=
  ["constructor"; "__defineGetter__"; "__defineSetter__"; "hasOwnProperty";
   "__lookupGetter__"; "__lookupSetter__"; "isPrototypeOf";
   "propertyIsEnumerable"; "toString"; "valueOf"; "__proto__";
   "toLocaleString"].

(** What the [code] of an error is at run time, where the types of the
    source are gone: a code of the taxonomy or, when it was read from
    [HttpErrorCodeDict] under an inherited name, the member of
    [Object.prototype] of that name (a function, or [Object.prototype]
    itself for [__proto__]). *)
Inductive CodeValue : Type :=
| Code (c : BasicErrorCode)
| Inherited (name : string).

Coercion Code : BasicErrorCode >-> CodeValue.

(** [key in HttpErrorCodeDict] and, where it holds,
    [HttpErrorCodeDict[key]]: the operator and the read follow the
    prototype chain. *)
Definition HttpErrorCodeDict_lookup (key : string) : option CodeValue :=
  match HttpErrorCodeDict !! key with
  | Some kind => Some (Code (Http kind))
  | None =>
      if bool_decide (key ∈ Object_prototype_names)
      then Some (Inherited key)
      else None
  end.

(** Error objects.  [NativeError name message] is an instance of [Error] or
    of one of the engine's subclasses ([TypeError], [SyntaxError],
    [RangeError]); [SafeRecoveryServiceSdkError] is the SDK's class, with
    the fields its constructor stores. *)
#[warnings="-register-all"]
Inductive JsError : Type :=
| NativeError (name : string) (message : string)
| SafeRecoveryServiceSdkError
    (code : CodeValue) (message : string)
    (cause : option JsError) (errno : JsVal) (context : JsVal).

Definition error_message (e : JsError) : string :=
  match e with
  | NativeError _ m => m
  | SafeRecoveryServiceSdkError _ m _ _ _ => m
  end.

(** The code of the taxonomy an error carries.  A native error has none,
    and neither has an SDK error whose [code] is no code of the taxonomy
    (see [error_code_value]). *)
Definition error_code (e : JsError) : option BasicErrorCode :=
  match e with
  | NativeError _ _ => None
  | SafeRecoveryServiceSdkError (Code c) _ _ _ _ => Some c
  | SafeRecoveryServiceSdkError (Inherited _) _ _ _ _ => None
  end.

(** The [code] of an SDK error as it is. *)
Definition error_code_value (e : JsError) : option CodeValue :=
  match e with
  | NativeError _ _ => None
  | SafeRecoveryServiceSdkError c _ _ _ _ => Some c
  end.

Definition is_sdk_error (e : JsError) : bool :=
  match e with
  | NativeError _ _ => false
  | SafeRecoveryServiceSdkError _ _ _ _ _ => true
  end.

Definition TypeError (message : string) : JsError := NativeError "TypeError" message.
Definition SyntaxError (message : string) : JsError := NativeError "SyntaxError" message.
Definition RangeError (message : string) : JsError := NativeError "RangeError" message.

(** What a function of the SDK yields: a value, or a thrown error. *)
Inductive Result (A : Type) : Type :=
| Ok (a : A)
| Throw (e : JsError).
Arguments Ok {A} a.
Arguments Throw {A} e.

(** What a collaborator yields: a value, or a thrown value, which in
    JavaScript need not be an [Error]. *)
Inductive Thrown : Type :=
| ThrownError (e : JsError)
| ThrownValue (v : JsVal).

Inductive Outcome (A : Type) : Type :=
| Returns (a : A)
| Throws (t : Thrown).
Arguments Returns {A} a.
Arguments Throws {A} t.

#[global] Instance Result_ret : MRet Result := fun A a => Ok a.
#[global] Instance Result_bind : MBind Result := fun A B k r =>
  match r with
  | Ok a => k a
  | Throw e => Throw e
  end.

(* ================================================================= *)
(** ** Strings and numbers *)

(** The double quote character. *)
Definition dquote : string := String (ascii_of_nat 34) EmptyString.

(** Decimal digits of an integer: [String(n)] for a number whose digits
    JavaScript prints in full, and for a bigint. *)
Definition decimal (z : Z) : string :=
  DecimalString.NilZero.string_of_int (Z.to_int z).

(** Lower-case hexadecimal digits of a natural number. *)
Definition hex (n : N) : string :=
  HexadecimalString.NilZero.string_of_uint (N.to_hex_uint n).

(** [value.toString(16)] on a bigint: the sign, then the digits. *)
Definition BigInt_toString16 (z : Z) : string :=
  if z <? 0 then "-" ++ hex (Z.to_N (- z)) else hex (Z.to_N z).

(** [Array.prototype.join] on strings. *)
Definition join (sep : string) (l : list string) : string :=
  match l with
  | [] => EmptyString
  | x :: xs => fold_left (fun acc y => acc ++ sep ++ y) xs x
  end.

(** [String(v)] *)
Fixpoint js_String (v : JsVal) : string :=
  match v with
  | JUndefined => "undefined"
  | JNull => "null"
  | JBool true => "true"
  | JBool false => "false"
  | JNum z => decimal z
  | JBig z => decimal z
  | JStr s => s
  | JArr l =>
      join "," (map (fun x => match x with
                             | JUndefined | JNull => EmptyString
                             | _ => js_String x
                             end) l)
  | JObj _ => "[object Object]"
  end.

(** The array index a property key denotes, if it denotes one below
    [len]: the key is the canonical decimal form of the index. *)
Definition array_index (k : string) (len : nat) : option nat :=
  find (fun i => String.eqb (decimal (Z.of_nat i)) k) (seq 0 len).

(** Own property lookup in an object's property list. *)
Fixpoint assoc (k : string) (l : list (string * JsVal)) : option JsVal :=
  match l with
  | [] => None
  | (k', v) :: l' => if String.eqb k k' then Some v else assoc k l'
  end.

(** [o.k = v]: the property keeps its place when it exists and is added at
    the end otherwise. *)
Fixpoint assoc_set (k : string) (v : JsVal) (l : list (string * JsVal))
  : list (string * JsVal) :=
  match l with
  | [] => [(k, v)]
  | (k', v') :: l' =>
      if String.eqb k k' then (k', v) :: l' else (k', v') :: assoc_set k v l'
  end.

Definition chars (s : string) : list JsVal :=
  map (fun c => JStr (String c EmptyString)) (list_ascii_of_string s).

(** [v[k]], [v.k]: reading a property throws on [undefined] and [null]. *)
Definition js_get (v : JsVal) (k : string) : Result JsVal :=
  match v with
  | JUndefined | JNull =>
      Throw (TypeError ("Cannot read properties of " ++ js_String v
                          ++ " (reading '" ++ k ++ "')"))
  | JObj l => Ok (default JUndefined (assoc k l))
  | JArr l =>
      if String.eqb k "length" then Ok (JNum (Z.of_nat (length l)))
      else Ok (match array_index k (length l) with
               | Some i => nth i l JUndefined
               | None => JUndefined
               end)
  | JStr s =>
      if String.eqb k "length" then Ok (JNum (Z.of_nat (String.length s)))
      else Ok (match array_index k (String.length s) with
               | Some i => nth i (chars s) JUndefined
               | None => JUndefined
               end)
  | JBool _ | JNum _ | JBig _ => Ok JUndefined
  end.

(** [k in v]: throws unless [v] is an object. *)
Definition js_in (k : string) (v : JsVal) : Result bool :=
  match v with
  | JObj l => Ok (bool_decide (is_Some (assoc k l)))
  | JArr l =>
      Ok (String.eqb k "length"
          || bool_decide (is_Some (array_index k (length l))))
  | _ =>
      Throw (TypeError ("Cannot use 'in' operator to search for '" ++ k
                          ++ "' in " ++ js_String v))
  end.

(** [for (const x of v)]: the elements the loop visits; throws when [v] is
    not iterable. *)
Definition js_iterate (v : JsVal) : Result (list JsVal) :=
  match v with
  | JArr l => Ok l
  | JStr s => Ok (chars s)
  | _ => Throw (TypeError (js_String v ++ " is not iterable"))
  end.


(** ToPrimitive on a value of a reply.  An object is converted through
    [valueOf] and [toString]: the inherited [valueOf] returns the object
    itself, so the conversion rests on [toString], and a parsed object that
    owns a [toString] owns one that is no function; an array is converted
    through [join], which converts its elements.  The conversion throws a
    [TypeError] on these values and yields [js_String] on every other. *)
Fixpoint unconvertible (v : JsVal) : bool :=
  match v with
  | JObj l => bool_decide (is_Some (assoc "toString" l))
  | JArr l => existsb unconvertible l
  | _ => false
  end.

Definition ToPrimitive (v : JsVal) : Result string :=
  if unconvertible v
  then Throw (TypeError "Cannot convert object to primitive value")
  else Ok (js_String v).

(* ================================================================= *)
(** ** [BigInt(v)] *)

(** The value of a digit character, letters taken case-insensitively. *)
Definition digit_value (c : ascii) : option N :=
  let n := N_of_ascii c in
  if ((48 <=? n) && (n <=? 57))%N then Some (n - 48)%N
  else if ((97 <=? n) && (n <=? 122))%N then Some (n - 87)%N
  else if ((65 <=? n) && (n <=? 90))%N then Some (n - 55)%N
  else None.

Fixpoint parse_digits (base : N) (s : string) (acc : N) : option N :=
  match s with
  | EmptyString => Some acc
  | String c s' =>
      match digit_value c with
      | Some d =>
          if (d <? base)%N then parse_digits base s' (acc * base + d)%N
          else None
      | None => None
      end
  end.

(** One or more digits of the base. *)
Definition parse_number (base : N) (s : string) : option N :=
  match s with
  | EmptyString => None
  | _ => parse_digits base s 0%N
  end.

(** White space: tab, line feed, vertical tab, form feed, carriage return
    and space. *)
Definition is_space (c : ascii) : bool :=
  let n := N_of_ascii c in
  (((9 <=? n) && (n <=? 13)) || (n =? 32))%N.

Fixpoint trim_start (s : string) : string :=
  match s with
  | EmptyString => EmptyString
  | String c s' => if is_space c then trim_start s' else s
  end.

Fixpoint trim_end (s : string) : string :=
  match s with
  | EmptyString => EmptyString
  | String c s' =>
      match trim_end s' with
      | EmptyString => if is_space c then EmptyString else String c EmptyString
      | t => String c t
      end
  end.

Definition trim (s : string) : string := trim_end (trim_start s).

(** The StringToBigInt grammar: an empty or blank string is zero; a decimal
    literal may carry a sign; [0x], [0o] and [0b] literals may not. *)
Definition StringToBigInt (s : string) : option Z :=
  match trim s with
  | EmptyString => Some 0
  | String "0" (String p ds) =>
      if Ascii.eqb p "x" || Ascii.eqb p "X" then Z.of_N <$> parse_number 16 ds
      else if Ascii.eqb p "o" || Ascii.eqb p "O" then Z.of_N <$> parse_number 8 ds
      else if Ascii.eqb p "b" || Ascii.eqb p "B" then Z.of_N <$> parse_number 2 ds
      else Z.of_N <$> parse_number 10 (String "0" (String p ds))
  | String "-" ds => (fun n => - Z.of_N n) <$> parse_number 10 ds
  | String "+" ds => Z.of_N <$> parse_number 10 ds
  | t => Z.of_N <$> parse_number 10 t
  end.

Definition BigInt_of_string (s : string) : Result Z :=
  match StringToBigInt s with
  | Some z => Ok z
  | None => Throw (SyntaxError ("Cannot convert " ++ s ++ " to a BigInt"))
  end.

(** [BigInt(v)] *)
Definition js_BigInt (v : JsVal) : Result Z :=
  match v with
  | JBig z => Ok z
  | JNum z => Ok z
  | JBool b => Ok (if b then 1 else 0)
  | JStr s => BigInt_of_string s
  | JUndefined | JNull =>
      Throw (TypeError ("Cannot convert " ++ js_String v ++ " to a BigInt"))
  | JArr _ | JObj _ => s ← ToPrimitive v; BigInt_of_string s
  end.

(* ================================================================= *)
(** ** [JSON.stringify] *)

Definition hex_digit_upper (n : N) : ascii :=
  if (n <? 10)%N then ascii_of_N (48 + n) else ascii_of_N (55 + n).

Definition hex_digit_lower (n : N) : ascii :=
  if (n <? 10)%N then ascii_of_N (48 + n) else ascii_of_N (87 + n).

Definition backslash : ascii := ascii_of_nat 92.

(** One code unit inside a JSON string literal. *)
Definition quote_char (c : ascii) : string :=
  let n := N_of_ascii c in
  if (n =? 8)%N then String backslash "b"
  else if (n =? 9)%N then String backslash "t"
  else if (n =? 10)%N then String backslash "n"
  else if (n =? 12)%N then String backslash "f"
  else if (n =? 13)%N then String backslash "r"
  else if (n =? 34)%N then String backslash dquote
  else if (n =? 92)%N then String backslash (String backslash EmptyString)
  else if (n <? 32)%N then
    String backslash
      ("u00" ++ String (hex_digit_lower (n / 16))
                  (String (hex_digit_lower (n mod 16)) EmptyString))
  else String c EmptyString.

Fixpoint quote_chars (s : string) : string :=
  match s with
  | EmptyString => EmptyString
  | String c s' => quote_char c ++ quote_chars s'
  end.

Definition QuoteJSONString (s : string) : string :=
  dquote ++ quote_chars s ++ dquote.

(** SerializeJSONArray and SerializeJSONObject, given the serializer of
    their members: an element that serializes to nothing is written as
    [null], a property that serializes to nothing is left out. *)
Fixpoint serialize_elements (member : string -> JsVal -> Result (option string))
  (i : nat) (l : list JsVal) : Result (list string) :=
  match l with
  | [] => Ok []
  | x :: xs =>
      r ← member (decimal (Z.of_nat i)) x;
      rs ← serialize_elements member (S i) xs;
      Ok (default "null" r :: rs)
  end.

Fixpoint serialize_properties (member : string -> JsVal -> Result (option string))
  (l : list (string * JsVal)) : Result (list string) :=
  match l with
  | [] => Ok []
  | (k, x) :: xs =>
      r ← member k x;
      rs ← serialize_properties member xs;
      Ok (match r with
          | Some text => (QuoteJSONString k ++ ":" ++ text) :: rs
          | None => rs
          end)
  end.

(** SerializeJSONProperty: the value is first handed to the replacer, then
    serialized by its type; [None] is JavaScript's [undefined] (nothing is
    written).  The recursion is bounded by [fuel], the call depth left: the
    engine answers an exhausted stack with a [RangeError]. *)
Fixpoint SerializeJSONProperty (fuel : nat)
  (replacer : string -> JsVal -> JsVal) (key : string) (value : JsVal)
  : Result (option string) :=
  match fuel with
  | O => Throw (RangeError "Maximum call stack size exceeded")
  | S fuel' =>
      match replacer key value with
      | JUndefined => Ok None
      | JNull => Ok (Some "null")
      | JBool true => Ok (Some "true")
      | JBool false => Ok (Some "false")
      | JNum z => Ok (Some (decimal z))
      | JBig _ => Throw (TypeError "Do not know how to serialize a BigInt")
      | JStr s => Ok (Some (QuoteJSONString s))
      | JArr l =>
          items ← serialize_elements
                    (SerializeJSONProperty fuel' replacer) 0%nat l;
          Ok (Some ("[" ++ join "," items ++ "]"))
      | JObj l =>
          members ← serialize_properties
                      (SerializeJSONProperty fuel' replacer) l;
          Ok (Some ("{" ++ join "," members ++ "}"))
      end
  end.

(** [JSON.stringify(value, replacer)].  The replacers of the SDK never nest
    a value deeper than it is, so the call is given the value's own depth. *)
Definition JSON_stringify (replacer : string -> JsVal -> JsVal)
  (value : JsVal) : Result (option string) :=
  SerializeJSONProperty (js_depth value) replacer EmptyString value.

(** [JSON.stringify(value)] *)
Definition no_replacer (key : string) (value : JsVal) : JsVal := value.

(** A template literal or a concatenation prints [undefined] by name. *)
Definition string_or_undefined (o : option string) : string :=
  default "undefined" o.

(* ================================================================= *)
(** ** [URLSearchParams] *)

(** Pieces of [s] between occurrences of [sep]. *)
Fixpoint split_on (sep : ascii) (s : string) : list string :=
  match s with
  | EmptyString => [EmptyString]
  | String c s' =>
      if Ascii.eqb c sep then EmptyString :: split_on sep s'
      else match split_on sep s' with
           | [] => [String c EmptyString]
           | p :: ps => String c p :: ps
           end
  end.

(** The part before the first [sep] and the part after it. *)
Fixpoint split_first (sep : ascii) (s : string) : string * string :=
  match s with
  | EmptyString => (EmptyString, EmptyString)
  | String c s' =>
      if Ascii.eqb c sep then (EmptyString, s')
      else let (a, b) := split_first sep s' in (String c a, b)
  end.

(** Percent-decoding, after [+] has been read as a space. *)
Fixpoint percent_decode (s : string) : string :=
  match s with
  | EmptyString => EmptyString
  | String c s' =>
      let rest := percent_decode s' in
      if Ascii.eqb c "+" then String " " rest
      else if Ascii.eqb c "%" then
        match s' with
        | String h (String l s'') =>
            match digit_value h, digit_value l with
            | Some a, Some b =>
                if ((a <? 16) && (b <? 16))%N
                then String (ascii_of_N (a * 16 + b)) (percent_decode s'')
                else String c rest
            | _, _ => String c rest
            end
        | _ => String c rest
        end
      else String c rest
  end.

(** The application/x-www-form-urlencoded parser. *)
Definition parse_urlencoded (s : string) : list (string * string) :=
  let s := match s with String "?" s' => s' | _ => s end in
  omap (fun piece =>
          match piece with
          | EmptyString => None
          | _ => let (n, v) := split_first "=" piece in
                 Some (percent_decode n, percent_decode v)
          end) (split_on "&" s).

(** An array given to [new URLSearchParams] is a sequence of pairs, each an
    array of a name and a value. *)
Fixpoint sequence_pairs (l : list JsVal) : Result (list (string * string)) :=
  match l with
  | [] => Ok []
  | JArr [n; v] :: xs =>
      rs ← sequence_pairs xs; Ok ((js_String n, js_String v) :: rs)
  | _ :: _ =>
      Throw (TypeError "Each query pair must be an iterable [name, value] tuple")
  end.

(** [new URLSearchParams(init)]: an array is a sequence of pairs, another
    object is a record of its own properties, every other value is
    converted to a string and parsed; names and values are converted with
    [String]. *)
Definition URLSearchParams (init : JsVal) : Result (list (string * string)) :=
  match init with
  | JUndefined => Ok []
  | JObj l => Ok (map (fun kv => (fst kv, js_String (snd kv))) l)
  | JArr l => sequence_pairs l
  | _ => Ok (parse_urlencoded (js_String init))
  end.

(** The application/x-www-form-urlencoded byte serializer. *)
Definition urlencode_char (c : ascii) : string :=
  let n := N_of_ascii c in
  if (n =? 32)%N then "+"
  else if (((48 <=? n) && (n <=? 57)) || ((65 <=? n) && (n <=? 90))
           || ((97 <=? n) && (n <=? 122))
           || (n =? 42) || (n =? 45) || (n =? 46) || (n =? 95))%N
  then String c EmptyString
  else String "%" (String (hex_digit_upper (n / 16))
                     (String (hex_digit_upper (n mod 16)) EmptyString)).

Fixpoint urlencode (s : string) : string :=
  match s with
  | EmptyString => EmptyString
  | String c s' => urlencode_char c ++ urlencode s'
  end.

(** [params.toString()] *)
Definition URLSearchParams_toString (params : list (string * string)) : string :=
  join "&" (map (fun nv => urlencode (fst nv) ++ "=" ++ urlencode (snd nv)) params).

(* ================================================================= *)
(** ** [ensureError] ([errors.ts]) *)

(** [ensureError(value)]: an [Error] is returned as it is; any other value
    is wrapped in a fresh [Error] whose message quotes its JSON text. *)
Definition ensureError (value : Thrown) : JsError :=
  match value with
  | ThrownError e => e
  | ThrownValue v =>
      let stringified :=
        match JSON_stringify no_replacer v with
        | Ok text => string_or_undefined text
        | Throw _ => "[Unable to stringify the thrown value]"
        end in
      NativeError "Error"
        ("This value was thrown as is, not through an Error: " ++ stringified)
  end.

(* ================================================================= *)
(** ** The collaborators *)

(** The second argument of [fetch]. *)
Record RequestInit : Type := {
  init_method : string;
  init_headers : list (string * string);
  init_body : option string;
  init_redirect : string
}.

(** A [RequestInit] as the object the program holds; an absent property and
    one that is [undefined] serialize alike. *)
Definition RequestInit_object (r : RequestInit) : JsVal :=
  JObj [("method", JStr (init_method r));
        ("headers", JObj (map (fun kv => (fst kv, JStr (snd kv))) (init_headers r)));
        ("body", match init_body r with Some b => JStr b | None => JUndefined end);
        ("redirect", JStr (init_redirect r))].

(** The object handed to [new SiweMessage]. *)
Record SiweFields : Type := {
  siwe_version : string;
  siwe_address : string;
  siwe_domain : string;
  siwe_uri : string;
  siwe_statement : string;
  siwe_chainId : JsVal;
  siwe_nonce : string;
  siwe_issuedAt : string
}.

(** What the SDK calls and does not define: the transport ([fetch] followed
    by [json()] on its result), the ledger read of abstractionkit's
    [SocialRecoveryModule], ethers' address check and random source, the
    clock and the SIWE library.  [World] is everything outside the process:
    the state of the authority, of the ledger, of the random source and of
    the clock. *)
Class Collaborators : Type := {
  World : Type;
  fetch_json : string -> RequestInit -> World -> World * Outcome JsVal;
  SocialRecoveryModule_nonce :
    JsVal -> string -> string -> World -> World * Outcome Z;
  ethers_getAddress : string -> Outcome string;
  ethers_randomBytes : nat -> World -> World * Outcome (list Byte.byte);
  Date_toISOString : World -> World * string;
  SiweMessage_prepareMessage : SiweFields -> Outcome string
}.

(** An asynchronous function of the SDK: it moves the world and settles with
    a value or a thrown error. *)
Definition M `{Collaborators} (A : Type) : Type := World -> World * Result A.

#[global] Instance M_ret `{Collaborators} : MRet M := fun A a w => (w, Ok a).
#[global] Instance M_bind `{Collaborators} : MBind M := fun A B k m w =>
  match m w with
  | (w', Ok a) => k a w'
  | (w', Throw e) => (w', Throw e)
  end.

Definition liftR `{Collaborators} {A} (r : Result A) : M A := fun w => (w, r).
Definition throw `{Collaborators} {A} (e : JsError) : M A := fun w => (w, Throw e).

(** [Array.prototype.map] with a callback that may throw: left to right,
    stopping at the first throw. *)
Fixpoint mapR {A B} (f : A -> Result B) (l : list A) : Result (list B) :=
  match l with
  | [] => Ok []
  | x :: xs => y ← f x; ys ← mapR f xs; Ok (y :: ys)
  end.

(* ================================================================= *)
(** ** [utils.ts] *)

(** [ethers.hexlify(bytes)] *)
Definition hexlify (bytes : list Byte.byte) : string :=
  "0x" ++ fold_right (fun b acc =>
                        let n := Byte.to_N b in
                        String (hex_digit_lower (n / 16))
                          (String (hex_digit_lower (n mod 16)) acc))
            EmptyString bytes.

(** [ethers.toQuantity(value)]: the shortest hexadecimal form, [0x0] for
    zero; a negative value is refused. *)
Definition toQuantity (value : Z) : Result string :=
  if value <? 0
  then Throw (NativeError "Error" "unsigned value cannot be negative")
  else Ok ("0x" ++ hex (Z.to_N value)).

(** [Number(value)] on a bigint, and [parseInt] on its decimal digits: the
    nearest double, ties to even.  A double holds 53 significant bits, so
    an integer of more bits loses the excess ones; up to [2 ^ 53] every
    integer is kept as it is.  (From [2 ^ 1024] on the source yields
    [Infinity], which the numbers of the model do not hold; [parseInt] may
    in addition ignore digits after the twentieth.) *)
Definition Number_of_bigint (value : Z) : Z :=
  let magnitude := Z.abs value in
  let excess := Z.log2 magnitude + 1 - 53 in
  if excess <=? 0 then value
  else
    let kept := Z.shiftr magnitude excess in
    let dropped := Z.land magnitude (Z.ones excess) in
    let half := Z.shiftl 1 (excess - 1) in
    let rounded :=
      if (half <? dropped) || ((half =? dropped) && Z.odd kept)
      then kept + 1 else kept in
    Z.sgn value * Z.shiftl rounded excess.

(** The message an [Error] is constructed with: [undefined] leaves it
    empty, any other value is converted to a string, which the conversion
    of an object may refuse. *)
Definition Error_message (message : JsVal) : Result string :=
  match message with
  | JUndefined => Ok EmptyString
  | _ => ToPrimitive message
  end.

Section Utils.
Context `{C : Collaborators}.

(** The [catch] block of [generateSIWEMessage]. *)
Definition siwe_failure (accountAddress statement : string) (err : Thrown)
  : JsError :=
  let error := ensureError err in
  SafeRecoveryServiceSdkError SIWE_ERROR (error_message error) (Some error)
    JUndefined
    (JObj [("accountAddress", JStr accountAddress);
           ("statement", JStr statement)]).

Definition generateSIWEMessage (accountAddress statement : string)
  (chainId : Z) (siweDomain siweUri : string) : M string :=
  fun w =>
    let (w1, issuedAt) := Date_toISOString w in
    match ethers_getAddress accountAddress with
    | Throws err => (w1, Throw (siwe_failure accountAddress statement err))
    | Returns address =>
        match ethers_randomBytes 24 w1 with
        | (w2, Throws err) =>
            (w2, Throw (siwe_failure accountAddress statement err))
        | (w2, Returns bytes) =>
            match SiweMessage_prepareMessage
                    {| siwe_version := "1";
                       siwe_address := address;
                       siwe_domain := siweDomain;
                       siwe_uri := siweUri;
                       siwe_statement := statement;
                       siwe_chainId := JNum (Number_of_bigint chainId);
                       siwe_nonce := hexlify bytes;
                       siwe_issuedAt := issuedAt |} with
            | Throws err =>
                (w2, Throw (siwe_failure accountAddress statement err))
            | Returns message => (w2, Ok message)
            end
        end
    end.

Inductive HttpMethod : Type := post | get.

Definition default_headers : list (string * string) :=
  [("Content-Type", "application/json")].

(** The replacer of [sendHttpRequest]: change all bigint values to 0x
    prefixed hex strings. *)
Definition bigint_replacer (key : string) (value : JsVal) : JsVal :=
  match value with
  | JBig z => JStr ("0x" ++ BigInt_toString16 z)
  | _ => value
  end.

(** The first argument of [fetch] and its options, as [sendHttpRequest]
    builds them from its arguments. *)
Definition build_request (rpcUrl : string) (body : JsVal)
  (method : HttpMethod) (headers : list (string * string))
  : Result (string * RequestInit) :=
  rawBody ← JSON_stringify bigint_replacer body;
  match method with
  | post =>
      Ok (rpcUrl,
          {| init_method := "POST"; init_headers := headers;
             init_body := rawBody; init_redirect := "follow" |})
  | get =>
      getParams ← URLSearchParams body;
      Ok (rpcUrl ++ "?" ++ URLSearchParams_toString getParams,
          {| init_method := "GET"; init_headers := headers;
             init_body := None; init_redirect := "follow" |})
  end.

(** The [context] of the errors [sendHttpRequest] throws. *)
Definition request_context (rpcUrl : string) (requestOptions : RequestInit)
  : Result JsVal :=
  text ← JSON_stringify no_replacer (RequestInit_object requestOptions);
  Ok (JObj [("url", JStr rpcUrl);
            ("requestOptions",
              match text with Some t => JStr t | None => JUndefined end)]).

(** What [sendHttpRequest] does with a parsed response. *)
Definition inspect_response (rpcUrl : string) (requestOptions : RequestInit)
  (response : JsVal) : Result JsVal :=
  has_code ← js_in "code" response;
  if has_code : bool then
    let err := response in
    code ← js_get err "code";
    codeString ← ToPrimitive code;
    message ← js_get err "message";
    context ← request_context rpcUrl requestOptions;
    text ← Error_message message;
    match HttpErrorCodeDict_lookup codeString with
    | Some member =>
        Throw (SafeRecoveryServiceSdkError member text None code context)
    | None =>
        Throw (SafeRecoveryServiceSdkError UNKNOWN_ERROR text None code
                 context)
    end
  else Ok response.

Definition sendHttpRequest (rpcUrl : string) (body : JsVal)
  (method : HttpMethod) (headers : list (string * string)) : M JsVal :=
  fun w =>
    match build_request rpcUrl body method headers with
    | Throw e => (w, Throw e)
    | Ok (params, requestOptions) =>
        match fetch_json params requestOptions w with
        | (w', Throws err) =>
            let error := ensureError err in
            (w', context ← request_context rpcUrl requestOptions;
                 Throw (SafeRecoveryServiceSdkError UNKNOWN_ERROR
                          (error_message error) (Some error) JUndefined
                          context))
        | (w', Returns response) =>
            (w', inspect_response rpcUrl requestOptions response)
        end
    end.

(** [parseInt(chainId.toString())].  A number is written with all its
    digits, as the source writes it up to [2 ^ 53]; the properties that
    name the digits of a chain id are stated for chain ids up to that
    bound. *)
Definition chainId_number (chainId : Z) : JsVal :=
  JNum (Number_of_bigint chainId).

Definition getNetworkConfig (serviceEndpoint : string) (chainId : Z)
  : M JsVal :=
  sendHttpRequest (serviceEndpoint ++ "/v1/config/getNetworkConfig")
    (JObj [("chainId", chainId_number chainId)]) get default_headers.

End Utils.

(* ================================================================= *)
(** ** What the service classes share *)

(** The status of a recovery request, a union of three string literals. *)
Inductive RecoveryStatus : Type := PENDING | EXECUTED | FINALIZED.

Definition status_name (status : RecoveryStatus) : string :=
  match status with
  | PENDING => "PENDING"
  | EXECUTED => "EXECUTED"
  | FINALIZED => "FINALIZED"
  end.

Definition is_pending (status : RecoveryStatus) : bool :=
  match status with
  | PENDING => true
  | _ => false
  end.

(** [v == status]: a string is compared as it is and an object through its
    primitive form, which the conversion may refuse; [undefined] and [null]
    equal no string; a boolean, a number and a bigint are compared as
    numbers, and no status name denotes one. *)
Definition loose_eq_status (v : JsVal) (status : RecoveryStatus)
  : Result bool :=
  match v with
  | JStr s => Ok (String.eqb s (status_name status))
  | JArr _ | JObj _ =>
      s ← ToPrimitive v; Ok (String.eqb s (status_name status))
  | JUndefined | JNull | JBool _ | JNum _ | JBig _ => Ok false
  end.

(** [!v] is [negb (js_truthy v)]. *)
Definition js_truthy (v : JsVal) : bool :=
  match v with
  | JUndefined | JNull => false
  | JBool b => b
  | JNum z | JBig z => negb (z =? 0)
  | JStr s => negb (String.eqb s EmptyString)
  | JArr _ | JObj _ => true
  end.

(** The fields of [RecoveryByGuardianService]. *)
Record RecoveryByGuardianService : Type := {
  serviceEndpoint : string;
  chainId : Z;
  recoveryModuleAddress : JsVal
}.

(** The test the methods run on a reply:
    [typeof response !== 'object' || response === null ||
     !(key in response) || !(typeof response[key] === type)]. *)
Definition lacks_field (response : JsVal) (key type : string) : bool :=
  negb (String.eqb (typeof response) "object")
  || match response with JNull => true | _ => false end
  || negb (match js_in key response with Ok b => b | Throw _ => false end)
  || negb (match js_get response key with
           | Ok v => String.eqb (typeof v) type
           | Throw _ => false
           end).

(** [request.nonce = BigInt(request.nonce)].  Only an object owns a [nonce]
    that [BigInt] accepts, so the assignment is reached on objects only. *)
Definition with_bigint_nonce (request : JsVal) : Result JsVal :=
  nonce ← js_get request "nonce";
  z ← js_BigInt nonce;
  match request with
  | JObj l => Ok (JObj (assoc_set "nonce" (JBig z) l))
  | _ => Ok request
  end.

(** The loop that keeps the requests whose status is the one asked for. *)
Fixpoint keep_status (status : RecoveryStatus) (result : list JsVal)
  : Result (list JsVal) :=
  match result with
  | [] => Ok []
  | recoveryRequest :: rest =>
      s ← js_get recoveryRequest "status";
      equal ← loose_eq_status s status;
      kept ← keep_status status rest;
      Ok (if equal : bool then recoveryRequest :: kept else kept)
  end.

(* ================================================================= *)
(** ** [RecoveryByGuardianService], the documented copy *)

Module Documented.
Section Methods.
Context `{C : Collaborators}.
Variable this : RecoveryByGuardianService.

Definition getRecoveryRequests (accountAddress : string) (recoveryNonce : Z)
  : M JsVal :=
  let fullServiceEndpointUrl :=
    serviceEndpoint this ++ "/v1/recoveries/fetchByAddress" in
  nonce ← liftR (toQuantity recoveryNonce);
  response ← sendHttpRequest fullServiceEndpointUrl
               (JObj [("account", JStr accountAddress);
                      ("chainId", chainId_number (chainId this));
                      ("nonce", JStr nonce)])
               get default_headers;
  liftR (requests ← js_iterate response;
         converted ← mapR with_bigint_nonce requests;
         Ok (match response with
             | JArr _ => JArr converted
             | _ => response
             end)).

Definition getRecoveryRequestsForLatestNonce (rpcNode accountAddress : string)
  (status : RecoveryStatus) : M (list JsVal) :=
  recoveryNonce ←
    (fun w =>
       match SocialRecoveryModule_nonce (recoveryModuleAddress this)
               rpcNode accountAddress w with
       | (w', Returns n) => (w', Ok n)
       | (w', Throws err) =>
           let error := ensureError err in
           (w', Throw (SafeRecoveryServiceSdkError UNKNOWN_ERROR
                         "failed fetching nonce" (Some error) JUndefined
                         (JObj [("accountAddress", JStr accountAddress);
                                ("rpcNode", JStr rpcNode)])))
       end);
  if (recoveryNonce =? 0) && negb (is_pending status) then mret []
  else
    let recoveryNonce :=
      if negb (is_pending status) then recoveryNonce - 1 else recoveryNonce in
    result ← getRecoveryRequests accountAddress recoveryNonce;
    liftR (requests ← js_iterate result; keep_status status requests).

Definition getPendingRecoveryRequestsForLatestNonce
  (rpcNode accountAddress : string) : M (list JsVal) :=
  getRecoveryRequestsForLatestNonce rpcNode accountAddress PENDING.

Definition getExecutedRecoveryRequestForLatestNonce
  (rpcNode accountAddress : string) : M JsVal :=
  recoveryRequests ←
    getRecoveryRequestsForLatestNonce rpcNode accountAddress EXECUTED;
  if (length recoveryRequests =? 0)%nat then mret JNull
  else if (length recoveryRequests =? 1)%nat
  then mret (nth 0 recoveryRequests JUndefined)
  else throw (SafeRecoveryServiceSdkError BAD_DATA
                "getExecutedRecoveryRequestsForLatestNonce failed"
                (Some (ensureError (ThrownValue
                   (JStr "there can be only one EXECUTED recovery per nonce"))))
                JUndefined JUndefined).

Definition getFinalizedRecoveryRequestForLatestNonce
  (rpcNode accountAddress : string) : M JsVal :=
  recoveryRequests ←
    getRecoveryRequestsForLatestNonce rpcNode accountAddress FINALIZED;
  if (length recoveryRequests =? 0)%nat then mret JNull
  else if (length recoveryRequests =? 1)%nat
  then mret (nth 0 recoveryRequests JUndefined)
  else throw (SafeRecoveryServiceSdkError BAD_DATA
                "getFinalizedRecoveryRequestsForLatestNonce failed"
                (Some (ensureError (ThrownValue
                   (JStr "there can be only one FINALIZED recovery per nonce"))))
                JUndefined JUndefined).

Definition createRecoveryRequest (accountAddress : string)
  (newOwners : list string) (newThreshold : Z)
  (guardianAddress guardianSignature : string) : M JsVal :=
  let fullServiceEndpointUrl := serviceEndpoint this ++ "/v1/recoveries/create" in
  response ← sendHttpRequest fullServiceEndpointUrl
               (JObj [("account", JStr accountAddress);
                      ("newOwners", JArr (map JStr newOwners));
                      ("newThreshold", JNum newThreshold);
                      ("chainId", chainId_number (chainId this));
                      ("signer", JStr guardianAddress);
                      ("signature", JStr guardianSignature)])
               post default_headers;
  liftR (with_bigint_nonce response).

Definition submitGuardianSignatureForRecoveryRequest
  (id guardianAddress guardianSignature : string) : M JsVal :=
  let fullServiceEndpointUrl := serviceEndpoint this ++ "/v1/recoveries/sign" in
  response ← sendHttpRequest fullServiceEndpointUrl
               (JObj [("id", JStr id);
                      ("signer", JStr guardianAddress);
                      ("signature", JStr guardianSignature)])
               post default_headers;
  if lacks_field response "success" "boolean"
  then throw (SafeRecoveryServiceSdkError BAD_DATA
                (fullServiceEndpointUrl ++ " failed")
                (Some (ensureError (ThrownValue response))) JUndefined
                (JObj [("id", JStr id);
                       ("signer", JStr guardianAddress);
                       ("signature", JStr guardianSignature)]))
  else liftR (js_get response "success").

Definition executeRecoveryRequest (id : JsVal) : M JsVal :=
  let fullServiceEndpointUrl := serviceEndpoint this ++ "/v1/recoveries/execute" in
  response ← sendHttpRequest fullServiceEndpointUrl (JObj [("id", id)])
               post default_headers;
  if lacks_field response "success" "boolean"
  then throw (SafeRecoveryServiceSdkError BAD_DATA
                (fullServiceEndpointUrl ++ " failed")
                (Some (ensureError (ThrownValue response))) JUndefined
                (JObj [("id", id)]))
  else liftR (js_get response "success").

Definition finalizeRecoveryRequest (id : JsVal) : M JsVal :=
  let fullServiceEndpointUrl := serviceEndpoint this ++ "/v1/recoveries/finalize" in
  response ← sendHttpRequest fullServiceEndpointUrl (JObj [("id", id)])
               post default_headers;
  if lacks_field response "success" "boolean"
  then throw (SafeRecoveryServiceSdkError BAD_DATA
                (fullServiceEndpointUrl ++ " failed")
                (Some (ensureError (ThrownValue response))) JUndefined
                (JObj [("id", id)]))
  else liftR (js_get response "success").

End Methods.
End Documented.

(* ================================================================= *)
(** ** [RecoveryByGuardianService], the undocumented copy *)

Module Duplicate.
Section Methods.
Context `{C : Collaborators}.
Variable this : RecoveryByGuardianService.

Definition getRecoveryRequests (accountAddress : string) (recoveryNonce : Z)
  : M JsVal :=
  let fullServiceEndpointUrl :=
    serviceEndpoint this ++ "/v1/recoveries/fetchByAddress" in
  nonce ← liftR (toQuantity recoveryNonce);
  response ← sendHttpRequest fullServiceEndpointUrl
               (JObj [("account", JStr accountAddress);
                      ("chainId", chainId_number (chainId this));
                      ("nonce", JStr nonce)])
               get default_headers;
  liftR (requests ← js_iterate response;
         converted ← mapR with_bigint_nonce requests;
         Ok (match response with
             | JArr _ => JArr converted
             | _ => response
             end)).

Definition getRecoveryRequestsForLatestNonce (rpcNode accountAddress : string)
  (status : RecoveryStatus) : M (list JsVal) :=
  recoveryNonce ←
    (fun w =>
       match SocialRecoveryModule_nonce (recoveryModuleAddress this)
               rpcNode accountAddress w with
       | (w', Returns n) => (w', Ok n)
       | (w', Throws err) =>
           let error := ensureError err in
           (w', Throw (SafeRecoveryServiceSdkError UNKNOWN_ERROR
                         "failed fetching nonce" (Some error) JUndefined
                         (JObj [("accountAddress", JStr accountAddress);
                                ("rpcNode", JStr rpcNode)])))
       end);
  if (recoveryNonce =? 0) && negb (is_pending status) then mret []
  else
    let recoveryNonce :=
      if negb (is_pending status) then recoveryNonce - 1 else recoveryNonce in
    result ← getRecoveryRequests accountAddress recoveryNonce;
    liftR (requests ← js_iterate result; keep_status status requests).

Definition getPendingRecoveryRequestsForLatestNonce
  (rpcNode accountAddress : string) : M (list JsVal) :=
  getRecoveryRequestsForLatestNonce rpcNode accountAddress PENDING.

Definition getExecutedRecoveryRequestForLatestNonce
  (rpcNode accountAddress : string) : M JsVal :=
  recoveryRequests ←
    getRecoveryRequestsForLatestNonce rpcNode accountAddress EXECUTED;
  if (length recoveryRequests =? 0)%nat then mret JNull
  else if (length recoveryRequests =? 1)%nat
  then mret (nth 0 recoveryRequests JUndefined)
  else throw (SafeRecoveryServiceSdkError BAD_DATA
                "getExecutedRecoveryRequestsForLatestNonce failed"
                (Some (ensureError (ThrownValue
                   (JStr "there can be only one EXECUTED recovery per nonce"))))
                JUndefined JUndefined).

Definition getFinalizedRecoveryRequestForLatestNonce
  (rpcNode accountAddress : string) : M JsVal :=
  recoveryRequests ←
    getRecoveryRequestsForLatestNonce rpcNode accountAddress FINALIZED;
  if (length recoveryRequests =? 0)%nat then mret JNull
  else if (length recoveryRequests =? 1)%nat
  then mret (nth 0 recoveryRequests JUndefined)
  else throw (SafeRecoveryServiceSdkError BAD_DATA
                "getFinalizedRecoveryRequestsForLatestNonce failed"
                (Some (ensureError (ThrownValue
                   (JStr "there can be only one FINALIZED recovery per nonce"))))
                JUndefined JUndefined).

Definition createRecoveryRequest (accountAddress : string)
  (newOwners : list string) (newThreshold : Z)
  (guardianAddress guardianSignature : string) : M JsVal :=
  let fullServiceEndpointUrl := serviceEndpoint this ++ "/v1/recoveries/create" in
  response ← sendHttpRequest fullServiceEndpointUrl
               (JObj [("account", JStr accountAddress);
                      ("newOwners", JArr (map JStr newOwners));
                      ("newThreshold", JNum newThreshold);
                      ("chainId", chainId_number (chainId this));
                      ("signer", JStr guardianAddress);
                      ("signature", JStr guardianSignature)])
               post default_headers;
  liftR (with_bigint_nonce response).

Definition submitGuardianSignatureForRecoveryRequest
  (id guardianAddress guardianSignature : string) : M JsVal :=
  let fullServiceEndpointUrl := serviceEndpoint this ++ "/v1/recoveries/sign" in
  response ← sendHttpRequest fullServiceEndpointUrl
               (JObj [("id", JStr id);
                      ("signer", JStr guardianAddress);
                      ("signature", JStr guardianSignature)])
               post default_headers;
  if lacks_field response "success" "boolean"
  then throw (SafeRecoveryServiceSdkError BAD_DATA
                (fullServiceEndpointUrl ++ " failed")
                (Some (ensureError (ThrownValue response))) JUndefined
                (JObj [("id", JStr id);
                       ("signer", JStr guardianAddress);
                       ("signature", JStr guardianSignature)]))
  else liftR (js_get response "success").

Definition executeRecoveryRequest (id : JsVal) : M JsVal :=
  let fullServiceEndpointUrl := serviceEndpoint this ++ "/v1/recoveries/execute" in
  response ← sendHttpRequest fullServiceEndpointUrl (JObj [("id", id)])
               post default_headers;
  if lacks_field response "success" "boolean"
  then throw (SafeRecoveryServiceSdkError BAD_DATA
                (fullServiceEndpointUrl ++ " failed")
                (Some (ensureError (ThrownValue response))) JUndefined
                (JObj [("id", id)]))
  else liftR (js_get response "success").

Definition finalizeRecoveryRequest (id : JsVal) : M JsVal :=
  let fullServiceEndpointUrl := serviceEndpoint this ++ "/v1/recoveries/finalize" in
  response ← sendHttpRequest fullServiceEndpointUrl (JObj [("id", id)])
               post default_headers;
  if lacks_field response "success" "boolean"
  then throw (SafeRecoveryServiceSdkError BAD_DATA
                (fullServiceEndpointUrl ++ " failed")
                (Some (ensureError (ThrownValue response))) JUndefined
                (JObj [("id", id)]))
  else liftR (js_get response "success").

End Methods.
End Duplicate.

(* ================================================================= *)
(** ** [RecoveryByCustodialGuardian] *)

(** The fields of [RecoveryByCustodialGuardian]. *)
Record RecoveryByCustodialGuardian : Type := {
  custodial_serviceEndpoint : string;
  custodial_chainId : Z;
  siweDomain : string;
  siweUri : string
}.

(** What [submitCustodialGuardianSignatureChallenge] returns. *)
Record SignatureChallengeResult : Type := {
  success : JsVal;
  custodianGuardianAddress : JsVal;
  custodianGuardianSignature : JsVal
}.

(** The elements of a registrations reply are checked one by one. *)
Definition malformed_registration (element : JsVal) : bool :=
  lacks_field element "id" "string"
  || lacks_field element "channel" "string"
  || lacks_field element "target" "string".

Module Custodial.
Section Methods.
Context `{C : Collaborators}.
Variable this : RecoveryByCustodialGuardian.

Definition getRegistrations
  (accountAddress siweMessage eip1271SiweContractSignature : string)
  : M JsVal :=
  let fullServiceEndpointUrl :=
    custodial_serviceEndpoint this ++ "/v1/auth/registrations" in
  response ← sendHttpRequest fullServiceEndpointUrl
               (JObj [("account", JStr accountAddress);
                      ("chainId", chainId_number (custodial_chainId this));
                      ("message", JStr siweMessage);
                      ("signature", JStr eip1271SiweContractSignature)])
               get default_headers;
  registrations ← liftR (js_get response "registrations");
  elements ← liftR (js_iterate registrations);
  if existsb malformed_registration elements
  then
    text ← liftR (JSON_stringify no_replacer response);
    throw (SafeRecoveryServiceSdkError BAD_DATA
             (fullServiceEndpointUrl ++ " failed") None JUndefined
             (JObj [("response",
                      match text with Some t => JStr t | None => JUndefined end)]))
  else mret registrations.

Definition createRegistrationToRecovery
  (accountAddress channel channelTarget siweMessage
     eip1271SiweContractSignature : string) : M JsVal :=
  let fullServiceEndpointUrl :=
    custodial_serviceEndpoint this ++ "/v1/auth/register" in
  response ← sendHttpRequest fullServiceEndpointUrl
               (JObj [("account", JStr accountAddress);
                      ("chainId", chainId_number (custodial_chainId this));
                      ("channel", JStr channel);
                      ("target", JStr channelTarget);
                      ("message", JStr siweMessage);
                      ("signature", JStr eip1271SiweContractSignature)])
               post default_headers;
  if lacks_field response "challengeId" "string"
  then throw (SafeRecoveryServiceSdkError BAD_DATA
                (fullServiceEndpointUrl ++ " failed")
                (Some (ensureError (ThrownValue response))) JUndefined
                (JObj [("account", JStr accountAddress);
                       ("chainId", chainId_number (custodial_chainId this));
                       ("channel", JStr channel);
                       ("channelTarget", JStr channelTarget);
                       ("message", JStr siweMessage);
                       ("eip1271SiweContractSignature",
                         JStr eip1271SiweContractSignature)]))
  else liftR (js_get response "challengeId").

Definition submitRegistrationChallenge (challengeId otpChallenge : string)
  : M JsVal :=
  let fullServiceEndpointUrl :=
    custodial_serviceEndpoint this ++ "/v1/auth/submit" in
  response ← sendHttpRequest fullServiceEndpointUrl
               (JObj [("challengeId", JStr challengeId);
                      ("challenge", JStr otpChallenge)])
               post default_headers;
  if lacks_field response "registrationId" "string"
     || lacks_field response "guardianAddress" "string"
  then throw (SafeRecoveryServiceSdkError BAD_DATA
                (fullServiceEndpointUrl ++ " failed")
                (Some (ensureError (ThrownValue response))) JUndefined
                (JObj [("challengeId", JStr challengeId);
                       ("challenge", JStr otpChallenge)]))
  else mret response.

Definition deleteRegistration
  (registrationId siweMessage eip1271SiweContractSignature : string)
  : M JsVal :=
  let fullServiceEndpointUrl :=
    custodial_serviceEndpoint this ++ "/v1/auth/delete" in
  response ← sendHttpRequest fullServiceEndpointUrl
               (JObj [("registrationId", JStr registrationId);
                      ("message", JStr siweMessage);
                      ("signature", JStr eip1271SiweContractSignature)])
               post default_headers;
  if lacks_field response "success" "boolean"
  then throw (SafeRecoveryServiceSdkError BAD_DATA
                (fullServiceEndpointUrl ++ " failed")
                (Some (ensureError (ThrownValue response))) JUndefined
                (JObj [("registrationId", JStr registrationId);
                       ("message", JStr siweMessage);
                       ("eip1271SiweContractSignature",
                         JStr eip1271SiweContractSignature)]))
  else liftR (js_get response "success").

Definition requestCustodialGuardianSignatureChallenge
  (accountAddress : string) (newOwners : list string) (newThreshold : Z)
  : M JsVal :=
  let fullServiceEndpointUrl :=
    custodial_serviceEndpoint this ++ "/v1/auth/signature/request" in
  response ← sendHttpRequest fullServiceEndpointUrl
               (JObj [("account", JStr accountAddress);
                      ("newOwners", JArr (map JStr newOwners));
                      ("newThreshold", JNum newThreshold);
                      ("chainId", chainId_number (custodial_chainId this))])
               post default_headers;
  if lacks_field response "requestId" "string"
     || lacks_field response "requiredVerifications" "number"
  then throw (SafeRecoveryServiceSdkError BAD_DATA
                (fullServiceEndpointUrl ++ " failed")
                (Some (ensureError (ThrownValue response))) JUndefined
                (JObj [("account", JStr accountAddress);
                       ("newOwners", JArr (map JStr newOwners));
                       ("newThreshold", JNum newThreshold);
                       ("chainId", chainId_number (custodial_chainId this))]))
  else mret response.

Definition submitCustodialGuardianSignatureChallenge
  (requestId challengeId otpChallenge : string) : M SignatureChallengeResult :=
  let fullServiceEndpointUrl :=
    custodial_serviceEndpoint this ++ "/v1/auth/signature/submit" in
  response ← sendHttpRequest fullServiceEndpointUrl
               (JObj [("requestId", JStr requestId);
                      ("challengeId", JStr challengeId);
                      ("challenge", JStr otpChallenge)])
               post default_headers;
  success_value ← liftR (js_get response "success");
  signer ← liftR (js_get response "signer");
  signature ← liftR (js_get response "signature");
  mret {| success := success_value;
          custodianGuardianAddress := signer;
          custodianGuardianSignature := signature |}.

Definition createAndExecuteRecoveryRequest (accountAddress : string)
  (newOwners : list string) (newThreshold : Z)
  (custodianGuardianAddress custodianGuardianSignature : string) : M JsVal :=
  networkConfig ← getNetworkConfig (custodial_serviceEndpoint this)
                    (custodial_chainId this);
  moduleAddress ← liftR (js_get networkConfig "moduleAddress");
  let recoveryByGuardianService :=
    {| serviceEndpoint := custodial_serviceEndpoint this;
       chainId := custodial_chainId this;
       recoveryModuleAddress := moduleAddress |} in
  recoveryRequest ←
    Documented.createRecoveryRequest recoveryByGuardianService
      accountAddress newOwners newThreshold
      custodianGuardianAddress custodianGuardianSignature;
  id ← liftR (js_get recoveryRequest "id");
  success_value ←
    Documented.executeRecoveryRequest recoveryByGuardianService id;
  if negb (js_truthy success_value)
  then throw (SafeRecoveryServiceSdkError BAD_DATA
                "executeRecoveryRequest failed" None JUndefined
                (JObj [("recoveryRequestId", id)]))
  else mret recoveryRequest.

End Methods.
End Custodial.

(* ================================================================= *)
(** ** Views used in the statements *)

Definition is_digit (c : ascii) : bool :=
  let n := N_of_ascii c in ((48 <=? n) && (n <=? 57))%N.

Definition is_object (v : JsVal) : bool :=
  match v with
  | JObj _ => true
  | _ => false
  end.

(** A property the program reads by a name that is neither [length] nor an
    index: own property of an object, [undefined] elsewhere. *)
Definition field (v : JsVal) (k : string) : JsVal :=
  match v with
  | JObj l => default JUndefined (assoc k l)
  | _ => JUndefined
  end.



(* ================================================================= *)
(** ** A scripted world *)

(** Collaborators for running the SDK on concrete inputs.  The authority
    answers from a script, one reply per request, and every request sent is
    recorded; the ledger answers every read with one fixed outcome.  The
    address check accepts [0x] followed by forty hexadecimal digits and
    returns the address as given; the random source yields zero bytes; the
    clock stands still; the SIWE library renders the EIP-4361 text and, as
    the [siwe] package does, refuses an empty domain by throwing an object
    that is no [Error]. *)
Record Script : Type := {
  replies : list (Outcome JsVal);
  ledger_nonce : Outcome Z;
  sent : list (string * RequestInit)
}.

Definition scripted_fetch (url : string) (init : RequestInit) (w : Script)
  : Script * Outcome JsVal :=
  match replies w with
  | [] =>
      ({| replies := []; ledger_nonce := ledger_nonce w;
          sent := sent w ++ [(url, init)] |},
       Throws (ThrownError (TypeError "fetch failed")))
  | reply :: rest =>
      ({| replies := rest; ledger_nonce := ledger_nonce w;
          sent := sent w ++ [(url, init)] |},
       reply)
  end.

Definition is_hex_digit (c : ascii) : bool :=
  match digit_value c with
  | Some d => (d <? 16)%N
  | None => false
  end.

Definition scripted_getAddress (address : string) : Outcome string :=
  match address with
  | String "0" (String "x" digits) =>
      if (String.length digits =? 40)%nat
         && forallb is_hex_digit (list_ascii_of_string digits)
      then Returns address
      else Throws (ThrownError (TypeError "invalid address"))
  | _ => Throws (ThrownError (TypeError "invalid address"))
  end.

Definition newline : string := String (ascii_of_nat 10) EmptyString.

Definition scripted_prepareMessage (f : SiweFields) : Outcome string :=
  match siwe_domain f with
  | EmptyString =>
      Throws (ThrownValue (JObj [("type", JStr "Invalid domain.");
                                 ("expected", JStr " to be a valid domain.")]))
  | _ =>
      Returns (siwe_domain f
               ++ " wants you to sign in with your Ethereum account:" ++ newline
               ++ siwe_address f ++ newline ++ newline
               ++ siwe_statement f ++ newline ++ newline
               ++ "URI: " ++ siwe_uri f ++ newline
               ++ "Version: " ++ siwe_version f ++ newline
               ++ "Chain ID: " ++ js_String (siwe_chainId f) ++ newline
               ++ "Nonce: " ++ siwe_nonce f ++ newline
               ++ "Issued At: " ++ siwe_issuedAt f)
  end.

Definition Scripted : Collaborators := {|
  World := Script;
  fetch_json := scripted_fetch;
  SocialRecoveryModule_nonce := fun _ _ _ w => (w, ledger_nonce w);
  ethers_getAddress := scripted_getAddress;
  ethers_randomBytes := fun n w => (w, Returns (repeat Byte.x00 n));
  Date_toISOString := fun w => (w, "2025-01-01T00:00:00.000Z");
  SiweMessage_prepareMessage := scripted_prepareMessage
|}.

(** A script: the replies to come and the ledger's nonce. *)
Definition script (rs : list (Outcome JsVal)) (n : Outcome Z) : Script :=
  {| replies := rs; ledger_nonce := n; sent := [] |}.

(** Sample data. *)
Definition sample_account : string := "0x00000000000000000000000000000000000000a1".
Definition sample_guardian : string := "0x00000000000000000000000000000000000000b2".
Definition sample_rpc : string := "https://rpc.example".

Definition sample_service : RecoveryByGuardianService :=
  {| serviceEndpoint := "https://service.example";
     chainId := 1;
     recoveryModuleAddress := JStr "0x949d01d424bE050D09C16025dd007CB59b3A8c66" |}.

Definition sample_custodial : RecoveryByCustodialGuardian :=
  {| custodial_serviceEndpoint := "https://service.example";
     custodial_chainId := 1;
     siweDomain := "service://safe-recovery-service";
     siweUri := "service://safe-recovery-service" |}.

Definition sample_request (id status : string) (nonce : string) : JsVal :=
  JObj [("id", JStr id); ("account", JStr sample_account);
        ("nonce", JStr nonce); ("status", JStr status)].

(** The ledger's nonce is 2; the authority holds an executed and a pending
    request under nonce 1. *)
Definition two_requests_at_nonce_1 : Script :=
  script [Returns (JArr [sample_request "r1" "EXECUTED" "0x1";
                         sample_request "r2" "PENDING" "0x1"])]
         (Returns 2).

(** What a caller of the resolver gets from the list [l] it yielded: no
    request, the single request, or a BAD_DATA failure. *)
Definition at_most_one `{Collaborators} (l : list JsVal)
  (out : World * Result JsVal) (w : World) : Prop :=
  (l = [] -> out = (w, Ok JNull))
  /\ (forall r, l = [r] -> out = (w, Ok r))
  /\ ((1 < length l)%nat ->
      exists e, out = (w, Throw e)
                /\ is_sdk_error e = true /\ error_code e = Some BAD_DATA).

(** The ledger's nonce is 2; the authority holds two executed requests
    under nonce 1. *)
Definition two_executed_at_nonce_1 : Script :=
  script [Returns (JArr [sample_request "r1" "EXECUTED" "0x1";
                         sample_request "r2" "EXECUTED" "0x1"])]
         (Returns 2).

(** The ledger's nonce is 2; the authority holds one finalized request
    under nonce 1. *)
Definition one_finalized_at_nonce_1 : Script :=
  script [Returns (JArr [sample_request "r1" "FINALIZED" "0x1"])]
         (Returns 2).

(** The [RecoveryByGuardianService] that [createAndExecuteRecoveryRequest]
    constructs from the network configuration it fetched. *)
Definition service_of (this : RecoveryByCustodialGuardian) (networkConfig : JsVal)
  : RecoveryByGuardianService :=
  {| serviceEndpoint := custodial_serviceEndpoint this;
     chainId := custodial_chainId this;
     recoveryModuleAddress := field networkConfig "moduleAddress" |}.

(** The authority answers the configuration request, creates the recovery
    request and then reports that execution did, or did not, succeed. *)
Definition create_then_execute (executed : bool) : Script :=
  script [Returns (JObj [("moduleAddress",
                           JStr "0x949d01d424bE050D09C16025dd007CB59b3A8c66")]);
          Returns (sample_request "r1" "PENDING" "0x0");
          Returns (JObj [("success", JBool executed)])]
         (Returns 0).

(** The payload in which every bigint has been replaced by the string
    [0x] followed by its hexadecimal digits. *)
Fixpoint hex_bigints (v : JsVal) : JsVal :=
  match v with
  | JBig z => JStr ("0x" ++ BigInt_toString16 z)
  | JArr l => JArr (map hex_bigints l)
  | JObj l => JObj (map (fun kv => (fst kv, hex_bigints (snd kv))) l)
  | _ => v
  end.

(** No bigint anywhere in the value. *)
Fixpoint no_bigint (v : JsVal) : bool :=
  match v with
  | JBig _ => false
  | JArr l => forallb no_bigint l
  | JObj l => forallb (fun kv => no_bigint (snd kv)) l
  | _ => true
  end.

(** The authority answers a fetch with an embedded error code. *)
Definition not_found_reply : Script :=
  script [Returns (JObj [("code", JNum 404); ("message", JStr "not found")])]
         (Returns 0).

(** The authority answers with an error reply whose code is none of the
    ten keys, but the name of a property that every object inherits. *)
Definition inherited_code_reply : Script :=
  script [Returns (JObj [("code", JStr "constructor");
                         ("message", JStr "boom")])]
         (Returns 0).


(* ================================================================= *)
(** ** The custodial signature request *)

(** The payload of [submitCustodialGuardianSignatureChallenge]. *)
Definition submission (requestId challengeId otpChallenge : string) : JsVal :=
  JObj [("requestId", JStr requestId);
        ("challengeId", JStr challengeId);
        ("challenge", JStr otpChallenge)].

Definition submit_url (this : RecoveryByCustodialGuardian) : string :=
  custodial_serviceEndpoint this ++ "/v1/auth/signature/submit".

(** The result carries an (address, signature) pair. *)
Definition populated (res : SignatureChallengeResult) : bool :=
  String.eqb (typeof (custodianGuardianAddress res)) "string"
  && String.eqb (typeof (custodianGuardianSignature res)) "string".

Definition returns_pair (out : Result SignatureChallengeResult) : bool :=
  match out with
  | Ok res => populated res
  | Throw _ => false
  end.

(** The authority's reply releases its signature: it is no error reply and
    carries a signer and a signature. *)
Definition releases (reply : Outcome JsVal) : bool :=
  match reply with
  | Returns r =>
      match js_in "code" r with
      | Ok false =>
          String.eqb (typeof (field r "signer")) "string"
          && String.eqb (typeof (field r "signature")) "string"
      | _ => false
      end
  | Throws _ => false
  end.

(** The reply verifies the channel of the submission: it is no error reply
    and its [success] is [true]. *)
Definition verifies (reply : Outcome JsVal) : bool :=
  match reply with
  | Returns r =>
      match js_in "code" r, field r "success" with
      | Ok false, JBool true => true
      | _, _ => false
      end
  | Throws _ => false
  end.

(** The caller is told that the channel of the submission is verified. *)
Definition verified (out : Result SignatureChallengeResult) : bool :=
  match out with
  | Ok res => match success res with JBool true => true | _ => false end
  | Throw _ => false
  end.

(** The request a submission sends: a POST whose body is the JSON text of
    the payload. *)
Definition submission_request (requestId challengeId otpChallenge : string)
  : RequestInit :=
  {| init_method := "POST"; init_headers := default_headers;
     init_body :=
       Some ("{" ++ join ","
                      [QuoteJSONString "requestId" ++ ":"
                         ++ QuoteJSONString requestId;
                       QuoteJSONString "challengeId" ++ ":"
                         ++ QuoteJSONString challengeId;
                       QuoteJSONString "challenge" ++ ":"
                         ++ QuoteJSONString otpChallenge]
                 ++ "}");
     init_redirect := "follow" |}.

(** A session is the sequence of submissions made for one signature
    request, each a challenge id and the code entered for it.
    [session_replies] are the authority's replies to the requests the
    submissions send, [session_results] what
    [submitCustodialGuardianSignatureChallenge] gives its caller. *)
Fixpoint session_replies `{C : Collaborators}
  (this : RecoveryByCustodialGuardian) (requestId : string)
  (session : list (string * string)) (w : World) : list (Outcome JsVal) :=
  match session with
  | [] => []
  | (challengeId, otpChallenge) :: rest =>
      let (w', reply) :=
        fetch_json (submit_url this)
          (submission_request requestId challengeId otpChallenge) w in
      reply :: session_replies this requestId rest w'
  end.

Fixpoint session_results `{C : Collaborators}
  (this : RecoveryByCustodialGuardian) (requestId : string)
  (session : list (string * string)) (w : World)
  : list (Result SignatureChallengeResult) :=
  match session with
  | [] => []
  | (challengeId, otpChallenge) :: rest =>
      let (w', out) :=
        Custodial.submitCustodialGuardianSignatureChallenge this requestId
          challengeId otpChallenge w in
      out :: session_results this requestId rest w'
  end.

(** The result is the reply handed on: the three fields as they are for a
    reply without a [code], an error for any other reply and for a failure
    of the transport. *)
Definition relayed (reply : Outcome JsVal)
  (out : Result SignatureChallengeResult) : Prop :=
  match reply with
  | Returns r =>
      match js_in "code" r with
      | Ok false =>
          out = Ok {| success := field r "success";
                      custodianGuardianAddress := field r "signer";
                      custodianGuardianSignature := field r "signature" |}
      | _ => exists e, out = Throw e
      end
  | Throws _ => exists e, out = Throw e
  end.

(** What a session shows of each submission: the challenge id, whether the
    channel was verified, and whether the pair was released. *)
Definition authority_trace (session : list (string * string))
  (replies : list (Outcome JsVal)) : list (string * bool * bool) :=
  zip_with (fun submission reply =>
              (fst submission, verifies reply, releases reply))
    session replies.

Definition caller_trace (session : list (string * string))
  (results : list (Result SignatureChallengeResult))
  : list (string * bool * bool) :=
  zip_with (fun submission out =>
              (fst submission, verified out, returns_pair out))
    session results.

(** Verify-all release for a request that requires [k] verifications: the
    pair is released with the submission that brings the number of
    distinct verified channels, [seen] so far, to [k], and with no
    other. *)
Fixpoint verify_all_release (k : Z) (seen : list string)
  (trace : list (string * bool * bool)) : bool :=
  match trace with
  | [] => true
  | (challengeId, channel_verified, pair_released) :: rest =>
      let seen' :=
        if channel_verified && negb (bool_decide (challengeId ∈ seen))
        then challengeId :: seen else seen in
      Bool.eqb pair_released
        ((Z.of_nat (length seen) <? k) && (Z.of_nat (length seen') =? k))
      && verify_all_release k seen' rest
  end.

(** An authority that answers the second of two required verifications
    with its signature. *)
Definition verify_all_authority : Script :=
  script [Returns (JObj [("requestId", JStr "request-1");
                         ("requiredVerifications", JNum 2);
                         ("auths",
                           JArr [JObj [("challengeId", JStr "challenge-email");
                                       ("channel", JStr "email");
                                       ("target", JStr "user@example.com")];
                                 JObj [("challengeId", JStr "challenge-sms");
                                       ("channel", JStr "sms");
                                       ("target", JStr "+15550100")]])]);
          Returns (JObj [("success", JBool true)]);
          Returns (JObj [("success", JBool true);
                         ("signer", JStr sample_guardian);
                         ("signature", JStr "0xsignature")])]
         (Returns 0).

(** An authority that answers the first of two required verifications with
    its signature already. *)
Definition eager_authority : Script :=
  script [Returns (JObj [("requestId", JStr "request-1");
                         ("requiredVerifications", JNum 2);
                         ("auths",
                           JArr [JObj [("challengeId", JStr "challenge-email");
                                       ("channel", JStr "email");
                                       ("target", JStr "user@example.com")];
                                 JObj [("challengeId", JStr "challenge-sms");
                                       ("channel", JStr "sms");
                                       ("target", JStr "+15550100")]])]);
          Returns (JObj [("success", JBool true);
                         ("signer", JStr sample_guardian);
                         ("signature", JStr "0xsignature")])]
         (Returns 0).

(** An authority whose reply to a submission has no [success] field. *)
Definition reply_without_success : Script :=
  script [Returns (JObj [("signer", JStr sample_guardian)])] (Returns 0).

(** The fields [generateSIWEMessage] hands to the SIWE library. *)
Definition siwe_fields (address statement : string) (chainId : Z)
  (siweDomain siweUri : string) (bytes : list Byte.byte) (issuedAt : string)
  : SiweFields :=
  {| siwe_version := "1";
     siwe_address := address;
     siwe_domain := siweDomain;
     siwe_uri := siweUri;
     siwe_statement := statement;
     siwe_chainId := JNum (Number_of_bigint chainId);
     siwe_nonce := hexlify bytes;
     siwe_issuedAt := issuedAt |}.

(** A world in which nothing is scripted. *)
Definition idle : Script := script [] (Returns 0).

(** The authority answers a request with an empty object. *)
Definition empty_object_reply : Script := script [Returns (JObj [])] (Returns 0).

(** The authority answers a request with [null]. *)
Definition null_reply : Script := script [Returns JNull] (Returns 0).

(** The authority answers a registrations request with one well-formed
    registration and one without a target. *)
Definition registration_without_target : Script :=
  script [Returns (JObj [("registrations",
            JArr [JObj [("id", JStr "1"); ("channel", JStr "email");
                        ("target", JStr "user@example.com")];
                  JObj [("id", JStr "2"); ("channel", JStr "sms")]])])]
         (Returns 0).

(** An authority whose reply to a submission has a [success] that is no
    boolean. *)
Definition reply_with_text_success : Script :=
  script [Returns (JObj [("success", JStr "yes")])] (Returns 0).

(** The ledger read fails. *)
Definition ledger_down : Script :=
  script [] (Throws (ThrownValue (JStr "timeout"))).

(* ================================================================= *)
(** ** [String.prototype.replace] with a string pattern *)

(** The rest of [s] after the prefix [p], when [s] starts with [p]. *)
Fixpoint strip_prefix (p s : string) : option string :=
  match p, s with
  | EmptyString, _ => Some s
  | String a p', String b s' =>
      if Ascii.eqb a b then strip_prefix p' s' else None
  | String _ _, EmptyString => None
  end.

(** The first occurrence of [pattern] in [s]: what precedes it and what
    follows it. *)
Fixpoint find_first (pattern s : string) : option (string * string) :=
  match strip_prefix pattern s with
  | Some rest => Some (EmptyString, rest)
  | None =>
      match s with
      | EmptyString => None
      | String c s' =>
          match find_first pattern s' with
          | Some (before, after) => Some (String c before, after)
          | None => None
          end
      end
  end.

(** GetSubstitution for a string pattern (no captures): in the replacement
    text [$$] is a dollar sign, [$&] the matched text, [$`] what precedes
    the match and [$'] what follows it; any other dollar sign stands for
    itself. *)
Fixpoint GetSubstitution (matched before after replacement : string) : string :=
  match replacement with
  | EmptyString => EmptyString
  | String d r =>
      if Ascii.eqb d "$" then
        match r with
        | EmptyString => "$"
        | String c rest =>
            if Ascii.eqb c "$"
            then "$" ++ GetSubstitution matched before after rest
            else if Ascii.eqb c "&"
            then matched ++ GetSubstitution matched before after rest
            else if Ascii.eqb c "`"
            then before ++ GetSubstitution matched before after rest
            else if Ascii.eqb c "'"
            then after ++ GetSubstitution matched before after rest
            else String d (GetSubstitution matched before after r)
        end
      else String d (GetSubstitution matched before after r)
  end.

(** [s.replace(pattern, replacement)]: the first occurrence only. *)
Definition String_replace (s pattern replacement : string) : string :=
  match find_first pattern s with
  | Some (before, after) =>
      before ++ GetSubstitution pattern before after replacement ++ after
  | None => s
  end.

(* ================================================================= *)
(** ** [SafeRecoveryServiceSdkError.stringify] *)

(** The string a code is. *)
Definition code_name (code : BasicErrorCode) : string :=
  match code with
  | UNKNOWN_ERROR => "UNKNOWN_ERROR"
  | TIMEOUT => "TIMEOUT"
  | SIWE_ERROR => "SIWE_ERROR"
  | BAD_DATA => "BAD_DATA"
  | Http HTTP_BAD_REQUEST => "HTTP_BAD_REQUEST"
  | Http HTTP_UNAUTHORIZED => "HTTP_UNAUTHORIZED"
  | Http HTTP_FORBIDDEN => "HTTP_FORBIDDEN"
  | Http HTTP_NOT_FOUND => "HTTP_NOT_FOUND"
  | Http HTTP_CONFLICT => "HTTP_CONFLICT"
  | Http HTTP_TOO_MANY_REQUESTS => "HTTP_TOO_MANY_REQUESTS"
  | Http HTTP_INTERNAL_ERROR => "HTTP_INTERNAL_ERROR"
  | Http HTTP_BAD_GATEWAY => "HTTP_BAD_GATEWAY"
  | Http HTTP_SERVICE_UNAVAILABLE => "HTTP_SERVICE_UNAVAILABLE"
  | Http HTTP_GATEWAY_TIMEOUT => "HTTP_GATEWAY_TIMEOUT"
  end.

(** The property list [stringify] hands to [JSON.stringify]. *)
Definition stringify_keys : list string :=
  ["name"; "code"; "message"; "cause"; "errno"; "context"].

(** SerializeJSONObject under a property list: the listed names are read
    from the object in the order of the list, and only they are written. *)
Fixpoint serialize_listed (member : string -> JsVal -> Result (option string))
  (keys : list string) (l : list (string * JsVal)) : Result (list string) :=
  match keys with
  | [] => Ok []
  | k :: ks =>
      r ← member k (default JUndefined (assoc k l));
      rs ← serialize_listed member ks l;
      Ok (match r with
          | Some text => (QuoteJSONString k ++ ":" ++ text) :: rs
          | None => rs
          end)
  end.

(** SerializeJSONProperty under a property list, which holds for the
    objects at every depth.  A listed name the object lacks is still handed
    to the serializer, as [undefined], so a value needs one call more than
    its depth. *)
Fixpoint SerializeJSONListed (fuel : nat) (keys : list string) (key : string)
  (value : JsVal) : Result (option string) :=
  match fuel with
  | O => Throw (RangeError "Maximum call stack size exceeded")
  | S fuel' =>
      match value with
      | JUndefined => Ok None
      | JNull => Ok (Some "null")
      | JBool true => Ok (Some "true")
      | JBool false => Ok (Some "false")
      | JNum z => Ok (Some (decimal z))
      | JBig _ => Throw (TypeError "Do not know how to serialize a BigInt")
      | JStr s => Ok (Some (QuoteJSONString s))
      | JArr l =>
          items ← serialize_elements (SerializeJSONListed fuel' keys) 0%nat l;
          Ok (Some ("[" ++ join "," items ++ "]"))
      | JObj l =>
          members ← serialize_listed (SerializeJSONListed fuel' keys) keys l;
          Ok (Some ("{" ++ join "," members ++ "}"))
      end
  end.

(** A member of the text of an error object: nothing for [undefined]. *)
Definition listed_member (k : string) (text : option string) : list string :=
  match text with
  | Some t => [QuoteJSONString k ++ ":" ++ t]
  | None => []
  end.

(** The text of a [code] under the property list: a code of the taxonomy
    is a string; a function is left out; [Object.prototype], which has none
    of the listed names, is written as an empty object. *)
Definition code_text (code : CodeValue) : option string :=
  match code with
  | Code c => Some (QuoteJSONString (code_name c))
  | Inherited name =>
      if String.eqb name "__proto__" then Some "{}" else None
  end.

(** [JSON.stringify(error, stringify_keys)] on an error object.  An [Error]
    answers [name] and [message]; a [SafeRecoveryServiceSdkError] answers
    all six names, its [name] being the name of its class; the cause, an
    error object itself, is written under the same list.  The errors are
    those of the model: a cause is an [Error] with a name and a message or
    an SDK error, and the nesting of [errno] and context is what the
    recursion is given room for. *)
Fixpoint stringify_error (e : JsError) : Result string :=
  match e with
  | NativeError name message =>
      Ok ("{" ++ join ","
                   [QuoteJSONString "name" ++ ":" ++ QuoteJSONString name;
                    QuoteJSONString "message" ++ ":" ++ QuoteJSONString message]
              ++ "}")
  | SafeRecoveryServiceSdkError code message cause errno context =>
      cause_text ← match cause with
                   | Some c => t ← stringify_error c; Ok (Some t)
                   | None => Ok None
                   end;
      errno_text ← SerializeJSONListed (S (js_depth errno)) stringify_keys
                     "errno" errno;
      context_text ← SerializeJSONListed (S (js_depth context)) stringify_keys
                       "context" context;
      Ok ("{" ++ join ","
                   ([QuoteJSONString "name" ++ ":"
                       ++ QuoteJSONString "SafeRecoveryServiceSdkError"]
                    ++ listed_member "code" (code_text code)
                    ++ [QuoteJSONString "message" ++ ":"
                          ++ QuoteJSONString message]
                    ++ listed_member "cause" cause_text
                    ++ listed_member "errno" errno_text
                    ++ listed_member "context" context_text)
              ++ "}")
  end.

(* ================================================================= *)
(** ** [RecoveryByCustodialGuardian], the SIWE statements and the wrappers *)

(** The channel of a registration, a union of two string literals. *)
Inductive Channel : Type := sms | email.

Definition channel_name (channel : Channel) : string :=
  match channel with
  | sms => "sms"
  | email => "email"
  end.

(** The statement of [createRegistrationToRecoverySiweStatementToSign],
    after its two replacements. *)
Definition registration_statement (channel : Channel) (channelTarget : string)
  : string :=
  String_replace
    (String_replace
       "I authorize Safe Recovery Service to sign a recovery request for my account after I authenticate using {{target}} (via {{channel}})"
       "{{target}}" channelTarget)
    "{{channel}}" (channel_name channel).

(** The statement of [deleteRegistrationSiweStatementToSign]. *)
Definition delete_registration_statement (registrationId : string) : string :=
  String_replace
    "I request to remove the authentication method with registration ID {{id}} from my account on Safe Recovery Service"
    "{{id}}" registrationId.

Module CustodialStatements.
Section Methods.
Context `{C : Collaborators}.
Variable this : RecoveryByCustodialGuardian.

Definition getRegistrationsSiweStatementToSign (accountAddress : string)
  : M string :=
  let statement :=
    "I request to retrieve all authentication methods currently registered to my account with Safe Recovery Service" in
  fun w =>
    match generateSIWEMessage accountAddress statement (custodial_chainId this)
            (siweDomain this) (siweUri this) w with
    | (w', Ok message) => (w', Ok message)
    | (w', Throw err) =>
        let error := ensureError (ThrownError err) in
        (w', Throw (SafeRecoveryServiceSdkError SIWE_ERROR
                      (error_message error) (Some error) JUndefined
                      (JObj [("accountAddress", JStr accountAddress);
                             ("statement", JStr statement);
                             ("chainId",
                               chainId_number (custodial_chainId this))])))
    end.

Definition createRegistrationToRecoverySiweStatementToSign
  (accountAddress : string) (channel : Channel) (channelTarget : string)
  : M string :=
  generateSIWEMessage accountAddress
    (registration_statement channel channelTarget)
    (custodial_chainId this) (siweDomain this) (siweUri this).

Definition createRegistrationToEmailRecoverySiweStatementToSign
  (accountAddress email_address : string) : M string :=
  createRegistrationToRecoverySiweStatementToSign accountAddress email
    email_address.

Definition createRegistrationToSmsRecoverySiweStatementToSign
  (accountAddress phoneNumber : string) : M string :=
  createRegistrationToRecoverySiweStatementToSign accountAddress sms
    phoneNumber.

Definition createRegistrationToEmailRecovery
  (accountAddress email_address siweMessage eip1271SiweContractSignature
     : string) : M JsVal :=
  Custodial.createRegistrationToRecovery this accountAddress "email"
    email_address siweMessage eip1271SiweContractSignature.

Definition createRegistrationToSmsRecovery
  (accountAddress phoneNumber siweMessage eip1271SiweContractSignature
     : string) : M JsVal :=
  Custodial.createRegistrationToRecovery this accountAddress "sms"
    phoneNumber siweMessage eip1271SiweContractSignature.

Definition deleteRegistrationSiweStatementToSign
  (accountAddress registrationId : string) : M string :=
  generateSIWEMessage accountAddress
    (delete_registration_statement registrationId)
    (custodial_chainId this) (siweDomain this) (siweUri this).

End Methods.
End CustodialStatements.

(* ================================================================= *)
(** ** [Alerts] *)

(** The fields of [Alerts]. *)
Record Alerts : Type := {
  alerts_serviceEndpoint : string;
  alerts_chainId : Z;
  alerts_siweDomain : string;
  alerts_siweUri : string
}.

(** The text of a reply put in the context of a BAD_DATA error:
    [JSON.stringify(response, replacer)] with the bigint replacer. *)
Definition response_text (response : JsVal) : Result JsVal :=
  text ← JSON_stringify bigint_replacer response;
  Ok (match text with Some t => JStr t | None => JUndefined end).

Module AlertsService.
Section Methods.
Context `{C : Collaborators}.
Variable this : Alerts.

Definition getSubscriptionsSiweStatementToSign (ownerAddress : string)
  : M string :=
  let statement :=
    "I request to retrieve all Social Recovery Module alert subscriptions linked to my account" in
  fun w =>
    match generateSIWEMessage ownerAddress statement (alerts_chainId this)
            (alerts_siweDomain this) (alerts_siweUri this) w with
    | (w', Ok message) => (w', Ok message)
    | (w', Throw err) =>
        let error := ensureError (ThrownError err) in
        (w', Throw (SafeRecoveryServiceSdkError SIWE_ERROR
                      (error_message error) (Some error) JUndefined
                      (JObj [("owner", JStr ownerAddress);
                             ("statement", JStr statement);
                             ("chainId", chainId_number (alerts_chainId this))])))
    end.

Definition getActiveSubscriptions
  (accountAddress ownerAddress siweMessage siweOwnerSignature : string)
  : M JsVal :=
  let fullServiceEndpointUrl :=
    alerts_serviceEndpoint this ++ "/v1/alerts/subscriptions" in
  response ← sendHttpRequest fullServiceEndpointUrl
               (JObj [("account", JStr accountAddress);
                      ("owner", JStr ownerAddress);
                      ("chainId", chainId_number (alerts_chainId this));
                      ("message", JStr siweMessage);
                      ("signature", JStr siweOwnerSignature)])
               get default_headers;
  subscriptions ← liftR (js_get response "subscriptions");
  elements ← liftR (js_iterate subscriptions);
  if existsb malformed_registration elements
  then
    text ← liftR (response_text response);
    throw (SafeRecoveryServiceSdkError BAD_DATA
             (fullServiceEndpointUrl ++ " failed") None JUndefined
             (JObj [("response", text)]))
  else mret subscriptions.

Definition createSubscription
  (accountAddress ownerAddress : string) (channel : Channel)
  (channelTarget siweMessage siweOwnerSignature : string) : M JsVal :=
  let fullServiceEndpointUrl :=
    alerts_serviceEndpoint this ++ "/v1/alerts/subscribe" in
  response ← sendHttpRequest fullServiceEndpointUrl
               (JObj [("account", JStr accountAddress);
                      ("owner", JStr ownerAddress);
                      ("chainId", chainId_number (alerts_chainId this));
                      ("channel", JStr (channel_name channel));
                      ("target", JStr channelTarget);
                      ("message", JStr siweMessage);
                      ("signature", JStr siweOwnerSignature)])
               post default_headers;
  if lacks_field response "subscriptionId" "string"
  then
    text ← liftR (response_text response);
    throw (SafeRecoveryServiceSdkError BAD_DATA
             (fullServiceEndpointUrl ++ " failed") None JUndefined
             (JObj [("account", JStr accountAddress);
                    ("owner", JStr ownerAddress);
                    ("chainId", chainId_number (alerts_chainId this));
                    ("channel", JStr (channel_name channel));
                    ("target", JStr channelTarget);
                    ("siweMessage", JStr siweMessage);
                    ("signature", JStr siweOwnerSignature);
                    ("response", text)]))
  else liftR (js_get response "subscriptionId").

Definition createEmailSubscription
  (accountAddress ownerAddress email_address siweMessage siweOwnerSignature
     : string) : M JsVal :=
  createSubscription accountAddress ownerAddress email email_address
    siweMessage siweOwnerSignature.

Definition activateSubscription (subscriptionId otpChallenge : string)
  : M JsVal :=
  let fullServiceEndpointUrl :=
    alerts_serviceEndpoint this ++ "/v1/alerts/activate" in
  response ← sendHttpRequest fullServiceEndpointUrl
               (JObj [("subscriptionId", JStr subscriptionId);
                      ("challenge", JStr otpChallenge)])
               post default_headers;
  if lacks_field response "success" "boolean"
  then throw (SafeRecoveryServiceSdkError BAD_DATA
                (fullServiceEndpointUrl ++ " failed")
                (Some (ensureError (ThrownValue response))) JUndefined
                (JObj [("subscriptionId", JStr subscriptionId)]))
  else liftR (js_get response "success").

Definition unsubscribe
  (subscriptionId ownerAddress siweMessage siweOwnerSignature : string)
  : M JsVal :=
  let fullServiceEndpointUrl :=
    alerts_serviceEndpoint this ++ "/v1/alerts/unsubscribe" in
  response ← sendHttpRequest fullServiceEndpointUrl
               (JObj [("subscriptionId", JStr subscriptionId);
                      ("owner", JStr ownerAddress);
                      ("chainId", chainId_number (alerts_chainId this));
                      ("message", JStr siweMessage);
                      ("signature", JStr siweOwnerSignature)])
               post default_headers;
  if lacks_field response "success" "boolean"
  then throw (SafeRecoveryServiceSdkError BAD_DATA
                (fullServiceEndpointUrl ++ " failed")
                (Some (ensureError (ThrownValue response))) JUndefined
                (JObj [("subscriptionId", JStr subscriptionId)]))
  else liftR (js_get response "success").

Definition unsubscribeSiweStatementToSign (ownerAddress : string) : M string :=
  generateSIWEMessage ownerAddress
    "I request to unsubscribe from all Social Recovery Module alert subscriptions linked to my account"
    (alerts_chainId this) (alerts_siweDomain this) (alerts_siweUri this).

End Methods.
End AlertsService.

(* ================================================================= *)
(** ** More views and scripted worlds *)

(** A value that is neither an object nor an array. *)
Definition is_primitive (v : JsVal) : bool :=
  match v with
  | JObj _ | JArr _ => false
  | _ => true
  end.

(** The authority answers one request with [r]. *)
Definition reply_of (r : JsVal) : Script := script [Returns r] (Returns 0).

(** The scripted world once its replies are used up and one request has
    been sent. *)
Definition after_request (url : string) (init : RequestInit) : Script :=
  {| replies := []; ledger_nonce := Returns 0; sent := [(url, init)] |}.

Definition execute_url : string :=
  "https://service.example/v1/recoveries/execute".

(** The request [executeRecoveryRequest] sends for the request [r1]. *)
Definition execute_r1 : RequestInit :=
  {| init_method := "POST"; init_headers := default_headers;
     init_body := Some ("{" ++ dquote ++ "id" ++ dquote ++ ":"
                          ++ dquote ++ "r1" ++ dquote ++ "}");
     init_redirect := "follow" |}.

(** A registration, or an alert subscription, as the element checks of
    [getRegistrations] and [getActiveSubscriptions] accept it: an object
    whose own [id], [channel] and [target] are strings. *)
Definition is_registration (element : JsVal) : bool :=
  is_object element
  && String.eqb (typeof (field element "id")) "string"
  && String.eqb (typeof (field element "channel")) "string"
  && String.eqb (typeof (field element "target")) "string".

Definition sample_alerts : Alerts :=
  {| alerts_serviceEndpoint := "https://service.example";
     alerts_chainId := 1;
     alerts_siweDomain := "service://safe-recovery-service";
     alerts_siweUri := "service://safe-recovery-service" |}.

(** The character occurs in the string. *)
Fixpoint has_char (c : ascii) (s : string) : bool :=
  match s with
  | EmptyString => false
  | String a s' => Ascii.eqb a c || has_char c s'
  end.

(** The request [getNetworkConfig] sends, and every other GET request of
    the SDK but for its address. *)
Definition get_request : RequestInit :=
  {| init_method := "GET"; init_headers := default_headers;
     init_body := None; init_redirect := "follow" |}.

(** The request [converted] is the request [request] of a reply with its
    nonce made a bigint: both are objects, the nonce of the second is the
    bigint [BigInt] makes of the nonce of the first, and every other
    property is as it was. *)
Definition nonce_converted (request converted : JsVal) : Prop :=
  is_object request = true
  /\ is_object converted = true
  /\ (exists z, js_BigInt (field request "nonce") = Ok z
                /\ field converted "nonce" = JBig z)
  /\ forall k, k <> "nonce" -> field converted k = field request k.

(** Two alert subscriptions, or two registrations. *)
Definition two_targets : JsVal :=
  JArr [JObj [("id", JStr "1"); ("channel", JStr "email");
              ("target", JStr "user@example.com")];
        JObj [("id", JStr "2"); ("channel", JStr "sms");
              ("target", JStr "+15550100")]].

(** The value of hexadecimal digits read from the left. *)
Fixpoint hex_value (d : Hexadecimal.uint) (acc : N) : N :=
  match d with
  | Hexadecimal.Nil => acc
  | Hexadecimal.D0 l => hex_value l (acc * 16 + 0)
  | Hexadecimal.D1 l => hex_value l (acc * 16 + 1)
  | Hexadecimal.D2 l => hex_value l (acc * 16 + 2)
  | Hexadecimal.D3 l => hex_value l (acc * 16 + 3)
  | Hexadecimal.D4 l => hex_value l (acc * 16 + 4)
  | Hexadecimal.D5 l => hex_value l (acc * 16 + 5)
  | Hexadecimal.D6 l => hex_value l (acc * 16 + 6)
  | Hexadecimal.D7 l => hex_value l (acc * 16 + 7)
  | Hexadecimal.D8 l => hex_value l (acc * 16 + 8)
  | Hexadecimal.D9 l => hex_value l (acc * 16 + 9)
  | Hexadecimal.Da l => hex_value l (acc * 16 + 10)
  | Hexadecimal.Db l => hex_value l (acc * 16 + 11)
  | Hexadecimal.Dc l => hex_value l (acc * 16 + 12)
  | Hexadecimal.Dd l => hex_value l (acc * 16 + 13)
  | Hexadecimal.De l => hex_value l (acc * 16 + 14)
  | Hexadecimal.Df l => hex_value l (acc * 16 + 15)
  end%N.

(* ================================================================= *)
(** * Properties *)

(** ** The JavaScript layer on small inputs *)

Example stringify_object :
  JSON_stringify no_replacer
    (JObj [("a", JNum 1); ("b", JArr [JStr "x"; JUndefined; JNull]);
           ("c", JUndefined); ("d", JObj [])])
  = Ok (Some ("{" ++ dquote ++ "a" ++ dquote ++ ":1,"
                  ++ dquote ++ "b" ++ dquote ++ ":["
                  ++ dquote ++ "x" ++ dquote ++ ",null,null],"
                  ++ dquote ++ "d" ++ dquote ++ ":{}}")).
Proof. reflexivity. Qed.

Example stringify_bigint_throws :
  JSON_stringify no_replacer (JObj [("nonce", JBig 255)])
  = Throw (TypeError "Do not know how to serialize a BigInt").
Proof. reflexivity. Qed.

Example stringify_bigint_replaced :
  JSON_stringify bigint_replacer (JObj [("nonce", JBig 255)])
  = Ok (Some ("{" ++ dquote ++ "nonce" ++ dquote ++ ":"
                  ++ dquote ++ "0xff" ++ dquote ++ "}")).
Proof. reflexivity. Qed.

Example BigInt_of_quantity : js_BigInt (JStr "0x1a") = Ok 26.
Proof. reflexivity. Qed.

Example BigInt_of_decimal : js_BigInt (JStr " -12 ") = Ok (-12).
Proof. reflexivity. Qed.

Example BigInt_of_undefined :
  js_BigInt JUndefined
  = Throw (TypeError "Cannot convert undefined to a BigInt").
Proof. reflexivity. Qed.

Example query_of_record :
  URLSearchParams_toString
    [("account", "0xAb c"); ("chainId", "1"); ("nonce", "0x1")]
  = "account=0xAb+c&chainId=1&nonce=0x1".
Proof. reflexivity. Qed.

Example in_null_throws :
  js_in "code" JNull
  = Throw (TypeError "Cannot use 'in' operator to search for 'code' in null").
Proof. reflexivity. Qed.

Example index_of_array :
  js_get (JArr [JNum 7; JNum 8]) "1" = Ok (JNum 8)
  /\ js_get (JArr [JNum 7; JNum 8]) "01" = Ok JUndefined
  /\ js_get (JArr [JNum 7; JNum 8]) "length" = Ok (JNum 2).
Proof. repeat split. Qed.

Example status_of_array_is_loosely_equal :
  loose_eq_status (JArr [JStr "PENDING"]) PENDING = Ok true
  /\ loose_eq_status (JNum 0) PENDING = Ok false
  /\ loose_eq_status (JObj [("toString", JNum 1)]) PENDING
     = Throw (TypeError "Cannot convert object to primitive value").
Proof. repeat split; reflexivity. Qed.

Example ensureError_of_string :
  ensureError (ThrownValue (JStr "boom"))
  = NativeError "Error"
      ("This value was thrown as is, not through an Error: "
         ++ dquote ++ "boom" ++ dquote).
Proof. reflexivity. Qed.

(** ** Facts about the JavaScript layer *)

Lemma string_of_uint_digit (d : Decimal.uint) :
  exists c s, DecimalString.NilZero.string_of_uint d = String c s
              /\ is_digit c = true.
Proof.
  destruct d; simpl; eauto.
Qed.

Lemma decimal_of_nat_digit (i : nat) :
  exists c s, decimal (Z.of_nat i) = String c s /\ is_digit c = true.
Proof.
  unfold decimal. destruct (Z.of_nat i) eqn:E; simpl.
  - eauto.
  - apply string_of_uint_digit.
  - lia.
Qed.

(** A key that does not start with a digit is no array index. *)
Lemma array_index_not_numeric (c : ascii) (s : string) (len : nat) :
  is_digit c = false -> array_index (String c s) len = None.
Proof.
  intros Hc. unfold array_index.
  generalize 0%nat. induction len as [|len IH]; intros start; simpl.
  - reflexivity.
  - destruct (decimal_of_nat_digit start) as (c' & s' & -> & Hc').
    simpl. destruct (Ascii.eqb_spec c' c) as [->|_].
    + congruence.
    + apply IH.
Qed.

Lemma with_bigint_nonce_object (x y : JsVal) :
  with_bigint_nonce x = Ok y -> is_object y = true.
Proof.
  unfold with_bigint_nonce.
  destruct x; simpl; try discriminate.
  - rewrite array_index_not_numeric by reflexivity. simpl. discriminate.
  - rewrite array_index_not_numeric by reflexivity. simpl. discriminate.
  - destruct (js_BigInt _); simpl; [|discriminate].
    intros [= <-]. reflexivity.
Qed.

Lemma mapR_with_bigint_nonce_objects (l l' : list JsVal) :
  mapR with_bigint_nonce l = Ok l' -> forallb is_object l' = true.
Proof.
  revert l'. induction l as [|x xs IH]; simpl; intros l'.
  - intros [= <-]. reflexivity.
  - destruct (with_bigint_nonce x) eqn:Hx; simpl; [|discriminate].
    destruct (mapR with_bigint_nonce xs) eqn:Hxs; simpl; [|discriminate].
    intros [= <-]. simpl.
    rewrite (with_bigint_nonce_object _ _ Hx). simpl. apply IH. reflexivity.
Qed.



(** ** Facts about the monad and the transport *)

Lemma M_bind_run `{C : Collaborators} {A B} (m : M A) (k : A -> M B) (w : World) :
  (m ≫= k) w = match m w with
               | (w', Ok a) => k a w'
               | (w', Throw e) => (w', Throw e)
               end.
Proof. reflexivity. Qed.

Lemma inspect_response_ok `{C : Collaborators} rpcUrl requestOptions response r :
  inspect_response rpcUrl requestOptions response = Ok r ->
  r = response /\ js_in "code" response = Ok false.
Proof.
  unfold inspect_response.
  destruct (js_in "code" response) as [[|]|e]; simpl; try discriminate.
  - destruct (js_get response "code"); simpl; try discriminate.
    destruct (ToPrimitive _); simpl; try discriminate.
    destruct (js_get response "message"); simpl; try discriminate.
    destruct (request_context rpcUrl requestOptions); simpl; try discriminate.
    destruct (Error_message _); simpl; try discriminate.
    destruct (HttpErrorCodeDict_lookup _); discriminate.
  - intros [= <-]. split; reflexivity.
Qed.

Lemma sendHttpRequest_ok `{C : Collaborators} rpcUrl body method headers w w' r :
  sendHttpRequest rpcUrl body method headers w = (w', Ok r) ->
  js_in "code" r = Ok false.
Proof.
  unfold sendHttpRequest.
  destruct (build_request rpcUrl body method headers) as [[params opts]|e];
    [|discriminate].
  destruct (fetch_json params opts w) as [w1 [response|err]].
  - intros [= <- H]. apply inspect_response_ok in H as [-> H]. exact H.
  - simpl. destruct (request_context rpcUrl opts); simpl; discriminate.
Qed.

(** A reply that [sendHttpRequest] hands back is an object without a
    [code], or an array. *)
Lemma no_code_shape (r : JsVal) :
  js_in "code" r = Ok false ->
  (exists l, r = JObj l /\ assoc "code" l = None) \/ (exists l, r = JArr l).
Proof.
  destruct r; simpl; try discriminate; eauto.
  intros [= H]. left. eexists; split; [reflexivity|].
  destruct (assoc "code" l); [|reflexivity].
  rewrite bool_decide_eq_false in H. exfalso. apply H. eauto.
Qed.

Lemma getRecoveryRequests_ok_array `{C : Collaborators} this account n w w' fetched :
  Documented.getRecoveryRequests this account n w = (w', Ok fetched) ->
  exists l, fetched = JArr l /\ forallb is_object l = true.
Proof.
  unfold Documented.getRecoveryRequests.
  rewrite M_bind_run. unfold liftR at 1.
  destruct (toQuantity n) as [q|e]; [|discriminate].
  rewrite M_bind_run.
  destruct (sendHttpRequest _ _ _ _ w) as [w1 [response|e]] eqn:Hsend;
    [|discriminate].
  apply sendHttpRequest_ok in Hsend.
  unfold liftR. intros [= <- H].
  destruct (no_code_shape _ Hsend) as [(l & -> & _)|(l & ->)]; simpl in H.
  - discriminate.
  - destruct (mapR with_bigint_nonce l) as [l'|e] eqn:Hmap; simpl in H;
      [|discriminate].
    injection H as <-. eexists; split; [reflexivity|].
    eapply mapR_with_bigint_nonce_objects; eassumption.
Qed.

(** ** Callers of the resolver *)

Lemma single_or_bad_data `{C : Collaborators} (l : list JsVal) (w : World)
  (message : string) (cause : option JsError) :
  at_most_one l
    ((if (length l =? 0)%nat then mret JNull
      else if (length l =? 1)%nat then mret (nth 0 l JUndefined)
      else throw (SafeRecoveryServiceSdkError BAD_DATA message cause
                    JUndefined JUndefined)) w) w.
Proof.
  repeat split.
  - intros ->. reflexivity.
  - intros r ->. reflexivity.
  - intros Hlen. destruct l as [|x [|y l]]; simpl in Hlen; try lia.
    eexists. repeat split.
Qed.

(** C2.  When the resolver yields the list [l] of EXECUTED requests,
    [getExecutedRecoveryRequestForLatestNonce] returns [null] if [l] is
    empty, the request if [l] holds exactly one, and throws a
    [SafeRecoveryServiceSdkError] with code BAD_DATA if [l] holds more than
    one; [getFinalizedRecoveryRequestForLatestNonce] does the same with the
    FINALIZED requests. *)
Theorem single_request_or_BAD_DATA `{C : Collaborators}
  (this : RecoveryByGuardianService) (rpcNode accountAddress : string)
  (w w1 : World) (l : list JsVal) :
  (Documented.getRecoveryRequestsForLatestNonce this rpcNode accountAddress
     EXECUTED w = (w1, Ok l) ->
   at_most_one l
     (Documented.getExecutedRecoveryRequestForLatestNonce this rpcNode
        accountAddress w) w1)
  /\ (Documented.getRecoveryRequestsForLatestNonce this rpcNode accountAddress
        FINALIZED w = (w1, Ok l) ->
      at_most_one l
        (Documented.getFinalizedRecoveryRequestForLatestNonce this rpcNode
           accountAddress w) w1).
Proof.
  split; intros H.
  - unfold Documented.getExecutedRecoveryRequestForLatestNonce.
    rewrite M_bind_run, H. apply single_or_bad_data.
  - unfold Documented.getFinalizedRecoveryRequestForLatestNonce.
    rewrite M_bind_run, H. apply single_or_bad_data.
Qed.

Lemma single_request_or_BAD_DATA_witness :
  (exists w1 e,
      Documented.getExecutedRecoveryRequestForLatestNonce (C := Scripted)
        sample_service sample_rpc sample_account two_executed_at_nonce_1
      = (w1, Throw e) /\ error_code e = Some BAD_DATA)
  /\ (exists w1,
         Documented.getFinalizedRecoveryRequestForLatestNonce (C := Scripted)
           sample_service sample_rpc sample_account one_finalized_at_nonce_1
         = (w1, Ok (JObj [("id", JStr "r1"); ("account", JStr sample_account);
                          ("nonce", JBig 1); ("status", JStr "FINALIZED")]))).
Proof.
  split.
  - edestruct (single_request_or_BAD_DATA (C := Scripted) sample_service
                 sample_rpc sample_account two_executed_at_nonce_1)
      as [H _].
    specialize (H ltac:(vm_compute; reflexivity)).
    destruct H as (_ & _ & H).
    destruct (H ltac:(simpl; lia)) as (e & He & _ & Hc).
    eexists _, e. split; [exact He | exact Hc].
  - edestruct (single_request_or_BAD_DATA (C := Scripted) sample_service
                 sample_rpc sample_account one_finalized_at_nonce_1)
      as [_ H].
    specialize (H ltac:(vm_compute; reflexivity)).
    destruct H as (_ & H & _).
    eexists. apply H. reflexivity.
Defined.

(** ** Replies and their fields *)

(** Reading a named property of a reply that [sendHttpRequest] handed
    back. *)
Lemma js_get_field (r : JsVal) (c : ascii) (s : string) :
  js_in "code" r = Ok false ->
  is_digit c = false ->
  String.eqb (String c s) "length" = false ->
  js_get r (String c s) = Ok (field r (String c s)).
Proof.
  intros Hin Hc Hlen.
  destruct (no_code_shape _ Hin) as [(l & -> & _)|(l & ->)].
  - reflexivity.
  - unfold js_get. rewrite Hlen.
    rewrite array_index_not_numeric by exact Hc. reflexivity.
Qed.

Lemma js_get_object (l : list (string * JsVal)) (k : string) :
  js_get (JObj l) k = Ok (field (JObj l) k).
Proof. reflexivity. Qed.

(** A reply that passes the [success] test holds a boolean there. *)
Lemma has_boolean_field (response : JsVal) (k : string) :
  lacks_field response k "boolean" = false ->
  exists b, js_get response k = Ok (JBool b).
Proof.
  unfold lacks_field. intros H.
  apply orb_false_elim in H as [H Hty].
  destruct (js_get response k) as [v|e]; [|discriminate].
  destruct v; try discriminate. eauto.
Qed.

Lemma executeRecoveryRequest_boolean `{C : Collaborators} this id w w' v :
  Documented.executeRecoveryRequest this id w = (w', Ok v) ->
  exists b, v = JBool b.
Proof.
  unfold Documented.executeRecoveryRequest. rewrite M_bind_run.
  destruct (sendHttpRequest _ _ _ _ w) as [w1 [response|e]]; [|discriminate].
  destruct (lacks_field response "success" "boolean") eqn:Hl; [discriminate|].
  destruct (has_boolean_field _ _ Hl) as [b Hb].
  unfold liftR. rewrite Hb. intros [= _ <-]. eauto.
Qed.

Lemma createRecoveryRequest_object `{C : Collaborators} this a o t g s w w' r :
  Documented.createRecoveryRequest this a o t g s w = (w', Ok r) ->
  is_object r = true.
Proof.
  unfold Documented.createRecoveryRequest. rewrite M_bind_run.
  destruct (sendHttpRequest _ _ _ _ w) as [w1 [response|e]]; [|discriminate].
  unfold liftR. intros [= _ H]. eapply with_bigint_nonce_object; eassumption.
Qed.

(** ** Create and execute *)

(** C4.  [createAndExecuteRecoveryRequest] returns a request [r] only when
    the network configuration was fetched, [createRecoveryRequest] returned
    [r] and [executeRecoveryRequest] on [r.id] then returned [true]; and
    whenever, after these two steps, [executeRecoveryRequest] returns
    [false], it throws a [SafeRecoveryServiceSdkError] (code BAD_DATA)
    instead of returning [r]. *)
Theorem createAndExecuteRecoveryRequest_fails_loudly `{C : Collaborators}
  (this : RecoveryByCustodialGuardian) (accountAddress : string)
  (newOwners : list string) (newThreshold : Z)
  (guardianAddress guardianSignature : string) (w : World) :
  let run :=
    Custodial.createAndExecuteRecoveryRequest this accountAddress newOwners
      newThreshold guardianAddress guardianSignature w in
  let created cfg :=
    Documented.createRecoveryRequest (service_of this cfg) accountAddress
      newOwners newThreshold guardianAddress guardianSignature in
  let executed cfg r :=
    Documented.executeRecoveryRequest (service_of this cfg) (field r "id") in
  (forall w' r,
      run = (w', Ok r) ->
      exists w1 cfg w2,
        getNetworkConfig (custodial_serviceEndpoint this)
          (custodial_chainId this) w = (w1, Ok cfg)
        /\ created cfg w1 = (w2, Ok r)
        /\ executed cfg r w2 = (w', Ok (JBool true)))
  /\ (forall w1 cfg w2 r w3,
         getNetworkConfig (custodial_serviceEndpoint this)
           (custodial_chainId this) w = (w1, Ok cfg) ->
         created cfg w1 = (w2, Ok r) ->
         executed cfg r w2 = (w3, Ok (JBool false)) ->
         exists e, run = (w3, Throw e)
                   /\ is_sdk_error e = true /\ error_code e = Some BAD_DATA).
Proof.
  intros run created executed. subst run created executed.
  unfold Custodial.createAndExecuteRecoveryRequest, service_of.
  rewrite M_bind_run. split.
  - intros w' r.
    destruct (getNetworkConfig _ _ w) as [w1 [cfg|e]] eqn:Hcfg; [|discriminate].
    pose proof (sendHttpRequest_ok _ _ _ _ _ _ _ Hcfg) as Hshape.
    rewrite M_bind_run. unfold liftR at 1.
    rewrite (js_get_field _ _ _ Hshape) by reflexivity.
    rewrite M_bind_run.
    destruct (Documented.createRecoveryRequest _ _ _ _ _ _ w1)
      as [w2 [r0|e]] eqn:Hcreate; [|discriminate].
    pose proof (createRecoveryRequest_object _ _ _ _ _ _ _ _ _ Hcreate) as Hobj.
    destruct r0 as [| | | | | | |props]; try discriminate.
    rewrite M_bind_run. unfold liftR at 1. rewrite js_get_object.
    rewrite M_bind_run.
    destruct (Documented.executeRecoveryRequest _ _ w2)
      as [w3 [v|e]] eqn:Hexec; [|discriminate].
    destruct (executeRecoveryRequest_boolean _ _ _ _ _ Hexec) as [b ->].
    destruct b; simpl; [|discriminate].
    intros [= <- <-]. exists w1, cfg, w2. auto.
  - intros w1 cfg w2 r w3 Hcfg Hcreate Hexec.
    rewrite Hcfg.
    pose proof (sendHttpRequest_ok _ _ _ _ _ _ _ Hcfg) as Hshape.
    rewrite M_bind_run. unfold liftR at 1.
    rewrite (js_get_field _ _ _ Hshape) by reflexivity.
    rewrite M_bind_run, Hcreate.
    pose proof (createRecoveryRequest_object _ _ _ _ _ _ _ _ _ Hcreate) as Hobj.
    destruct r as [| | | | | | |props]; try discriminate.
    rewrite M_bind_run. unfold liftR at 1. rewrite js_get_object.
    rewrite M_bind_run, Hexec. simpl.
    eexists. repeat split.
Qed.

Lemma createAndExecuteRecoveryRequest_fails_loudly_witness :
  (exists w1 cfg w2 w3,
      getNetworkConfig (C := Scripted)
        (custodial_serviceEndpoint sample_custodial)
        (custodial_chainId sample_custodial) (create_then_execute true)
      = (w1, Ok cfg)
      /\ Documented.executeRecoveryRequest (C := Scripted)
           (service_of sample_custodial cfg) (JStr "r1") w2
         = (w3, Ok (JBool true)))
  /\ (exists w3 e,
         Custodial.createAndExecuteRecoveryRequest (C := Scripted)
           sample_custodial sample_account [sample_guardian] 1
           sample_guardian "0xsig" (create_then_execute false)
         = (w3, Throw e)
         /\ error_code e = Some BAD_DATA).
Proof.
  split.
  - destruct (createAndExecuteRecoveryRequest_fails_loudly (C := Scripted)
                sample_custodial sample_account [sample_guardian] 1
                sample_guardian "0xsig" (create_then_execute true))
      as [H _].
    edestruct H as (w1 & cfg & w2 & Hcfg & Hcreate & Hexec).
    { vm_compute. reflexivity. }
    exists w1, cfg, w2. eexists. split; [exact Hcfg | exact Hexec].
  - destruct (createAndExecuteRecoveryRequest_fails_loudly (C := Scripted)
                sample_custodial sample_account [sample_guardian] 1
                sample_guardian "0xsig" (create_then_execute false))
      as [_ H].
    edestruct H as (e & He & _ & Hc).
    { vm_compute. reflexivity. }
    { vm_compute. reflexivity. }
    { vm_compute. reflexivity. }
    eexists _, e. split; [exact He | exact Hc].
Defined.

(** ** The serializer *)

Lemma serialize_elements_ext (f g : string -> JsVal -> Result (option string))
  (h : JsVal -> JsVal) (i : nat) (l : list JsVal) :
  (forall k x, f k x = g k (h x)) ->
  serialize_elements f i l = serialize_elements g i (map h l).
Proof.
  intros Hfg. revert i. induction l as [|x xs IH]; intros i; simpl.
  - reflexivity.
  - rewrite Hfg, IH. reflexivity.
Qed.

Lemma serialize_properties_ext (f g : string -> JsVal -> Result (option string))
  (h : JsVal -> JsVal) (l : list (string * JsVal)) :
  (forall k x, f k x = g k (h x)) ->
  serialize_properties f l
  = serialize_properties g (map (fun kv => (fst kv, h (snd kv))) l).
Proof.
  intros Hfg. induction l as [|[k x] xs IH]; simpl.
  - reflexivity.
  - rewrite Hfg, IH. reflexivity.
Qed.

(** Serializing with the replacer of [sendHttpRequest] is serializing the
    payload whose bigints have been replaced. *)
Lemma serialize_bigint_replacer (fuel : nat) (key : string) (value : JsVal) :
  SerializeJSONProperty fuel bigint_replacer key value
  = SerializeJSONProperty fuel no_replacer key (hex_bigints value).
Proof.
  revert key value. induction fuel as [|fuel IH]; intros key value.
  - reflexivity.
  - destruct value; try reflexivity.
    + simpl. rewrite (serialize_elements_ext _ _ hex_bigints 0 l IH).
      reflexivity.
    + simpl. rewrite (serialize_properties_ext _ _ hex_bigints l IH).
      reflexivity.
Qed.

Lemma depth_element (x : JsVal) (l : list JsVal) (n : nat) :
  In x l ->
  (fold_right (fun x d => Nat.max (js_depth x) d) 0 l <= n)%nat ->
  (js_depth x <= n)%nat.
Proof.
  induction l as [|y ys IH]; simpl; [tauto|].
  intros [->|Hin] Hle; [lia|]. apply IH; [exact Hin | lia].
Qed.

Lemma depth_property (kv : string * JsVal) (l : list (string * JsVal)) (n : nat) :
  In kv l ->
  (fold_right (fun kv d => Nat.max (js_depth (snd kv)) d) 0 l <= n)%nat ->
  (js_depth (snd kv) <= n)%nat.
Proof.
  induction l as [|y ys IH]; simpl; [tauto|].
  intros [->|Hin] Hle; [lia|]. apply IH; [exact Hin | lia].
Qed.

Lemma serialize_elements_total (f : string -> JsVal -> Result (option string))
  (i : nat) (l : list JsVal) :
  (forall k x, In x l -> exists t, f k x = Ok t) ->
  exists ts, serialize_elements f i l = Ok ts.
Proof.
  revert i. induction l as [|x xs IH]; intros i Hf; simpl.
  - eauto.
  - destruct (Hf (decimal (Z.of_nat i)) x) as [t ->]; [now left|].
    destruct (IH (S i)) as [ts ->]; [intros; apply Hf; now right|].
    simpl. eauto.
Qed.

Lemma serialize_properties_total (f : string -> JsVal -> Result (option string))
  (l : list (string * JsVal)) :
  (forall k kv, In kv l -> exists t, f k (snd kv) = Ok t) ->
  exists ts, serialize_properties f l = Ok ts.
Proof.
  induction l as [|[k x] xs IH]; intros Hf; simpl.
  - eauto.
  - destruct (Hf k (k, x)) as [t Ht]; [now left|]. simpl in Ht. rewrite Ht.
    destruct IH as [ts ->]; [intros; apply Hf; now right|].
    simpl. eauto.
Qed.

(** A value without bigints serializes when the call is given its depth:
    neither a [TypeError] nor a [RangeError]. *)
Lemma serialize_total (fuel : nat) (key : string) (value : JsVal) :
  no_bigint value = true ->
  (js_depth value <= fuel)%nat ->
  exists t, SerializeJSONProperty fuel no_replacer key value = Ok t.
Proof.
  revert key value. induction fuel as [|fuel IH]; intros key value Hno Hd.
  - destruct value; simpl in Hd; lia.
  - destruct value; simpl; try (eauto; fail).
    + destruct b; eauto.
    + discriminate.
    + destruct (serialize_elements_total
                  (SerializeJSONProperty fuel no_replacer) 0 l) as [ts ->].
      * intros k x Hin. apply IH.
        -- simpl in Hno. rewrite forallb_forall in Hno. apply Hno, Hin.
        -- simpl in Hd. eapply depth_element; [exact Hin | lia].
      * simpl. eauto.
    + destruct (serialize_properties_total
                  (SerializeJSONProperty fuel no_replacer) l) as [ts ->].
      * intros k kv Hin. apply IH.
        -- simpl in Hno. rewrite forallb_forall in Hno. apply (Hno kv), Hin.
        -- simpl in Hd. eapply depth_property; [exact Hin | lia].
      * simpl. eauto.
Qed.

Lemma hex_bigints_no_bigint (v : JsVal) : no_bigint (hex_bigints v) = true.
Proof.
  induction v using JsVal_nested_ind; simpl; try reflexivity.
  - rewrite forallb_forall. intros y Hy. apply in_map_iff in Hy as (x & <- & Hx).
    rewrite List.Forall_forall in H. apply H, Hx.
  - rewrite forallb_forall. intros y Hy. apply in_map_iff in Hy as (x & <- & Hx).
    rewrite List.Forall_forall in H. apply (H x), Hx.
Qed.

Lemma hex_bigints_depth (v : JsVal) : js_depth (hex_bigints v) = js_depth v.
Proof.
  induction v using JsVal_nested_ind; simpl; try reflexivity.
  - f_equal. induction H as [|x xs Hx _ IH]; simpl; [reflexivity|].
    rewrite Hx, IH. reflexivity.
  - f_equal. induction H as [|x xs Hx _ IH]; simpl; [reflexivity|].
    rewrite Hx, IH. reflexivity.
Qed.

(** [JSON.stringify] with the replacer of [sendHttpRequest] never throws,
    and writes the text of the payload whose bigints have been replaced. *)
Lemma stringify_bigint_replacer (body : JsVal) :
  exists text,
    JSON_stringify bigint_replacer body = Ok text
    /\ JSON_stringify no_replacer (hex_bigints body) = Ok text.
Proof.
  unfold JSON_stringify.
  rewrite serialize_bigint_replacer, hex_bigints_depth.
  destruct (serialize_total (js_depth body) EmptyString (hex_bigints body))
    as [t Ht].
  - apply hex_bigints_no_bigint.
  - rewrite hex_bigints_depth. lia.
  - rewrite Ht. eauto.
Qed.

Lemma RequestInit_object_no_bigint (r : RequestInit) :
  no_bigint (RequestInit_object r) = true.
Proof.
  unfold RequestInit_object. simpl.
  assert (H : forallb (fun kv : string * JsVal => no_bigint (snd kv))
                (map (fun kv : string * string => (fst kv, JStr (snd kv)))
                   (init_headers r)) = true).
  { induction (init_headers r) as [|kv l IH]; simpl; [reflexivity | exact IH]. }
  rewrite H. destruct (init_body r); reflexivity.
Qed.

(** The context of the transport errors can always be built. *)
Lemma request_context_total (rpcUrl : string) (requestOptions : RequestInit) :
  exists context, request_context rpcUrl requestOptions = Ok context.
Proof.
  unfold request_context, JSON_stringify.
  destruct (serialize_total (js_depth (RequestInit_object requestOptions))
              EmptyString (RequestInit_object requestOptions)) as [t ->].
  - apply RequestInit_object_no_bigint.
  - lia.
  - simpl. eauto.
Qed.

(** ** The error-code mapping *)

(** The keys of [HttpErrorCodeDict] are the ten listed ones. *)
Lemma HttpErrorCodeDict_keys (s : string) :
  is_Some (HttpErrorCodeDict !! s) <-> In s HttpErrorCodeKeys.
Proof.
  split.
  - intros [kind H]. unfold HttpErrorCodeDict in H.
    repeat (apply lookup_insert_Some in H as [[<- _]|[_ H]];
            [simpl; tauto|]).
    apply lookup_singleton_Some in H as [<- _]. simpl; tauto.
  - intros H. simpl in H.
    repeat (destruct H as [<-|H]; [vm_compute; eauto|]).
    destruct H.
Qed.

Lemma has_code (response : JsVal) :
  js_in "code" response = Ok true ->
  exists l c, response = JObj l /\ assoc "code" l = Some c.
Proof.
  destruct response; simpl; try discriminate.
  - rewrite array_index_not_numeric by reflexivity. simpl.
    discriminate.
  - intros [= H]. apply bool_decide_eq_true in H as [c Hc]. eauto.
Qed.

(** The names [HttpErrorCodeDict] answers to: its ten keys and the names
    it inherits. *)
Lemma HttpErrorCodeDict_lookup_cases (s : string) :
  (In s HttpErrorCodeKeys ->
   exists kind, HttpErrorCodeDict !! s = Some kind
                /\ HttpErrorCodeDict_lookup s = Some (Code (Http kind)))
  /\ (In s Object_prototype_names ->
      HttpErrorCodeDict_lookup s = Some (Inherited s))
  /\ (~ In s HttpErrorCodeKeys -> ~ In s Object_prototype_names ->
      HttpErrorCodeDict_lookup s = None).
Proof.
  unfold HttpErrorCodeDict_lookup. repeat split.
  - intros Hk. apply HttpErrorCodeDict_keys in Hk as [kind Hk].
    exists kind. rewrite Hk. split; reflexivity.
  - intros Hp. simpl in Hp.
    repeat (destruct Hp as [<-|Hp]; [reflexivity|]). destruct Hp.
  - intros Hk Hp.
    destruct (HttpErrorCodeDict !! s) as [kind|] eqn:Hs.
    + exfalso. apply Hk, HttpErrorCodeDict_keys. eauto.
    + rewrite bool_decide_eq_false_2; [reflexivity|].
      intros Hin. apply Hp. apply list_elem_of_In, Hin.
Qed.

Lemma HttpErrorCodeDict_lookup_Http (s : string) (c : BasicErrorCode) :
  HttpErrorCodeDict_lookup s = Some (Code c) -> exists kind, c = Http kind.
Proof.
  unfold HttpErrorCodeDict_lookup.
  destruct (HttpErrorCodeDict !! s) as [kind|].
  - intros [= <-]. eauto.
  - destruct (bool_decide _); discriminate.
Qed.

(** What [sendHttpRequest] does with a response that has a [code]. *)
Lemma inspect_response_code `{C : Collaborators} (rpcUrl : string)
  (requestOptions : RequestInit) (response : JsVal) :
  js_in "code" response = Ok true ->
  let code := field response "code" in
  let message := field response "message" in
  exists context,
    inspect_response rpcUrl requestOptions response
    = match ToPrimitive code, Error_message message with
      | Ok codeString, Ok text =>
          Throw (SafeRecoveryServiceSdkError
                   (default (Code UNKNOWN_ERROR)
                      (HttpErrorCodeDict_lookup codeString))
                   text None code context)
      | Throw e, _ => Throw e
      | Ok _, Throw e => Throw e
      end.
Proof.
  intros Hin. cbv zeta. unfold inspect_response. rewrite Hin.
  destruct (has_code _ Hin) as (l & c & -> & Hc).
  destruct (request_context_total rpcUrl requestOptions) as [ctx Hctx].
  exists ctx. simpl. rewrite Hc. simpl.
  destruct (ToPrimitive c) as [codeString|e]; simpl; [|reflexivity].
  rewrite Hctx. simpl.
  destruct (Error_message _) as [text|e]; simpl; [|reflexivity].
  destruct (HttpErrorCodeDict_lookup codeString); reflexivity.
Qed.

(** A response that has a [code] is never returned. *)
Lemma inspect_response_throws `{C : Collaborators} (rpcUrl : string)
  (requestOptions : RequestInit) (response : JsVal) :
  js_in "code" response = Ok true ->
  exists e,
    inspect_response rpcUrl requestOptions response = Throw e
    /\ error_code e <> Some BAD_DATA.
Proof.
  intros Hin.
  destruct (inspect_response_code rpcUrl requestOptions response Hin)
    as [ctx ->].
  unfold ToPrimitive, Error_message.
  destruct (unconvertible (field response "code"));
    [eexists; split; [reflexivity | discriminate]|].
  assert (Hcode : forall text,
             error_code
               (SafeRecoveryServiceSdkError
                  (default (Code UNKNOWN_ERROR)
                     (HttpErrorCodeDict_lookup
                        (js_String (field response "code"))))
                  text None (field response "code") ctx)
             <> Some BAD_DATA).
  { intros text.
    destruct (HttpErrorCodeDict_lookup _) as [[c0|name]|] eqn:Hl; simpl;
      try discriminate.
    apply HttpErrorCodeDict_lookup_Http in Hl as [kind ->]. discriminate. }
  destruct (field response "message"); simpl;
    try (eexists; split; [reflexivity | apply Hcode]);
    unfold ToPrimitive;
    match goal with
    | |- context [unconvertible ?v] => destruct (unconvertible v)
    end;
    eexists; (split; [reflexivity|]); try discriminate; apply Hcode.
Qed.

(** X27.  When the transport round trip succeeds and the parsed response has
    a [code] field, [sendHttpRequest] never returns the response.  When the
    code and the message of the response convert to strings, it throws a
    [SafeRecoveryServiceSdkError] that carries the response's message,
    with code [HttpErrorCodeDict[codeString]] when the stringified code is
    one of the ten keys (400, 401, 403, 404, 409, 429, 500, 502, 503, 504),
    with the inherited member as its code when the stringified code is the
    name of a property of [Object.prototype], and with code UNKNOWN_ERROR
    for every other code.  When one of the two does not convert, the error
    is the [TypeError] of the conversion. *)
Theorem sendHttpRequest_maps_error_codes `{C : Collaborators}
  (rpcUrl : string) (body : JsVal) (method : HttpMethod)
  (headers : list (string * string)) (w w' : World)
  (params : string) (requestOptions : RequestInit) (response : JsVal) :
  build_request rpcUrl body method headers = Ok (params, requestOptions) ->
  fetch_json params requestOptions w = (w', Returns response) ->
  js_in "code" response = Ok true ->
  let code := field response "code" in
  let message := field response "message" in
  let codeString := js_String code in
  exists e,
    sendHttpRequest rpcUrl body method headers w = (w', Throw e)
    /\ (unconvertible code || unconvertible message = true ->
        e = TypeError "Cannot convert object to primitive value")
    /\ (unconvertible code || unconvertible message = false ->
        is_sdk_error e = true
        /\ Error_message message = Ok (error_message e)
        /\ (In codeString HttpErrorCodeKeys ->
            exists kind, HttpErrorCodeDict !! codeString = Some kind
                         /\ error_code e = Some (Http kind))
        /\ (In codeString Object_prototype_names ->
            error_code_value e = Some (Inherited codeString)
            /\ error_code e = None)
        /\ (~ In codeString HttpErrorCodeKeys ->
            ~ In codeString Object_prototype_names ->
            error_code e = Some UNKNOWN_ERROR)).
Proof.
  intros Hbuild Hfetch Hin code message codeString.
  unfold sendHttpRequest. rewrite Hbuild, Hfetch.
  destruct (inspect_response_code rpcUrl requestOptions response Hin)
    as [ctx ->].
  fold code message. unfold ToPrimitive at 1.
  destruct (unconvertible code) eqn:Hcode.
  { eexists. split; [reflexivity|]. split; [reflexivity|discriminate]. }
  assert (Hmessage : Error_message message
                     = if unconvertible message
                       then Throw (TypeError
                                     "Cannot convert object to primitive value")
                       else Error_message message).
  { unfold Error_message, ToPrimitive.
    destruct message; try reflexivity;
      match goal with
      | |- context [unconvertible ?v] => destruct (unconvertible v)
      end; reflexivity. }
  cbn [orb]. destruct (unconvertible message) eqn:Hmsg.
  { rewrite Hmessage. eexists. split; [reflexivity|].
    split; [reflexivity|discriminate]. }
  clear Hmessage.
  assert (Htext : exists text, Error_message message = Ok text).
  { unfold Error_message, ToPrimitive. rewrite Hmsg.
    destruct message; eauto. }
  destruct Htext as [text Htext]. rewrite Htext.
  fold codeString.
  destruct (HttpErrorCodeDict_lookup_cases codeString) as (Hk & Hp & Hn).
  eexists. split; [reflexivity|]. split; [discriminate|]. intros _.
  split; [reflexivity|]. split; [reflexivity|].
  destruct (HttpErrorCodeDict_lookup codeString) as [member|] eqn:Hdict;
    cbn [default]; repeat split.
  - intros Hkey. destruct (Hk Hkey) as (kind & Hkind & [= ->]).
    exists kind. split; [exact Hkind|reflexivity].
  - apply Hp in H. injection H as ->. reflexivity.
  - apply Hp in H. injection H as ->. reflexivity.
  - intros Hkey Hproto. specialize (Hn Hkey Hproto). discriminate.
  - intros Hkey. destruct (Hk Hkey) as (kind & _ & [= ]).
  - apply Hp in H. discriminate.
  - apply Hp in H. discriminate.
Qed.

Lemma sendHttpRequest_maps_error_codes_witness :
  exists w' e,
    sendHttpRequest (C := Scripted) "https://service.example/v1/recoveries/execute"
      (JObj [("id", JStr "r1")]) post default_headers not_found_reply
    = (w', Throw e)
    /\ error_code e = Some (Http HTTP_NOT_FOUND)
    /\ error_message e = "not found".
Proof.
  edestruct (sendHttpRequest_maps_error_codes (C := Scripted)
               "https://service.example/v1/recoveries/execute"
               (JObj [("id", JStr "r1")]) post default_headers not_found_reply)
    as (e & He & _ & Hconv).
  - vm_compute. reflexivity.
  - vm_compute. reflexivity.
  - vm_compute. reflexivity.
  - destruct (Hconv eq_refl) as (_ & Hm & Hk & _).
    destruct Hk as (kind & Hkind & Hcode).
    { vm_compute. tauto. }
    vm_compute in Hkind. injection Hkind as <-.
    vm_compute in Hm. injection Hm as Hm.
    eexists _, e. split; [exact He|]. split; [exact Hcode|].
    symmetry. exact Hm.
Defined.

(** C6.  The code departs from the claim at the reply
    [{code: "constructor", message: "boom"}]: [constructor] is none of the
    ten keys, so the claim has UNKNOWN_ERROR thrown; but
    [codeString in HttpErrorCodeDict] follows the prototype chain of the
    object literal, and [sendHttpRequest] throws a
    [SafeRecoveryServiceSdkError] whose code is the inherited member
    [HttpErrorCodeDict["constructor"]], which is no code of the taxonomy.
    The error still carries the reply's message, and the reply is not
    returned. *)
Theorem inherited_code_is_not_UNKNOWN_ERROR :
  ~ In "constructor" HttpErrorCodeKeys
  /\ exists w' e,
       sendHttpRequest (C := Scripted)
         "https://service.example/v1/recoveries/execute"
         (JObj [("id", JStr "r1")]) post default_headers inherited_code_reply
       = (w', Throw e)
       /\ is_sdk_error e = true
       /\ error_message e = "boom"
       /\ error_code_value e = Some (Inherited "constructor")
       /\ error_code e <> Some UNKNOWN_ERROR.
Proof.
  split.
  - intros H. vm_compute in H.
    repeat (destruct H as [H|H]; [discriminate|]). exact H.
  - eexists _, _. split; [vm_compute; reflexivity|].
    split; [reflexivity|]. split; [reflexivity|].
    split; [reflexivity | discriminate].
Qed.

(** ** Bigints on the wire *)




(** ** The custodial signature challenge *)

Lemma build_request_post (rpcUrl : string) (body : JsVal)
  (headers : list (string * string)) :
  exists text,
    JSON_stringify bigint_replacer body = Ok text
    /\ build_request rpcUrl body post headers
       = Ok (rpcUrl,
             {| init_method := "POST"; init_headers := headers;
                init_body := text; init_redirect := "follow" |}).
Proof.
  destruct (stringify_bigint_replacer body) as (text & H & _).
  exists text. split; [exact H|]. unfold build_request. rewrite H. reflexivity.
Qed.

(** What [submitCustodialGuardianSignatureChallenge] does, step by step. *)
Lemma submit_run `{C : Collaborators} (this : RecoveryByCustodialGuardian)
  (requestId challengeId otpChallenge : string) (w : World) :
  Custodial.submitCustodialGuardianSignatureChallenge this requestId
    challengeId otpChallenge w
  = match sendHttpRequest (submit_url this)
            (submission requestId challengeId otpChallenge) post
            default_headers w with
    | (w', Ok r) =>
        (w', Ok {| success := field r "success";
                   custodianGuardianAddress := field r "signer";
                   custodianGuardianSignature := field r "signature" |})
    | (w', Throw e) => (w', Throw e)
    end.
Proof.
  unfold Custodial.submitCustodialGuardianSignatureChallenge.
  rewrite M_bind_run. fold (submit_url this).
  fold (submission requestId challengeId otpChallenge).
  destruct (sendHttpRequest _ _ _ _ w) as [w' [r|e]] eqn:Hsend; [|reflexivity].
  pose proof (sendHttpRequest_ok _ _ _ _ _ _ _ Hsend) as Hshape.
  rewrite M_bind_run. unfold liftR at 1.
  rewrite (js_get_field _ _ _ Hshape) by reflexivity.
  rewrite M_bind_run. unfold liftR at 1.
  rewrite (js_get_field _ _ _ Hshape) by reflexivity.
  rewrite M_bind_run. unfold liftR at 1.
  rewrite (js_get_field _ _ _ Hshape) by reflexivity.
  reflexivity.
Qed.

Lemma sequence_pairs_throws (l : list JsVal) (e : JsError) :
  sequence_pairs l = Throw e ->
  e = TypeError "Each query pair must be an iterable [name, value] tuple".
Proof.
  induction l as [|x xs IH]; simpl; [discriminate|].
  destruct x; try (intros [= <-]; reflexivity).
  destruct l as [|n [|v [|? ?]]]; try (intros [= <-]; reflexivity).
  destruct (sequence_pairs xs); simpl; [discriminate|].
  intros [= <-]. apply IH. reflexivity.
Qed.

(** [sendHttpRequest] never throws BAD_DATA. *)
Lemma sendHttpRequest_not_BAD_DATA `{C : Collaborators} rpcUrl body method
  headers w w' e :
  sendHttpRequest rpcUrl body method headers w = (w', Throw e) ->
  error_code e <> Some BAD_DATA.
Proof.
  unfold sendHttpRequest.
  destruct (build_request rpcUrl body method headers) as [[params opts]|e0]
    eqn:Hbuild.
  - destruct (fetch_json params opts w) as [w1 [response|err]].
    + intros [= _ H]. revert H.
      destruct (js_in "code" response) as [[|]|e1] eqn:Hin.
      * destruct (inspect_response_throws rpcUrl opts response Hin)
          as (e0 & -> & Hcode).
        intros [= <-]. exact Hcode.
      * unfold inspect_response. rewrite Hin. discriminate.
      * unfold inspect_response. rewrite Hin. simpl.
        intros [= <-]. destruct response; simpl in Hin; try discriminate;
          injection Hin as <-; discriminate.
    + simpl. destruct (request_context_total rpcUrl opts) as [ctx ->]. simpl.
      intros [= _ <-]. discriminate.
  - intros [= _ <-]. revert Hbuild. unfold build_request.
    destruct (stringify_bigint_replacer body) as (text & -> & _). simpl.
    destruct method; [discriminate|].
    destruct body; simpl; try discriminate.
    destruct (sequence_pairs l) eqn:Hp; simpl; [discriminate|].
    intros [= <-]. apply sequence_pairs_throws in Hp as ->. discriminate.
Qed.

(** C9 fails in its last clause: a reply whose [success] is the string
    [yes] lacks a boolean success field (it fails the test that the sibling
    methods run), and the caller receives [yes], not [undefined]. *)
Lemma non_boolean_success_is_passed_on :
  lacks_field (JObj [("success", JStr "yes")]) "success" "boolean" = true
  /\ exists w' res,
       Custodial.submitCustodialGuardianSignatureChallenge (C := Scripted)
         sample_custodial "request-1" "challenge-email" "111111"
         reply_with_text_success
       = (w', Ok res)
       /\ success res = JStr "yes"
       /\ success res <> JUndefined.
Proof.
  split; [reflexivity|].
  eexists _, _. split; [vm_compute; reflexivity|].
  split; [reflexivity | discriminate].
Qed.

(** C9, amended.  [submitCustodialGuardianSignatureChallenge] checks
    nothing in the reply: for every reply [r] that [sendHttpRequest] hands
    back it returns exactly [{success: r.success, custodianGuardianAddress:
    r.signer, custodianGuardianSignature: r.signature}]; every error it
    throws is the one [sendHttpRequest] threw, which is never BAD_DATA; and
    when [r] has no [success] field the returned [success] is
    [undefined]. *)
Theorem submitCustodialGuardianSignatureChallenge_relays `{C : Collaborators}
  (this : RecoveryByCustodialGuardian)
  (requestId challengeId otpChallenge : string) (w : World) :
  let sent :=
    sendHttpRequest (submit_url this)
      (submission requestId challengeId otpChallenge) post default_headers w in
  let out :=
    Custodial.submitCustodialGuardianSignatureChallenge this requestId
      challengeId otpChallenge w in
  (forall w' r,
      sent = (w', Ok r) ->
      out = (w', Ok {| success := field r "success";
                       custodianGuardianAddress := field r "signer";
                       custodianGuardianSignature := field r "signature" |}))
  /\ (forall w' e,
         out = (w', Throw e) ->
         sent = (w', Throw e) /\ error_code e <> Some BAD_DATA)
  /\ (forall w' r,
         sent = (w', Ok r) ->
         js_in "success" r = Ok false ->
         exists res, out = (w', Ok res) /\ success res = JUndefined).
Proof.
  intros sent out. subst sent out. rewrite submit_run.
  destruct (sendHttpRequest _ _ _ _ w) as [w1 [r|e]] eqn:Hsend.
  - repeat split.
    + intros w' r' [= <- <-]. reflexivity.
    + discriminate.
    + discriminate.
    + intros w' r' [= <- <-] Hin. eexists. split; [reflexivity|]. simpl.
      destruct r; simpl in Hin; try discriminate; try reflexivity.
      simpl. injection Hin as Hin. apply bool_decide_eq_false in Hin.
      destruct (assoc "success" l); [|reflexivity].
      exfalso. apply Hin. eauto.
  - repeat split.
    + discriminate.
    + congruence.
    + injection H as <- <-.
      eapply sendHttpRequest_not_BAD_DATA. exact Hsend.
    + discriminate.
Qed.

Lemma submitCustodialGuardianSignatureChallenge_relays_witness :
  exists w' res,
    Custodial.submitCustodialGuardianSignatureChallenge (C := Scripted)
      sample_custodial "request-1" "challenge-email" "111111"
      reply_without_success
    = (w', Ok res)
    /\ success res = JUndefined
    /\ custodianGuardianAddress res = JStr sample_guardian.
Proof.
  destruct (submitCustodialGuardianSignatureChallenge_relays (C := Scripted)
              sample_custodial "request-1" "challenge-email" "111111"
              reply_without_success) as (Hrelay & _ & Hmissing).
  edestruct Hmissing as (res & Hres & Hsuccess).
  { vm_compute. reflexivity. }
  { vm_compute. reflexivity. }
  eexists _, res. split; [exact Hres|]. split; [exact Hsuccess|].
  erewrite Hrelay in Hres by (vm_compute; reflexivity).
  injection Hres as <-. reflexivity.
Defined.

(** C3 fails for the SDK on its own: it keeps no count of verified
    channels, so when the authority answers the first of two required
    verifications with a signer and a signature, the pair is returned. *)
Lemma pair_returned_after_one_of_two :
  exists w1 w2 request res,
    Custodial.requestCustodialGuardianSignatureChallenge (C := Scripted)
      sample_custodial sample_account [sample_guardian] 1 eager_authority
    = (w1, Ok request)
    /\ field request "requiredVerifications" = JNum 2
    /\ Custodial.submitCustodialGuardianSignatureChallenge (C := Scripted)
         sample_custodial "request-1" "challenge-email" "111111" w1
       = (w2, Ok res)
    /\ populated res = true.
Proof.
  eexists _, _, _, _. split; [vm_compute; reflexivity|].
  split; [reflexivity|]. split; [vm_compute; reflexivity|]. reflexivity.
Qed.

(** ** The typed-statement builder *)

(** C7 fails when the address is well-formed and the SIWE library refuses
    another field: with an empty domain, [generateSIWEMessage] throws
    SIWE_ERROR instead of returning a message. *)
Lemma well_formed_address_yet_SIWE_ERROR :
  ethers_getAddress (Collaborators := Scripted) sample_account
  = Returns sample_account
  /\ exists e,
       generateSIWEMessage (C := Scripted) sample_account
         "I request to retrieve all authentication methods" 1
         EmptyString "service://safe-recovery-service" idle
       = (idle, Throw e)
       /\ error_code e = Some SIWE_ERROR.
Proof.
  split; [reflexivity|]. eexists. split; reflexivity.
Qed.

(** C7, amended.  Every failure of [generateSIWEMessage] is a
    [SafeRecoveryServiceSdkError] with code SIWE_ERROR, and an address that
    is not well-formed is one; it returns a message exactly when the
    address check, the random source and the SIWE library all succeed, and
    the message is then the one the library prepares from version 1, the
    checked address, the given domain, uri, statement and chainId, the
    nonce [hexlify] of the 24 random bytes drawn in this call and the
    timestamp read in this call. *)
Theorem generateSIWEMessage_outcomes `{C : Collaborators}
  (accountAddress statement : string) (chainId : Z)
  (siweDomain siweUri : string) (w : World) :
  let run :=
    generateSIWEMessage accountAddress statement chainId siweDomain siweUri w in
  let (w1, issuedAt) := Date_toISOString w in
  (forall w' e,
      run = (w', Throw e) ->
      is_sdk_error e = true /\ error_code e = Some SIWE_ERROR)
  /\ (forall err,
         ethers_getAddress accountAddress = Throws err ->
         exists e, run = (w1, Throw e) /\ error_code e = Some SIWE_ERROR)
  /\ (forall w' message,
         run = (w', Ok message)
         <-> exists address bytes,
               ethers_getAddress accountAddress = Returns address
               /\ ethers_randomBytes 24 w1 = (w', Returns bytes)
               /\ SiweMessage_prepareMessage
                    (siwe_fields address statement chainId siweDomain
                       siweUri bytes issuedAt)
                  = Returns message).
Proof.
  intros run. subst run. unfold generateSIWEMessage, siwe_fields.
  destruct (Date_toISOString w) as [w1 issuedAt].
  destruct (ethers_getAddress accountAddress) as [address|err].
  - destruct (ethers_randomBytes 24 w1) as [w2 [bytes|err]].
    + destruct (SiweMessage_prepareMessage _) as [message|err] eqn:Hprep.
      * repeat split.
        -- discriminate.
        -- discriminate.
        -- discriminate.
        -- intros [= <- <-]. eauto.
        -- intros (a & b & [= <-] & [= <- <-] & Hm).
           rewrite Hprep in Hm. injection Hm as <-. reflexivity.
      * repeat split.
        -- injection H as _ <-. reflexivity.
        -- injection H as _ <-. reflexivity.
        -- discriminate.
        -- discriminate.
        -- intros (a & b & [= <-] & [= <- <-] & Hm). congruence.
    + repeat split.
      * injection H as _ <-. reflexivity.
      * injection H as _ <-. reflexivity.
      * discriminate.
      * discriminate.
      * intros (a & b & _ & [= ] & _).
  - repeat split.
    + injection H as _ <-. reflexivity.
    + injection H as _ <-. reflexivity.
    + intros err' _. eexists. split; reflexivity.
    + discriminate.
    + intros (a & b & [= ] & _).
Qed.

Lemma generateSIWEMessage_outcomes_witness :
  (exists e,
      generateSIWEMessage (C := Scripted) "0x1234"
        "I request to retrieve all authentication methods" 1
        "service://safe-recovery-service" "service://safe-recovery-service"
        idle
      = (idle, Throw e)
      /\ error_code e = Some SIWE_ERROR)
  /\ (exists message,
         generateSIWEMessage (C := Scripted) sample_account
           "I request to retrieve all authentication methods" 1
           "service://safe-recovery-service" "service://safe-recovery-service"
           idle
         = (idle, Ok message)).
Proof.
  split.
  - pose proof (generateSIWEMessage_outcomes (C := Scripted) "0x1234"
                  "I request to retrieve all authentication methods" 1
                  "service://safe-recovery-service"
                  "service://safe-recovery-service" idle) as H.
    simpl in H. destruct H as (_ & H & _).
    destruct (H (ThrownError (TypeError "invalid address")) eq_refl)
      as (e & He & Hc).
    exists e. split; [exact He | exact Hc].
  - pose proof (generateSIWEMessage_outcomes (C := Scripted) sample_account
                  "I request to retrieve all authentication methods" 1
                  "service://safe-recovery-service"
                  "service://safe-recovery-service" idle) as H.
    simpl in H. destruct H as (_ & _ & H).
    eexists. apply H. eexists _, _.
    split; [reflexivity|]. split; reflexivity.
Defined.

(** ** Failures that are not typed *)

(** C8.  The code breaks the claim: a reply that is not of the expected
    shape can end in an engine [TypeError], which is no
    [SafeRecoveryServiceSdkError] and has no code.  [getRegistrations]
    answered with an empty object iterates [undefined];
    [getRecoveryRequests] answered with an empty object iterates it; a
    request answered with [null] fails in [sendHttpRequest] at
    ["code" in response]. *)
Lemma getRegistrations_untyped_failure :
  (exists w' e,
      Custodial.getRegistrations (C := Scripted) sample_custodial
        sample_account "message" "0xsignature" empty_object_reply
      = (w', Throw e)
      /\ e = TypeError "undefined is not iterable"
      /\ is_sdk_error e = false /\ error_code e = None)
  /\ (exists w' e,
         Documented.getRecoveryRequests (C := Scripted) sample_service
           sample_account 0 empty_object_reply
         = (w', Throw e)
         /\ is_sdk_error e = false /\ error_code e = None)
  /\ (exists w' e,
         Custodial.deleteRegistration (C := Scripted) sample_custodial
           "1" "message" "0xsignature" null_reply
         = (w', Throw e)
         /\ is_sdk_error e = false /\ error_code e = None).
Proof.
  repeat split; eexists _, _; (split; [vm_compute; reflexivity|]);
    repeat split.
Qed.

(** Whatever the world, a reply that is an object with neither a [code] nor
    a [registrations] field ends [getRegistrations] with the engine's
    [TypeError]. *)
Lemma getRegistrations_without_registrations `{C : Collaborators}
  (this : RecoveryByCustodialGuardian)
  (accountAddress siweMessage signature : string) (w w' : World)
  (params : string) (opts : RequestInit) (l : list (string * JsVal)) :
  build_request (custodial_serviceEndpoint this ++ "/v1/auth/registrations")
    (JObj [("account", JStr accountAddress);
           ("chainId", chainId_number (custodial_chainId this));
           ("message", JStr siweMessage);
           ("signature", JStr signature)])
    get default_headers = Ok (params, opts) ->
  fetch_json params opts w = (w', Returns (JObj l)) ->
  assoc "code" l = None ->
  assoc "registrations" l = None ->
  Custodial.getRegistrations this accountAddress siweMessage signature w
  = (w', Throw (TypeError "undefined is not iterable")).
Proof.
  intros Hbuild Hfetch Hcode Hreg.
  unfold Custodial.getRegistrations. rewrite M_bind_run.
  unfold sendHttpRequest. rewrite Hbuild, Hfetch.
  unfold inspect_response. simpl. rewrite Hcode. simpl.
  rewrite M_bind_run. unfold liftR. simpl. rewrite Hreg. reflexivity.
Qed.

(** The check [getRegistrations] does run: a malformed element of the
    array is answered with BAD_DATA. *)
Lemma getRegistrations_checks_elements :
  exists w' e,
    Custodial.getRegistrations (C := Scripted) sample_custodial
      sample_account "message" "0xsignature" registration_without_target
    = (w', Throw e)
    /\ error_code e = Some BAD_DATA.
Proof.
  eexists _, _. split; [vm_compute; reflexivity|]. reflexivity.
Qed.

(** ** The two copies of [RecoveryByGuardianService] *)

(** C10.  The two copies of [RecoveryByGuardianService] agree: for every
    input, every world and every behaviour of the collaborators, each
    method of the documented copy yields the same world and the same value
    or thrown error as the method of that name in the other copy. *)
Theorem copies_agree `{C : Collaborators} (this : RecoveryByGuardianService)
  (w : World) :
  (forall rpcNode accountAddress,
      Documented.getPendingRecoveryRequestsForLatestNonce this rpcNode
        accountAddress w
      = Duplicate.getPendingRecoveryRequestsForLatestNonce this rpcNode
          accountAddress w)
  /\ (forall rpcNode accountAddress,
         Documented.getExecutedRecoveryRequestForLatestNonce this rpcNode
           accountAddress w
         = Duplicate.getExecutedRecoveryRequestForLatestNonce this rpcNode
             accountAddress w)
  /\ (forall rpcNode accountAddress,
         Documented.getFinalizedRecoveryRequestForLatestNonce this rpcNode
           accountAddress w
         = Duplicate.getFinalizedRecoveryRequestForLatestNonce this rpcNode
             accountAddress w)
  /\ (forall rpcNode accountAddress status,
         Documented.getRecoveryRequestsForLatestNonce this rpcNode
           accountAddress status w
         = Duplicate.getRecoveryRequestsForLatestNonce this rpcNode
             accountAddress status w)
  /\ (forall accountAddress recoveryNonce,
         Documented.getRecoveryRequests this accountAddress recoveryNonce w
         = Duplicate.getRecoveryRequests this accountAddress recoveryNonce w)
  /\ (forall accountAddress newOwners newThreshold guardianAddress
        guardianSignature,
         Documented.createRecoveryRequest this accountAddress newOwners
           newThreshold guardianAddress guardianSignature w
         = Duplicate.createRecoveryRequest this accountAddress newOwners
             newThreshold guardianAddress guardianSignature w)
  /\ (forall id guardianAddress guardianSignature,
         Documented.submitGuardianSignatureForRecoveryRequest this id
           guardianAddress guardianSignature w
         = Duplicate.submitGuardianSignatureForRecoveryRequest this id
             guardianAddress guardianSignature w)
  /\ (forall id,
         Documented.executeRecoveryRequest this id w
         = Duplicate.executeRecoveryRequest this id w)
  /\ (forall id,
         Documented.finalizeRecoveryRequest this id w
         = Duplicate.finalizeRecoveryRequest this id w).
Proof.
  repeat split.
Qed.

(** ** The query of [getRecoveryRequests] *)

Lemma urlencode_decimal_digits (d : Decimal.uint) :
  urlencode (DecimalString.NilEmpty.string_of_uint d)
  = DecimalString.NilEmpty.string_of_uint d.
Proof.
  induction d; simpl; try rewrite IHd; reflexivity.
Qed.

Lemma urlencode_hex_digits (d : Hexadecimal.uint) :
  urlencode (HexadecimalString.NilEmpty.string_of_uint d)
  = HexadecimalString.NilEmpty.string_of_uint d.
Proof.
  induction d; simpl; try rewrite IHd; reflexivity.
Qed.

Lemma urlencode_decimal (z : Z) : urlencode (decimal z) = decimal z.
Proof.
  unfold decimal. destruct (Z.to_int z) as [d|d]; simpl.
  - destruct d; try reflexivity; apply (urlencode_decimal_digits (_ d)).
  - f_equal. destruct d; try reflexivity; apply (urlencode_decimal_digits (_ d)).
Qed.

Lemma urlencode_hex (n : N) : urlencode (hex n) = hex n.
Proof.
  unfold hex. destruct (N.to_hex_uint n) as [|d|d|d|d|d|d|d|d|d|d|d|d|d|d|d|d];
    try reflexivity; apply (urlencode_hex_digits (_ d)).
Qed.

(** Up to [2 ^ 53] a chain id is a number as it is; beyond, it is
    rounded. *)
Lemma Number_of_bigint_safe (z : Z) :
  Z.abs z <= 2 ^ 53 -> Number_of_bigint z = z.
Proof.
  intros Hz. unfold Number_of_bigint.
  destruct (Z.leb_spec (Z.log2 (Z.abs z) + 1 - 53) 0) as [|Hlog];
    [reflexivity|].
  assert (Hz53 : Z.abs z = 2 ^ 53).
  { destruct (Z.eq_dec (Z.abs z) (2 ^ 53)) as [|Hne]; [assumption|].
    assert (Hlt : Z.abs z < 2 ^ 53) by lia.
    destruct (Z.eq_dec (Z.abs z) 0) as [H0|H0].
    - rewrite H0 in Hlog. simpl in Hlog. lia.
    - apply Z.log2_lt_pow2 in Hlt; lia. }
  destruct (Z.abs_eq_or_opp z) as [Habs|Habs]; rewrite Habs in Hz53.
  - subst z. reflexivity.
  - assert (z = - 2 ^ 53) by lia. subst z. reflexivity.
Qed.

Example Number_of_bigint_rounds :
  Number_of_bigint (2 ^ 53 + 1) = 2 ^ 53
  /\ Number_of_bigint (2 ^ 53 + 3) = 2 ^ 53 + 4
  /\ Number_of_bigint (- (2 ^ 60 + 129)) = - (2 ^ 60 + 256).
Proof. repeat split; reflexivity. Qed.

(** The request [getRecoveryRequests] sends for the nonce [n]: a GET whose
    query names the account, the chain and the nonce as a quantity. *)
Lemma getRecoveryRequests_query (this : RecoveryByGuardianService)
  (accountAddress : string) (n : Z) :
  0 <= n ->
  Z.abs (chainId this) <= 2 ^ 53 ->
  toQuantity n = Ok ("0x" ++ hex (Z.to_N n))
  /\ build_request (serviceEndpoint this ++ "/v1/recoveries/fetchByAddress")
       (JObj [("account", JStr accountAddress);
              ("chainId", chainId_number (chainId this));
              ("nonce", JStr ("0x" ++ hex (Z.to_N n)))])
       get default_headers
     = Ok ((serviceEndpoint this ++ "/v1/recoveries/fetchByAddress") ++ "?"
             ++ (("account=" ++ urlencode accountAddress)
                   ++ "&" ++ "chainId=" ++ decimal (chainId this))
             ++ "&" ++ "nonce=0x" ++ hex (Z.to_N n),
           {| init_method := "GET"; init_headers := default_headers;
              init_body := None; init_redirect := "follow" |}).
Proof.
  intros Hn Hc. split.
  - unfold toQuantity. destruct (Z.ltb_spec n 0); [lia | reflexivity].
  - unfold build_request.
    destruct (stringify_bigint_replacer
                (JObj [("account", JStr accountAddress);
                       ("chainId", chainId_number (chainId this));
                       ("nonce", JStr ("0x" ++ hex (Z.to_N n)))]))
      as (text & -> & _).
    unfold chainId_number. rewrite (Number_of_bigint_safe _ Hc).
    simpl. unfold URLSearchParams_toString. simpl.
    rewrite urlencode_decimal.
    change (EmptyString ++ hex (Z.to_N n)) with (hex (Z.to_N n)).
    rewrite urlencode_hex. reflexivity.
Qed.

(** ** Further runs *)

(** A failed ledger read ends the resolver with UNKNOWN_ERROR. *)
Lemma nonce_failure_is_UNKNOWN_ERROR `{C : Collaborators}
  (this : RecoveryByGuardianService) (rpcNode accountAddress : string)
  (status : RecoveryStatus) (w w1 : World) (err : Thrown) :
  SocialRecoveryModule_nonce (recoveryModuleAddress this) rpcNode
    accountAddress w = (w1, Throws err) ->
  exists e,
    Documented.getRecoveryRequestsForLatestNonce this rpcNode accountAddress
      status w = (w1, Throw e)
    /\ error_code e = Some UNKNOWN_ERROR
    /\ error_message e = "failed fetching nonce".
Proof.
  intros H. unfold Documented.getRecoveryRequestsForLatestNonce.
  rewrite M_bind_run, H. eexists. repeat split.
Qed.

Example ledger_down_run :
  exists e,
    Documented.getPendingRecoveryRequestsForLatestNonce (C := Scripted)
      sample_service sample_rpc sample_account ledger_down
    = (ledger_down, Throw e)
    /\ error_code e = Some UNKNOWN_ERROR.
Proof.
  eexists. split; reflexivity.
Qed.

(* ================================================================= *)
(** * Further properties of the code *)

(** ** The transport *)

Lemma stringify_object_some (fuel : nat) (key : string)
  (l : list (string * JsVal)) (t : option string) :
  SerializeJSONProperty fuel no_replacer key (JObj l) = Ok t ->
  exists s, t = Some s.
Proof.
  destruct fuel as [|fuel]; [discriminate|].
  cbn [SerializeJSONProperty no_replacer].
  destruct (serialize_properties _ l); cbn; intros [= <-]; eauto.
Qed.

Lemma request_context_shape (rpcUrl : string) (requestOptions : RequestInit) :
  exists text,
    JSON_stringify no_replacer (RequestInit_object requestOptions) = Ok (Some text)
    /\ request_context rpcUrl requestOptions
       = Ok (JObj [("url", JStr rpcUrl); ("requestOptions", JStr text)]).
Proof.
  unfold request_context.
  destruct (JSON_stringify no_replacer (RequestInit_object requestOptions)) as [t|e] eqn:H.
  - destruct t as [t|].
    + exists t. split; reflexivity.
    + exfalso. unfold JSON_stringify, RequestInit_object in H.
      apply stringify_object_some in H as [s Hs]. discriminate.
  - exfalso. destruct (request_context_total rpcUrl requestOptions) as [c Hc].
    unfold request_context in Hc. rewrite H in Hc. discriminate.
Qed.

(** X1.  A failure of the transport is reported as UNKNOWN_ERROR.  When [fetch],
    or reading the reply as JSON, throws, [sendHttpRequest] throws a
    [SafeRecoveryServiceSdkError] with code UNKNOWN_ERROR whose cause is
    what was thrown, made an [Error] by [ensureError], whose message is the
    message of that cause, and whose context holds the address and the JSON
    text of the request options, which can always be written. *)
Theorem sendHttpRequest_transport_failure `{C : Collaborators}
  (rpcUrl : string) (body : JsVal) (method : HttpMethod)
  (headers : list (string * string)) (w w' : World)
  (params : string) (requestOptions : RequestInit) (err : Thrown) :
  build_request rpcUrl body method headers = Ok (params, requestOptions) ->
  fetch_json params requestOptions w = (w', Throws err) ->
  exists text,
    JSON_stringify no_replacer (RequestInit_object requestOptions)
    = Ok (Some text)
    /\ sendHttpRequest rpcUrl body method headers w
       = (w', Throw (SafeRecoveryServiceSdkError UNKNOWN_ERROR
                       (error_message (ensureError err))
                       (Some (ensureError err)) JUndefined
                       (JObj [("url", JStr rpcUrl);
                              ("requestOptions", JStr text)]))).
Proof.
  intros Hb Hf.
  destruct (request_context_shape rpcUrl requestOptions) as (text & Ht & Hc).
  exists text. split; [exact Ht|].
  unfold sendHttpRequest. rewrite Hb, Hf, Hc. reflexivity.
Qed.

Lemma sendHttpRequest_transport_failure_witness :
  exists text,
    JSON_stringify no_replacer (RequestInit_object execute_r1) = Ok (Some text)
    /\ sendHttpRequest (C := Scripted) execute_url (JObj [("id", JStr "r1")])
         post default_headers idle
       = (after_request execute_url execute_r1,
          Throw (SafeRecoveryServiceSdkError UNKNOWN_ERROR "fetch failed"
                   (Some (TypeError "fetch failed")) JUndefined
                   (JObj [("url", JStr execute_url);
                          ("requestOptions", JStr text)]))).
Proof.
  exact (sendHttpRequest_transport_failure (C := Scripted) execute_url
           (JObj [("id", JStr "r1")]) post default_headers idle
           (after_request execute_url execute_r1) execute_url execute_r1
           (ThrownError (TypeError "fetch failed")) eq_refl eq_refl).
Defined.

Lemma inspect_response_shape `{C : Collaborators} (rpcUrl : string)
  (requestOptions : RequestInit) (r : JsVal) :
  (exists l, r = JObj l /\ assoc "code" l = None) \/ (exists l, r = JArr l) ->
  inspect_response rpcUrl requestOptions r = Ok r.
Proof.
  unfold inspect_response. intros [(l & -> & Hl)|(l & ->)].
  - simpl. rewrite Hl. reflexivity.
  - unfold js_in.
    rewrite (array_index_not_numeric "c" "ode" (length l) eq_refl).
    reflexivity.
Qed.

Lemma sendHttpRequest_ok_iff `{C : Collaborators}
  (rpcUrl : string) (body : JsVal) (method : HttpMethod)
  (headers : list (string * string)) (params : string)
  (requestOptions : RequestInit) (w w' : World) (r : JsVal) :
  build_request rpcUrl body method headers = Ok (params, requestOptions) ->
  sendHttpRequest rpcUrl body method headers w = (w', Ok r)
  <-> fetch_json params requestOptions w = (w', Returns r)
      /\ ((exists l, r = JObj l /\ assoc "code" l = None)
          \/ exists l, r = JArr l).
Proof.
  intros Hb. unfold sendHttpRequest. rewrite Hb. split.
  - destruct (fetch_json params requestOptions w) as [w1 [resp|err]] eqn:Hf.
    + intros H. apply pair_equal_spec in H as [<- H].
      apply inspect_response_ok in H as [-> Hin].
      split; [reflexivity|]. apply no_code_shape, Hin.
    + destruct (request_context rpcUrl requestOptions); simpl; intros [= ].
  - intros (-> & Hshape). f_equal. apply inspect_response_shape, Hshape.
Qed.

(** X2.  [sendHttpRequest] returns [r] exactly when the request could be built,
    the authority answered it with [r], and [r] is an object that has no
    [code] of its own or an array; the reply is handed back as it is. *)
Theorem sendHttpRequest_returns_reply `{C : Collaborators}
  (rpcUrl : string) (body : JsVal) (method : HttpMethod)
  (headers : list (string * string)) (w w' : World) (r : JsVal) :
  sendHttpRequest rpcUrl body method headers w = (w', Ok r)
  <-> exists params requestOptions,
        build_request rpcUrl body method headers = Ok (params, requestOptions)
        /\ fetch_json params requestOptions w = (w', Returns r)
        /\ ((exists l, r = JObj l /\ assoc "code" l = None)
            \/ exists l, r = JArr l).
Proof.
  split.
  - intros H.
    destruct (build_request rpcUrl body method headers) as [[params opts]|e]
      eqn:Hb.
    + exists params, opts. split; [reflexivity|].
      apply (sendHttpRequest_ok_iff _ _ _ _ _ _ _ _ _ Hb), H.
    + unfold sendHttpRequest in H. rewrite Hb in H. discriminate.
  - intros (params & opts & Hb & H).
    apply (sendHttpRequest_ok_iff _ _ _ _ _ _ _ _ _ Hb), H.
Qed.

(** X3.  A reply that is no object ends [sendHttpRequest] with the engine's
    error.  When the authority answers with [null], a boolean, a number or
    a string, the test [code in response] throws a [TypeError], which
    [sendHttpRequest] does not catch: the caller gets that [TypeError],
    which is no [SafeRecoveryServiceSdkError] and has no code. *)
Theorem sendHttpRequest_primitive_reply `{C : Collaborators}
  (rpcUrl : string) (body : JsVal) (method : HttpMethod)
  (headers : list (string * string)) (w w' : World)
  (params : string) (requestOptions : RequestInit) (r : JsVal) :
  build_request rpcUrl body method headers = Ok (params, requestOptions) ->
  fetch_json params requestOptions w = (w', Returns r) ->
  is_primitive r = true ->
  exists message,
    sendHttpRequest rpcUrl body method headers w
    = (w', Throw (TypeError message))
    /\ is_sdk_error (TypeError message) = false
    /\ error_code (TypeError message) = None.
Proof.
  intros Hb Hf Hp. unfold sendHttpRequest. rewrite Hb, Hf.
  destruct r; try discriminate; eexists; repeat split.
Qed.

Lemma sendHttpRequest_primitive_reply_witness :
  exists message,
    sendHttpRequest (C := Scripted) execute_url (JObj [("id", JStr "r1")])
      post default_headers (reply_of (JStr "Bad Gateway"))
    = (after_request execute_url execute_r1, Throw (TypeError message))
    /\ is_sdk_error (TypeError message) = false
    /\ error_code (TypeError message) = None.
Proof.
  exact (sendHttpRequest_primitive_reply (C := Scripted) execute_url
           (JObj [("id", JStr "r1")]) post default_headers
           (reply_of (JStr "Bad Gateway"))
           (after_request execute_url execute_r1) execute_url execute_r1
           (JStr "Bad Gateway") eq_refl eq_refl eq_refl).
Defined.

(** ** [ensureError] and [stringify] *)

Lemma serialize_elements_throws (f : string -> JsVal -> Result (option string))
  (i : nat) (l : list JsVal) (x : JsVal) :
  In x l -> (forall k, exists e, f k x = Throw e) ->
  exists e, serialize_elements f i l = Throw e.
Proof.
  revert i. induction l as [|y ys IH]; intros i [].
  - subst y. intros H. destruct (H (decimal (Z.of_nat i))) as [e He].
    exists e. cbn. rewrite He. reflexivity.
  - intros Hx. cbn. destruct (f (decimal (Z.of_nat i)) y) as [t|e]; cbn; [|eauto].
    destruct (IH (S i) H Hx) as [e He]. rewrite He. cbn. eauto.
Qed.

Lemma serialize_properties_throws (f : string -> JsVal -> Result (option string))
  (l : list (string * JsVal)) (kv : string * JsVal) :
  In kv l -> (forall k, exists e, f k (snd kv) = Throw e) ->
  exists e, serialize_properties f l = Throw e.
Proof.
  induction l as [|[k y] ys IH]; intros [].
  - subst kv. intros H. destruct (H k) as [e He].
    exists e. cbn in *. rewrite He. reflexivity.
  - intros Hx. cbn. destruct (f k y) as [t|e]; cbn; [|eauto].
    destruct (IH H Hx) as [e He]. rewrite He. cbn. eauto.
Qed.

Lemma forallb_false_In {A} (p : A -> bool) (l : list A) :
  forallb p l = false -> exists x, In x l /\ p x = false.
Proof.
  induction l as [|y ys IH]; cbn; [discriminate|].
  destruct (p y) eqn:Hy; cbn.
  - intros H. destruct (IH H) as (x & ? & ?). eauto.
  - intros _. eauto.
Qed.

Lemma serialize_bigint_throws (v : JsVal) :
  no_bigint v = false ->
  forall fuel key, exists e, SerializeJSONProperty fuel no_replacer key v = Throw e.
Proof.
  induction v as [| | | | | |l IH|l IH] using JsVal_nested_ind;
    try discriminate; intros Hv [|fuel] key; cbn [SerializeJSONProperty no_replacer];
    eauto.
  - cbn in Hv. apply forallb_false_In in Hv as (x & Hin & Hx).
    rewrite List.Forall_forall in IH.
    destruct (serialize_elements_throws (SerializeJSONProperty fuel no_replacer)
                0 l x Hin (IH x Hin Hx fuel)) as [e ->].
    cbn. eauto.
  - cbn in Hv. apply forallb_false_In in Hv as (x & Hin & Hx).
    rewrite List.Forall_forall in IH.
    destruct (serialize_properties_throws (SerializeJSONProperty fuel no_replacer)
                l x Hin (IH x Hin Hx fuel)) as [e ->].
    cbn. eauto.
Qed.

(** X4.  [ensureError] always returns an [Error].  An [Error] is returned as it
    is.  Any other value is wrapped in a fresh [Error], never in a
    [SafeRecoveryServiceSdkError], whose message is the fixed prefix
    followed by the JSON text of the value, [undefined] by name when the
    value has no JSON text; when the value holds a bigint, which
    [JSON.stringify] refuses, the message ends with the fixed fallback
    text instead. *)
Theorem ensureError_wraps_what_is_no_Error :
  (forall e, ensureError (ThrownError e) = e)
  /\ (forall v,
         no_bigint v = true ->
         exists text,
           JSON_stringify no_replacer v = Ok text
           /\ ensureError (ThrownValue v)
              = NativeError "Error"
                  ("This value was thrown as is, not through an Error: "
                     ++ string_or_undefined text))
  /\ (forall v,
         no_bigint v = false ->
         ensureError (ThrownValue v)
         = NativeError "Error"
             ("This value was thrown as is, not through an Error: "
                ++ "[Unable to stringify the thrown value]")).
Proof.
  split; [reflexivity|]. split.
  - intros v Hv.
    destruct (serialize_total (js_depth v) EmptyString v Hv (Nat.le_refl _))
      as [t Ht].
    exists t. split; [exact Ht|].
    unfold ensureError, JSON_stringify. rewrite Ht. reflexivity.
  - intros v Hv.
    destruct (serialize_bigint_throws v Hv (js_depth v) EmptyString) as [e He].
    unfold ensureError, JSON_stringify. rewrite He. reflexivity.
Qed.


Lemma serialize_listed_absent (member : string -> JsVal -> Result (option string))
  (keys : list string) (l : list (string * JsVal)) :
  (forall k, member k JUndefined = Ok None) ->
  Forall (fun k => assoc k l = None) keys ->
  serialize_listed member keys l = Ok [].
Proof.
  intros Hm. induction 1 as [|k ks Hk _ IH]; cbn; [reflexivity|].
  rewrite Hk. cbn. rewrite Hm. cbn. rewrite IH. reflexivity.
Qed.

Lemma listed_unlisted_object (fuel : nat) (keys : list string) (key : string)
  (l : list (string * JsVal)) :
  Forall (fun k => assoc k l = None) keys ->
  SerializeJSONListed (S (S fuel)) keys key (JObj l) = Ok (Some "{}").
Proof.
  intros H. cbn [SerializeJSONListed].
  rewrite (serialize_listed_absent _ keys l); [reflexivity| |exact H].
  reflexivity.
Qed.

(** X5.  [stringify] leaves out what its property list does not name.  The list
    given to [JSON.stringify] holds at every depth, so of a context only
    the properties called [name], [code], [message], [cause], [errno] or
    [context] are written: an error whose context has none of them
    stringifies as the same error with an empty context.  The context of
    the errors of [sendHttpRequest], an address and the request options,
    is written as an empty object. *)
Theorem stringify_drops_unlisted_context (code : BasicErrorCode)
  (message : string) (cause : option JsError) (errno : JsVal)
  (l : list (string * JsVal)) :
  Forall (fun k => assoc k l = None) stringify_keys ->
  stringify_error (SafeRecoveryServiceSdkError code message cause errno (JObj l))
  = stringify_error (SafeRecoveryServiceSdkError code message cause errno (JObj [])).
Proof.
  intros H. cbn [stringify_error].
  change (js_depth (JObj l)) with
    (S (fold_right (fun kv d => Nat.max (js_depth (snd kv)) d) 0%nat l)).
  rewrite (listed_unlisted_object _ stringify_keys "context" l H).
  reflexivity.
Qed.

Lemma stringify_drops_unlisted_context_witness :
  stringify_error
    (SafeRecoveryServiceSdkError HTTP_NOT_FOUND "not found" None (JNum 404)
       (JObj [("url", JStr execute_url);
              ("requestOptions", JStr "{}")]))
  = Ok ("{" ++ dquote ++ "name" ++ dquote ++ ":"
            ++ dquote ++ "SafeRecoveryServiceSdkError" ++ dquote ++ ","
            ++ dquote ++ "code" ++ dquote ++ ":"
            ++ dquote ++ "HTTP_NOT_FOUND" ++ dquote ++ ","
            ++ dquote ++ "message" ++ dquote ++ ":"
            ++ dquote ++ "not found" ++ dquote ++ ","
            ++ dquote ++ "errno" ++ dquote ++ ":404,"
            ++ dquote ++ "context" ++ dquote ++ ":{}}").
Proof.
  refine (eq_trans
            (stringify_drops_unlisted_context HTTP_NOT_FOUND "not found" None
               (JNum 404)
               [("url", JStr execute_url); ("requestOptions", JStr "{}")] _)
            eq_refl).
  repeat constructor.
Defined.

(** ** Methods that check one or two fields of the reply *)

Lemma lacks_field_view (r : JsVal) (c : ascii) (s ty : string) :
  js_in "code" r = Ok false ->
  is_digit c = false ->
  String.eqb (String c s) "length" = false ->
  String.eqb "undefined" ty = false ->
  lacks_field r (String c s) ty
  = negb (String.eqb (typeof (field r (String c s))) ty).
Proof.
  intros Hr Hc Hlen Hty.
  destruct (no_code_shape r Hr) as [(l & -> & _)|(l & ->)].
  - unfold lacks_field, js_in, js_get, field.
    destruct (assoc (String c s) l) as [v|].
    + rewrite bool_decide_eq_true_2 by eauto. reflexivity.
    + rewrite bool_decide_eq_false_2 by (intros [? ?]; discriminate).
      change (typeof (default JUndefined None)) with "undefined".
      rewrite Hty. reflexivity.
  - unfold lacks_field, js_in, field. rewrite Hlen.
    rewrite (array_index_not_numeric c s _ Hc).
    rewrite bool_decide_eq_false_2 by (intros [? ?]; discriminate).
    change (typeof JUndefined) with "undefined".
    rewrite Hty. reflexivity.
Qed.

(** Runs a method that sends one request and inspects the reply. *)
Ltac run_request H :=
  rewrite M_bind_run;
  match goal with
  | |- context [sendHttpRequest ?u ?b ?m ?h ?w] =>
      destruct (sendHttpRequest u b m h w) as [? [? | ?]] eqn:H;
      [apply sendHttpRequest_ok in H | reflexivity]
  end.

Ltac view_field H :=
  repeat match goal with
  | |- context [lacks_field ?r (String ?c ?s) ?ty] =>
      rewrite (lacks_field_view r c s ty H eq_refl eq_refl eq_refl)
  | |- context [js_get ?r (String ?c ?s)] =>
      rewrite (js_get_field r c s H eq_refl eq_refl)
  end.

(** X6.  [submitGuardianSignatureForRecoveryRequest], [executeRecoveryRequest]
    and [finalizeRecoveryRequest] answer with the reply's [success].  Each
    sends one POST request; an error of [sendHttpRequest] is passed on as
    it is; for a reply [r] that [sendHttpRequest] hands back, the method
    returns [r.success] when that is a boolean, and otherwise throws
    BAD_DATA with the message [<url> failed], with [ensureError(r)], whose
    message quotes the reply, as its cause, and with the arguments as its
    context. *)
Theorem guardian_methods_answer_with_success `{C : Collaborators}
  (this : RecoveryByGuardianService) (w : World) :
  let answer url context sent :=
    match sent with
    | (w', Ok r) =>
        (w', match field r "success" with
             | JBool b => Ok (JBool b)
             | _ => Throw (SafeRecoveryServiceSdkError BAD_DATA
                             (url ++ " failed")
                             (Some (ensureError (ThrownValue r))) JUndefined
                             context)
             end)
    | (w', Throw e) => (w', Throw e)
    end in
  (forall id guardianAddress guardianSignature,
      let url := serviceEndpoint this ++ "/v1/recoveries/sign" in
      let body := JObj [("id", JStr id); ("signer", JStr guardianAddress);
                        ("signature", JStr guardianSignature)] in
      Documented.submitGuardianSignatureForRecoveryRequest this id
        guardianAddress guardianSignature w
      = answer url body (sendHttpRequest url body post default_headers w))
  /\ (forall id,
         let url := serviceEndpoint this ++ "/v1/recoveries/execute" in
         Documented.executeRecoveryRequest this id w
         = answer url (JObj [("id", id)])
             (sendHttpRequest url (JObj [("id", id)]) post default_headers w))
  /\ (forall id,
         let url := serviceEndpoint this ++ "/v1/recoveries/finalize" in
         Documented.finalizeRecoveryRequest this id w
         = answer url (JObj [("id", id)])
             (sendHttpRequest url (JObj [("id", id)]) post default_headers w)).
Proof.
  cbv zeta. repeat split; intros.
  - unfold Documented.submitGuardianSignatureForRecoveryRequest.
    run_request H. view_field H.
    destruct (field _ "success"); reflexivity.
  - unfold Documented.executeRecoveryRequest.
    run_request H. view_field H.
    destruct (field _ "success"); reflexivity.
  - unfold Documented.finalizeRecoveryRequest.
    run_request H. view_field H.
    destruct (field _ "success"); reflexivity.
Qed.

(** X7.  [createRegistrationToRecovery] returns the reply's [challengeId] when
    that is a string; any other reply that [sendHttpRequest] hands back
    ends the call with BAD_DATA, message [<url> failed], [ensureError] of
    the reply as the cause and the arguments as the context; an error of
    [sendHttpRequest] is passed on as it is.
    [createRegistrationToEmailRecovery] and [createRegistrationToSmsRecovery]
    are the same call for the channels [email] and [sms]. *)
Theorem createRegistrationToRecovery_returns_challengeId `{C : Collaborators}
  (this : RecoveryByCustodialGuardian)
  (accountAddress channelTarget siweMessage signature : string) (w : World) :
  let url := custodial_serviceEndpoint this ++ "/v1/auth/register" in
  let body channel :=
    JObj [("account", JStr accountAddress);
          ("chainId", chainId_number (custodial_chainId this));
          ("channel", JStr channel);
          ("target", JStr channelTarget);
          ("message", JStr siweMessage);
          ("signature", JStr signature)] in
  let answer channel :=
    match sendHttpRequest url (body channel) post default_headers w with
    | (w', Ok r) =>
        (w', if String.eqb (typeof (field r "challengeId")) "string"
             then Ok (field r "challengeId")
             else Throw (SafeRecoveryServiceSdkError BAD_DATA
                           (url ++ " failed")
                           (Some (ensureError (ThrownValue r))) JUndefined
                           (JObj [("account", JStr accountAddress);
                                  ("chainId",
                                    chainId_number (custodial_chainId this));
                                  ("channel", JStr channel);
                                  ("channelTarget", JStr channelTarget);
                                  ("message", JStr siweMessage);
                                  ("eip1271SiweContractSignature",
                                    JStr signature)])))
    | (w', Throw e) => (w', Throw e)
    end in
  (forall channel,
      Custodial.createRegistrationToRecovery this accountAddress channel
        channelTarget siweMessage signature w = answer channel)
  /\ CustodialStatements.createRegistrationToEmailRecovery this accountAddress
       channelTarget siweMessage signature w = answer "email"
  /\ CustodialStatements.createRegistrationToSmsRecovery this accountAddress
       channelTarget siweMessage signature w = answer "sms".
Proof.
  cbv zeta.
  split; [intros channel|split];
    unfold CustodialStatements.createRegistrationToEmailRecovery,
      CustodialStatements.createRegistrationToSmsRecovery,
      Custodial.createRegistrationToRecovery;
    run_request H; view_field H;
    destruct (String.eqb _ "string"); reflexivity.
Qed.

(** X8.  [submitRegistrationChallenge] returns the reply itself, with whatever
    else it holds, when its [registrationId] and its [guardianAddress] are
    strings; any other reply that [sendHttpRequest] hands back ends the
    call with BAD_DATA, message [<url> failed], [ensureError] of the reply
    as the cause and the two arguments as the context. *)
Theorem submitRegistrationChallenge_returns_reply `{C : Collaborators}
  (this : RecoveryByCustodialGuardian) (challengeId otpChallenge : string)
  (w : World) :
  let url := custodial_serviceEndpoint this ++ "/v1/auth/submit" in
  let body := JObj [("challengeId", JStr challengeId);
                    ("challenge", JStr otpChallenge)] in
  Custodial.submitRegistrationChallenge this challengeId otpChallenge w
  = match sendHttpRequest url body post default_headers w with
    | (w', Ok r) =>
        (w', if String.eqb (typeof (field r "registrationId")) "string"
                && String.eqb (typeof (field r "guardianAddress")) "string"
             then Ok r
             else Throw (SafeRecoveryServiceSdkError BAD_DATA
                           (url ++ " failed")
                           (Some (ensureError (ThrownValue r))) JUndefined
                           body))
    | (w', Throw e) => (w', Throw e)
    end.
Proof.
  cbv zeta. unfold Custodial.submitRegistrationChallenge.
  run_request H. view_field H.
  destruct (String.eqb (typeof (field _ "registrationId")) "string");
    destruct (String.eqb (typeof (field _ "guardianAddress")) "string");
    reflexivity.
Qed.

(** X9.  [deleteRegistration] answers with the reply's [success] when that is a
    boolean; any other reply that [sendHttpRequest] hands back ends the
    call with BAD_DATA, message [<url> failed], [ensureError] of the reply
    as the cause and the arguments as the context. *)
Theorem deleteRegistration_answers_with_success `{C : Collaborators}
  (this : RecoveryByCustodialGuardian)
  (registrationId siweMessage signature : string) (w : World) :
  let url := custodial_serviceEndpoint this ++ "/v1/auth/delete" in
  Custodial.deleteRegistration this registrationId siweMessage signature w
  = match sendHttpRequest url
            (JObj [("registrationId", JStr registrationId);
                   ("message", JStr siweMessage);
                   ("signature", JStr signature)]) post default_headers w with
    | (w', Ok r) =>
        (w', match field r "success" with
             | JBool b => Ok (JBool b)
             | _ => Throw (SafeRecoveryServiceSdkError BAD_DATA
                             (url ++ " failed")
                             (Some (ensureError (ThrownValue r))) JUndefined
                             (JObj [("registrationId", JStr registrationId);
                                    ("message", JStr siweMessage);
                                    ("eip1271SiweContractSignature",
                                      JStr signature)]))
             end)
    | (w', Throw e) => (w', Throw e)
    end.
Proof.
  cbv zeta. unfold Custodial.deleteRegistration.
  run_request H. view_field H.
  destruct (field _ "success"); reflexivity.
Qed.

(** X10.  [requestCustodialGuardianSignatureChallenge] checks two fields of the
    signature request it returns: it returns the reply itself when its
    [requestId] is a string and its [requiredVerifications] a number, and
    otherwise throws BAD_DATA with the message [<url> failed],
    [ensureError] of the reply as the cause and the arguments as the
    context.  The [auths] of the reply are not looked at. *)
Theorem requestCustodialGuardianSignatureChallenge_checks_two_fields
  `{C : Collaborators} (this : RecoveryByCustodialGuardian)
  (accountAddress : string) (newOwners : list string) (newThreshold : Z)
  (w : World) :
  let url := custodial_serviceEndpoint this ++ "/v1/auth/signature/request" in
  let body := JObj [("account", JStr accountAddress);
                    ("newOwners", JArr (map JStr newOwners));
                    ("newThreshold", JNum newThreshold);
                    ("chainId", chainId_number (custodial_chainId this))] in
  Custodial.requestCustodialGuardianSignatureChallenge this accountAddress
    newOwners newThreshold w
  = match sendHttpRequest url body post default_headers w with
    | (w', Ok r) =>
        (w', if String.eqb (typeof (field r "requestId")) "string"
                && String.eqb (typeof (field r "requiredVerifications"))
                     "number"
             then Ok r
             else Throw (SafeRecoveryServiceSdkError BAD_DATA
                           (url ++ " failed")
                           (Some (ensureError (ThrownValue r))) JUndefined
                           body))
    | (w', Throw e) => (w', Throw e)
    end.
Proof.
  cbv zeta. unfold Custodial.requestCustodialGuardianSignatureChallenge.
  run_request H. view_field H.
  destruct (String.eqb (typeof (field _ "requestId")) "string");
    destruct (String.eqb (typeof (field _ "requiredVerifications")) "number");
    reflexivity.
Qed.

(** X11.  [activateSubscription] and [unsubscribe] answer with the reply's
    [success] when that is a boolean; any other reply that
    [sendHttpRequest] hands back ends the call with BAD_DATA, message
    [<url> failed], [ensureError] of the reply as the cause, and a context
    that holds the subscription id only. *)
Theorem alerts_methods_answer_with_success `{C : Collaborators}
  (this : Alerts) (w : World) :
  let answer url subscriptionId sent :=
    match sent with
    | (w', Ok r) =>
        (w', match field r "success" with
             | JBool b => Ok (JBool b)
             | _ => Throw (SafeRecoveryServiceSdkError BAD_DATA
                             (url ++ " failed")
                             (Some (ensureError (ThrownValue r))) JUndefined
                             (JObj [("subscriptionId", JStr subscriptionId)]))
             end)
    | (w', Throw e) => (w', Throw e)
    end in
  (forall subscriptionId otpChallenge,
      let url := alerts_serviceEndpoint this ++ "/v1/alerts/activate" in
      AlertsService.activateSubscription this subscriptionId otpChallenge w
      = answer url subscriptionId
          (sendHttpRequest url
             (JObj [("subscriptionId", JStr subscriptionId);
                    ("challenge", JStr otpChallenge)]) post default_headers w))
  /\ (forall subscriptionId ownerAddress siweMessage signature,
         let url := alerts_serviceEndpoint this ++ "/v1/alerts/unsubscribe" in
         AlertsService.unsubscribe this subscriptionId ownerAddress
           siweMessage signature w
         = answer url subscriptionId
             (sendHttpRequest url
                (JObj [("subscriptionId", JStr subscriptionId);
                       ("owner", JStr ownerAddress);
                       ("chainId", chainId_number (alerts_chainId this));
                       ("message", JStr siweMessage);
                       ("signature", JStr signature)])
                post default_headers w)).
Proof.
  cbv zeta. split; intros.
  - unfold AlertsService.activateSubscription.
    run_request H. view_field H.
    destruct (field _ "success"); reflexivity.
  - unfold AlertsService.unsubscribe.
    run_request H. view_field H.
    destruct (field _ "success"); reflexivity.
Qed.

(** ** [getNetworkConfig] *)

Lemma build_request_chainId (url : string) (chain : Z) :
  Z.abs chain <= 2 ^ 53 ->
  build_request url (JObj [("chainId", chainId_number chain)]) get
    default_headers
  = Ok (url ++ "?chainId=" ++ decimal chain, get_request).
Proof.
  intros Hchain. unfold build_request.
  destruct (stringify_bigint_replacer (JObj [("chainId", chainId_number chain)]))
    as (text & -> & _).
  unfold chainId_number. rewrite (Number_of_bigint_safe _ Hchain).
  simpl. unfold URLSearchParams_toString. simpl.
  rewrite urlencode_decimal. reflexivity.
Qed.

(** Beyond [2 ^ 53] the chain id that is asked for is the rounded one. *)
Example getNetworkConfig_rounds_chain_id :
  sent (fst (getNetworkConfig (C := Scripted) "https://service.example"
               (2 ^ 53 + 1) idle))
  = [("https://service.example/v1/config/getNetworkConfig?chainId=9007199254740992",
      get_request)].
Proof. vm_compute. reflexivity. Qed.

(** X12.  For a chain id of magnitude at most [2 ^ 53], which
    [parseInt] makes a number without rounding, [getNetworkConfig] sends
    one GET request, to
    [<endpoint>/v1/config/getNetworkConfig?chainId=<decimal chain id>], and
    hands back the reply as it is, without looking at any field of a
    network configuration: it returns [r] exactly when the authority
    answered with [r], an object without a [code] or an array. *)
Theorem getNetworkConfig_returns_reply `{C : Collaborators}
  (endpoint : string) (chain : Z) (w w' : World) (r : JsVal) :
  Z.abs chain <= 2 ^ 53 ->
  getNetworkConfig endpoint chain w = (w', Ok r)
  <-> fetch_json
        ((endpoint ++ "/v1/config/getNetworkConfig") ++ "?chainId="
           ++ decimal chain)
        get_request w = (w', Returns r)
      /\ ((exists l, r = JObj l /\ assoc "code" l = None)
          \/ exists l, r = JArr l).
Proof.
  intros Hchain. unfold getNetworkConfig.
  apply sendHttpRequest_ok_iff, build_request_chainId, Hchain.
Qed.

Lemma getNetworkConfig_returns_reply_witness :
  getNetworkConfig (C := Scripted) "https://service.example" 1
    (reply_of (JObj [("name", JStr "mainnet"); ("chainId", JNum 1)]))
  = (after_request
       "https://service.example/v1/config/getNetworkConfig?chainId=1"
       get_request,
     Ok (JObj [("name", JStr "mainnet"); ("chainId", JNum 1)])).
Proof.
  apply (proj2 (getNetworkConfig_returns_reply (C := Scripted)
                  "https://service.example" 1
                  (reply_of (JObj [("name", JStr "mainnet");
                                   ("chainId", JNum 1)]))
                  (after_request
                     "https://service.example/v1/config/getNetworkConfig?chainId=1"
                     get_request)
                  (JObj [("name", JStr "mainnet"); ("chainId", JNum 1)])
                  (ltac:(simpl; lia) : Z.abs 1 <= 2 ^ 53))).
  split; [reflexivity|]. left. eexists. split; reflexivity.
Defined.

(** ** [getRecoveryRequests] and [createRecoveryRequest] *)

Lemma assoc_assoc_set (k k' : string) (v : JsVal) (l : list (string * JsVal)) :
  assoc k' (assoc_set k v l)
  = if String.eqb k' k then Some v else assoc k' l.
Proof.
  induction l as [|[k0 v0] l IH]; cbn.
  - destruct (String.eqb k' k); reflexivity.
  - destruct (String.eqb_spec k k0) as [->|Hk]; cbn.
    + destruct (String.eqb k' k0); reflexivity.
    + rewrite IH. destruct (String.eqb_spec k' k0) as [->|Hk'].
      * destruct (String.eqb_spec k0 k); [congruence|reflexivity].
      * reflexivity.
Qed.

Lemma with_bigint_nonce_view (x y : JsVal) :
  with_bigint_nonce x = Ok y
  <-> exists props z,
        x = JObj props
        /\ js_BigInt (field x "nonce") = Ok z
        /\ y = JObj (assoc_set "nonce" (JBig z) props).
Proof.
  unfold with_bigint_nonce. split.
  - destruct x; cbn; try discriminate.
    + rewrite (array_index_not_numeric "n" "once" _ eq_refl). discriminate.
    + rewrite (array_index_not_numeric "n" "once" _ eq_refl). discriminate.
    + destruct (js_BigInt (default JUndefined (assoc "nonce" l))) as [z|e] eqn:Hz;
        cbn; [|discriminate].
      intros [= <-]. eauto.
  - intros (props & z & -> & Hz & ->). cbn in *. rewrite Hz. reflexivity.
Qed.

Lemma with_bigint_nonce_converted (x y : JsVal) :
  with_bigint_nonce x = Ok y -> nonce_converted x y.
Proof.
  intros H. apply with_bigint_nonce_view in H as (props & z & -> & Hz & ->).
  repeat split.
  - exists z. split; [exact Hz|]. cbn. rewrite assoc_assoc_set. reflexivity.
  - intros k Hk. cbn. rewrite assoc_assoc_set.
    destruct (String.eqb_spec k "nonce"); [contradiction|reflexivity].
Qed.

Lemma mapR_Forall2 {A B} (f : A -> Result B) (P : A -> B -> Prop)
  (l : list A) (l' : list B) :
  (forall x y, f x = Ok y -> P x y) ->
  mapR f l = Ok l' -> Forall2 P l l'.
Proof.
  intros Hf. revert l'. induction l as [|x xs IH]; cbn; intros l'.
  - intros [= <-]. constructor.
  - destruct (f x) as [y|e] eqn:Hx; cbn; [|discriminate].
    destruct (mapR f xs) as [ys|e]; cbn; [|discriminate].
    intros [= <-]. constructor; auto.
Qed.

Lemma mapR_total {A B} (f : A -> Result B) (l : list A) :
  Forall (fun x => exists y, f x = Ok y) l ->
  exists l', mapR f l = Ok l'.
Proof.
  induction 1 as [|x xs [y Hy] _ [ys Hys]]; cbn.
  - eauto.
  - rewrite Hy, Hys. cbn. eauto.
Qed.

Lemma getRecoveryRequests_run `{C : Collaborators}
  (this : RecoveryByGuardianService) (accountAddress : string) (n : Z)
  (w : World) :
  0 <= n ->
  Documented.getRecoveryRequests this accountAddress n w
  = match sendHttpRequest
            (serviceEndpoint this ++ "/v1/recoveries/fetchByAddress")
            (JObj [("account", JStr accountAddress);
                   ("chainId", chainId_number (chainId this));
                   ("nonce", JStr ("0x" ++ hex (Z.to_N n)))])
            get default_headers w with
    | (w', Ok (JArr l)) =>
        (w', converted ← mapR with_bigint_nonce l; Ok (JArr converted))
    | (w', Ok r) => (w', Throw (TypeError (js_String r ++ " is not iterable")))
    | (w', Throw e) => (w', Throw e)
    end.
Proof.
  intros Hn. unfold Documented.getRecoveryRequests.
  rewrite M_bind_run. unfold liftR at 1, toQuantity.
  destruct (Z.ltb_spec n 0); [lia|].
  rewrite M_bind_run.
  destruct (sendHttpRequest _ _ _ _ w) as [w' [r|e]] eqn:Hs; [|reflexivity].
  apply sendHttpRequest_ok in Hs.
  destruct (no_code_shape r Hs) as [(l & -> & _)|(l & ->)]; reflexivity.
Qed.

(** X13.  [getRecoveryRequests] hands back the authority's list with every nonce
    made a bigint.  When it returns, the authority answered the one GET
    request with an array, the result is an array of the same length, and
    each of its requests is the request of the reply at the same place, an
    object, with [nonce] replaced by the bigint [BigInt] makes of it and
    every other property untouched.  Conversely it returns whenever the
    reply is an array of objects whose nonces [BigInt] accepts. *)
Theorem getRecoveryRequests_converts_nonces `{C : Collaborators}
  (this : RecoveryByGuardianService) (accountAddress : string) (n : Z)
  (w w' : World) :
  let sent :=
    sendHttpRequest (serviceEndpoint this ++ "/v1/recoveries/fetchByAddress")
      (JObj [("account", JStr accountAddress);
             ("chainId", chainId_number (chainId this));
             ("nonce", JStr ("0x" ++ hex (Z.to_N n)))])
      get default_headers w in
  let out := Documented.getRecoveryRequests this accountAddress n w in
  (forall v,
      out = (w', Ok v) ->
      0 <= n
      /\ exists l l',
           sent = (w', Ok (JArr l)) /\ v = JArr l'
           /\ Forall2 nonce_converted l l')
  /\ (forall l,
         0 <= n ->
         sent = (w', Ok (JArr l)) ->
         Forall (fun x => is_object x = true
                          /\ exists z, js_BigInt (field x "nonce") = Ok z) l ->
         exists l', out = (w', Ok (JArr l')) /\ Forall2 nonce_converted l l').
Proof.
  cbv zeta. split.
  - intros v Hv.
    assert (Hn : 0 <= n).
    { destruct (Z.ltb_spec n 0) as [Hlt|]; [|assumption].
      unfold Documented.getRecoveryRequests in Hv.
      rewrite M_bind_run in Hv. unfold liftR at 1, toQuantity in Hv.
      destruct (Z.ltb_spec n 0); [discriminate|lia]. }
    split; [exact Hn|].
    rewrite (getRecoveryRequests_run this accountAddress n w Hn) in Hv.
    destruct (sendHttpRequest _ _ _ _ w) as [w1 [r|e]]; [|discriminate].
    destruct r; try discriminate.
    destruct (mapR with_bigint_nonce l) as [l'|e] eqn:Hl; cbn in Hv;
      [|discriminate].
    apply pair_equal_spec in Hv as [<- [= <-]].
    exists l, l'. repeat split.
    apply (mapR_Forall2 _ _ _ _ with_bigint_nonce_converted Hl).
  - intros l Hn Hs Hl.
    rewrite (getRecoveryRequests_run this accountAddress n w Hn), Hs.
    destruct (mapR_total with_bigint_nonce l) as [l' Hl'].
    { eapply Forall_impl; [exact Hl|]. cbn.
      intros x [Hx [z Hz]]. destruct x; try discriminate.
      eexists. apply with_bigint_nonce_view. eauto. }
    exists l'. rewrite Hl'. split; [reflexivity|].
    apply (mapR_Forall2 _ _ _ _ with_bigint_nonce_converted Hl').
Qed.

Lemma getRecoveryRequests_converts_nonces_witness :
  exists l',
    Documented.getRecoveryRequests (C := Scripted) sample_service
      sample_account 1
      (reply_of (JArr [sample_request "r1" "EXECUTED" "0x1";
                       sample_request "r2" "PENDING" "1"]))
    = (after_request
         "https://service.example/v1/recoveries/fetchByAddress?account=0x00000000000000000000000000000000000000a1&chainId=1&nonce=0x1"
         get_request,
       Ok (JArr l'))
    /\ Forall2 nonce_converted
         [sample_request "r1" "EXECUTED" "0x1";
          sample_request "r2" "PENDING" "1"] l'.
Proof.
  apply (proj2 (getRecoveryRequests_converts_nonces (C := Scripted)
                  sample_service sample_account 1
                  (reply_of (JArr [sample_request "r1" "EXECUTED" "0x1";
                                   sample_request "r2" "PENDING" "1"]))
                  (after_request
                     "https://service.example/v1/recoveries/fetchByAddress?account=0x00000000000000000000000000000000000000a1&chainId=1&nonce=0x1"
                     get_request))).
  - lia.
  - reflexivity.
  - repeat constructor; eexists; reflexivity.
Defined.

Lemma sendHttpRequest_world `{C : Collaborators}
  (rpcUrl : string) (body : JsVal) (method : HttpMethod)
  (headers : list (string * string)) (params : string)
  (requestOptions : RequestInit) (w : World) :
  build_request rpcUrl body method headers = Ok (params, requestOptions) ->
  fst (sendHttpRequest rpcUrl body method headers w)
  = fst (fetch_json params requestOptions w).
Proof.
  intros Hb. unfold sendHttpRequest. rewrite Hb.
  destruct (fetch_json params requestOptions w) as [w' [r|err]]; reflexivity.
Qed.

Lemma getRecoveryRequests_world `{C : Collaborators}
  (this : RecoveryByGuardianService) (accountAddress : string) (n : Z)
  (w : World) :
  0 <= n ->
  Z.abs (chainId this) <= 2 ^ 53 ->
  fst (Documented.getRecoveryRequests this accountAddress n w)
  = fst (fetch_json
           ((serviceEndpoint this ++ "/v1/recoveries/fetchByAddress") ++ "?"
              ++ (("account=" ++ urlencode accountAddress)
                    ++ "&" ++ "chainId=" ++ decimal (chainId this))
              ++ "&" ++ "nonce=0x" ++ hex (Z.to_N n))
           get_request w).
Proof.
  intros Hn Hchain.
  destruct (getRecoveryRequests_query this accountAddress n Hn Hchain)
    as [_ Hb].
  unfold get_request. rewrite <- (sendHttpRequest_world _ _ _ _ _ _ w Hb).
  rewrite (getRecoveryRequests_run this accountAddress n w Hn).
  destruct (sendHttpRequest _ _ _ _ w) as [w' [r|e]]; [|reflexivity].
  destruct r; reflexivity.
Qed.

(** X14.  [getRecoveryRequests] asks with one GET request whose query carries the
    account, the chain id in decimal and the nonce as a [0x] quantity: for
    a nonce that is not negative and a chain id of magnitude at most
    [2 ^ 53], which [parseInt] makes a number without rounding, the world
    after the call is the world after that one request.  A negative nonce
    is refused, with an error that is no [SafeRecoveryServiceSdkError],
    before anything is sent. *)
Theorem getRecoveryRequests_sends_one_GET `{C : Collaborators}
  (this : RecoveryByGuardianService) (accountAddress : string) (n : Z)
  (w : World) :
  (0 <= n ->
   Z.abs (chainId this) <= 2 ^ 53 ->
   fst (Documented.getRecoveryRequests this accountAddress n w)
   = fst (fetch_json
            ((serviceEndpoint this ++ "/v1/recoveries/fetchByAddress") ++ "?"
               ++ (("account=" ++ urlencode accountAddress)
                     ++ "&" ++ "chainId=" ++ decimal (chainId this))
               ++ "&" ++ "nonce=0x" ++ hex (Z.to_N n))
            get_request w))
  /\ (n < 0 ->
      exists e,
        Documented.getRecoveryRequests this accountAddress n w = (w, Throw e)
        /\ is_sdk_error e = false).
Proof.
  split.
  - apply getRecoveryRequests_world.
  - intros Hn. unfold Documented.getRecoveryRequests.
    rewrite M_bind_run. unfold liftR at 1, toQuantity.
    destruct (Z.ltb_spec n 0); [|lia]. eauto.
Qed.

Lemma getRecoveryRequests_sends_one_GET_witness :
  sent (fst (Documented.getRecoveryRequests (C := Scripted) sample_service
               "0xAb c" 255 idle))
  = [("https://service.example/v1/recoveries/fetchByAddress?account=0xAb+c&chainId=1&nonce=0xff",
      get_request)].
Proof.
  exact (f_equal sent
           (proj1 (getRecoveryRequests_sends_one_GET (C := Scripted)
                     sample_service "0xAb c" 255 idle)
              (ltac:(lia) : 0 <= 255)
              (ltac:(simpl; lia) : Z.abs 1 <= 2 ^ 53))).
Defined.

Lemma js_BigInt_throws_native (v : JsVal) (e : JsError) :
  js_BigInt v = Throw e -> is_sdk_error e = false.
Proof.
  destruct v; cbn; unfold ToPrimitive;
    try destruct (unconvertible _); cbn; unfold BigInt_of_string;
    try destruct (StringToBigInt _); intros [= <-]; reflexivity.
Qed.

(** X15.  [createRecoveryRequest] hands back the authority's reply with its nonce
    made a bigint.  When it returns, the reply was an object and the result
    is that object with [nonce] replaced by the bigint [BigInt] makes of it,
    every other property untouched; it returns whenever the reply is such
    an object.  A reply that is an array, or whose nonce [BigInt] refuses
    (a missing nonce among them), ends the call with the engine's error,
    which is no [SafeRecoveryServiceSdkError]. *)
Theorem createRecoveryRequest_converts_nonce `{C : Collaborators}
  (this : RecoveryByGuardianService) (accountAddress : string)
  (newOwners : list string) (newThreshold : Z)
  (guardianAddress guardianSignature : string) (w w' : World) :
  let sent :=
    sendHttpRequest (serviceEndpoint this ++ "/v1/recoveries/create")
      (JObj [("account", JStr accountAddress);
             ("newOwners", JArr (map JStr newOwners));
             ("newThreshold", JNum newThreshold);
             ("chainId", chainId_number (chainId this));
             ("signer", JStr guardianAddress);
             ("signature", JStr guardianSignature)])
      post default_headers w in
  let out :=
    Documented.createRecoveryRequest this accountAddress newOwners
      newThreshold guardianAddress guardianSignature w in
  (forall v,
      out = (w', Ok v) -> exists r, sent = (w', Ok r) /\ nonce_converted r v)
  /\ (forall r z,
         sent = (w', Ok r) ->
         is_object r = true ->
         js_BigInt (field r "nonce") = Ok z ->
         exists v, out = (w', Ok v) /\ nonce_converted r v)
  /\ (forall r,
         sent = (w', Ok r) ->
         is_object r = false \/ (forall z, js_BigInt (field r "nonce") <> Ok z) ->
         exists e, out = (w', Throw e) /\ is_sdk_error e = false).
Proof.
  cbv zeta. unfold Documented.createRecoveryRequest. rewrite M_bind_run.
  destruct (sendHttpRequest _ _ _ _ w) as [w1 [r|e]] eqn:Hs.
  - unfold liftR. repeat split.
    + intros v Hv. apply pair_equal_spec in Hv as [<- Hv].
      exists r. split; [reflexivity|]. apply with_bigint_nonce_converted, Hv.
    + intros r' z Hr Hobj Hz. apply pair_equal_spec in Hr as [<- [= <-]].
      destruct r; try discriminate.
      assert (Hv : with_bigint_nonce (JObj l)
                   = Ok (JObj (assoc_set "nonce" (JBig z) l))).
      { apply with_bigint_nonce_view. eauto. }
      rewrite Hv. eexists. split; [reflexivity|].
      apply with_bigint_nonce_converted, Hv.
    + intros r' Hr Hbad. apply pair_equal_spec in Hr as [<- [= <-]].
      apply sendHttpRequest_ok in Hs.
      unfold with_bigint_nonce.
      rewrite (js_get_field r "n" "once" Hs eq_refl eq_refl). cbn.
      destruct (js_BigInt (field r "nonce")) as [z|e] eqn:Hz; cbn.
      * destruct Hbad as [Hobj|Hno]; [|destruct (Hno z eq_refl)].
        destruct (no_code_shape r Hs) as [(l & -> & _)|(l & ->)];
          [discriminate|].
        cbn in Hz. discriminate.
      * exists e. split; [reflexivity|]. apply (js_BigInt_throws_native _ _ Hz).
  - repeat split; intros; discriminate.
Qed.

(** ** The resolver and its one request *)

(** X26.  [getRecoveryRequestsForLatestNonce] reads the ledger and then asks the
    authority at most once.  When the ledger yields a nonce [n] that is not
    negative, the chain id is of magnitude at most [2 ^ 53], which
    [parseInt] makes a number without rounding, and the status is PENDING
    or [n] is not zero, the world after the call is the world after one GET
    request for the nonce [n] (for PENDING) or [n - 1] (for EXECUTED and
    FINALIZED), written as a [0x] quantity: the resolver never asks with a
    negative nonce. *)
Theorem latest_nonce_is_asked_once `{C : Collaborators}
  (this : RecoveryByGuardianService) (rpcNode accountAddress : string)
  (status : RecoveryStatus) (w w1 : World) (n : Z) :
  SocialRecoveryModule_nonce (recoveryModuleAddress this) rpcNode
    accountAddress w = (w1, Returns n) ->
  0 <= n ->
  Z.abs (chainId this) <= 2 ^ 53 ->
  is_pending status = true \/ n <> 0 ->
  let queried := if is_pending status then n else n - 1 in
  0 <= queried
  /\ fst (Documented.getRecoveryRequestsForLatestNonce this rpcNode
            accountAddress status w)
     = fst (fetch_json
              ((serviceEndpoint this ++ "/v1/recoveries/fetchByAddress") ++ "?"
                 ++ (("account=" ++ urlencode accountAddress)
                       ++ "&" ++ "chainId=" ++ decimal (chainId this))
                 ++ "&" ++ "nonce=0x" ++ hex (Z.to_N queried))
              get_request w1).
Proof.
  intros Hn Hpos Hchain Hq. cbv zeta.
  assert (Hqueried : 0 <= (if is_pending status then n else n - 1)).
  { destruct (is_pending status); [lia|]. destruct Hq; [discriminate|lia]. }
  split; [exact Hqueried|].
  unfold Documented.getRecoveryRequestsForLatestNonce.
  rewrite M_bind_run, Hn.
  assert (Hif : (n =? 0) && negb (is_pending status) = false).
  { destruct (is_pending status); [apply andb_false_r|].
    destruct Hq; [discriminate|]. destruct (Z.eqb_spec n 0); [lia|reflexivity]. }
  rewrite Hif.
  rewrite <- (getRecoveryRequests_world this accountAddress _ w1 Hqueried
                Hchain).
  rewrite M_bind_run.
  replace (if negb (is_pending status) then n - 1 else n)
    with (if is_pending status then n else n - 1)
    by (destruct (is_pending status); reflexivity).
  destruct (Documented.getRecoveryRequests this accountAddress _ w1)
    as [w2 [r|e]]; reflexivity.
Qed.

Lemma latest_nonce_is_asked_once_witness :
  sent (fst (Documented.getRecoveryRequestsForLatestNonce (C := Scripted)
               sample_service sample_rpc sample_account EXECUTED
               two_requests_at_nonce_1))
  = [("https://service.example/v1/recoveries/fetchByAddress?account=0x00000000000000000000000000000000000000a1&chainId=1&nonce=0x1",
      get_request)].
Proof.
  exact (f_equal sent
           (proj2 (latest_nonce_is_asked_once (C := Scripted) sample_service
                     sample_rpc sample_account EXECUTED
                     two_requests_at_nonce_1 two_requests_at_nonce_1 2
                     eq_refl (ltac:(lia) : 0 <= 2)
                     (ltac:(simpl; lia) : Z.abs 1 <= 2 ^ 53)
                     (or_intror (ltac:(lia) : 2 <> 0))))).
Defined.

(** ** The element checks *)

Lemma lacks_field_object (l : list (string * JsVal)) (k ty : string) :
  String.eqb "undefined" ty = false ->
  lacks_field (JObj l) k ty
  = negb (String.eqb (typeof (field (JObj l) k)) ty).
Proof.
  intros Hty. unfold lacks_field, js_in, js_get, field.
  destruct (assoc k l) as [v|].
  - rewrite bool_decide_eq_true_2 by eauto. reflexivity.
  - rewrite bool_decide_eq_false_2 by (intros [? ?]; discriminate).
    change (typeof (default JUndefined None)) with "undefined".
    rewrite Hty. reflexivity.
Qed.

Lemma malformed_registration_view (x : JsVal) :
  malformed_registration x = negb (is_registration x).
Proof.
  unfold malformed_registration, is_registration.
  destruct x; try reflexivity.
  - unfold lacks_field at 1, js_in.
    rewrite (array_index_not_numeric "i" "d" _ eq_refl). reflexivity.
  - rewrite !lacks_field_object by reflexivity.
    cbn [is_object andb].
    destruct (String.eqb (typeof (field (JObj l) "id")) "string");
      destruct (String.eqb (typeof (field (JObj l) "channel")) "string");
      destruct (String.eqb (typeof (field (JObj l) "target")) "string");
      reflexivity.
Qed.

Lemma existsb_malformed (l : list JsVal) :
  existsb malformed_registration l = negb (forallb is_registration l).
Proof.
  induction l as [|x xs IH]; cbn; [reflexivity|].
  rewrite IH, malformed_registration_view.
  destruct (is_registration x); reflexivity.
Qed.

Lemma stringify_array_some (fuel : nat) (key : string)
  (l : list JsVal) (t : option string) :
  SerializeJSONProperty fuel no_replacer key (JArr l) = Ok t ->
  exists s, t = Some s.
Proof.
  destruct fuel as [|fuel]; [discriminate|].
  cbn [SerializeJSONProperty no_replacer].
  destruct (serialize_elements _ _ l); cbn; intros [= <-]; eauto.
Qed.

Lemma stringify_reply_some (r : JsVal) (t : option string) :
  js_in "code" r = Ok false ->
  JSON_stringify no_replacer r = Ok t -> exists s, t = Some s.
Proof.
  intros Hr. unfold JSON_stringify.
  destruct (no_code_shape r Hr) as [(l & -> & _)|(l & ->)].
  - apply stringify_object_some.
  - apply stringify_array_some.
Qed.

Lemma assoc_map_values (f : JsVal -> JsVal) (k : string)
  (l : list (string * JsVal)) :
  assoc k (map (fun kv => (fst kv, f (snd kv))) l) = f <$> assoc k l.
Proof.
  induction l as [|[k0 x] l IH]; cbn; [reflexivity|].
  destruct (String.eqb k k0); [reflexivity|exact IH].
Qed.

Lemma response_text_total (r : JsVal) :
  js_in "code" r = Ok false ->
  exists text,
    JSON_stringify no_replacer (hex_bigints r) = Ok (Some text)
    /\ response_text r = Ok (JStr text).
Proof.
  intros Hr. unfold response_text.
  destruct (stringify_bigint_replacer r) as (t & -> & Ht).
  assert (Hr' : js_in "code" (hex_bigints r) = Ok false).
  { destruct (no_code_shape r Hr) as [(l & -> & Hl)|(l & ->)]; cbn.
    - rewrite assoc_map_values, Hl. reflexivity.
    - rewrite (array_index_not_numeric "c" "ode" _ eq_refl). reflexivity. }
  destruct (stringify_reply_some _ _ Hr' Ht) as [s ->].
  exists s. split; [exact Ht|reflexivity].
Qed.

(** ** [Alerts.createSubscription] and [createEmailSubscription] *)

(** X16.  [createSubscription] sends one POST request and returns the reply's
    [subscriptionId] when that is a string.  Any other reply ends the call
    with BAD_DATA, message [<url> failed], no cause, and a context that
    repeats the arguments and holds the text of the reply, which can always
    be written.  [createEmailSubscription] is the same call for the channel
    [email]. *)
Theorem createSubscription_returns_subscriptionId `{C : Collaborators}
  (this : Alerts)
  (accountAddress ownerAddress channelTarget siweMessage signature : string)
  (w : World) :
  let url := alerts_serviceEndpoint this ++ "/v1/alerts/subscribe" in
  let sent channel :=
    sendHttpRequest url
      (JObj [("account", JStr accountAddress);
             ("owner", JStr ownerAddress);
             ("chainId", chainId_number (alerts_chainId this));
             ("channel", JStr (channel_name channel));
             ("target", JStr channelTarget);
             ("message", JStr siweMessage);
             ("signature", JStr signature)]) post default_headers w in
  let answer channel :=
    match sent channel with
    | (w', Ok r) =>
        (w', if String.eqb (typeof (field r "subscriptionId")) "string"
             then Ok (field r "subscriptionId")
             else
               text ← response_text r;
               Throw (SafeRecoveryServiceSdkError BAD_DATA (url ++ " failed")
                        None JUndefined
                        (JObj [("account", JStr accountAddress);
                               ("owner", JStr ownerAddress);
                               ("chainId",
                                 chainId_number (alerts_chainId this));
                               ("channel", JStr (channel_name channel));
                               ("target", JStr channelTarget);
                               ("siweMessage", JStr siweMessage);
                               ("signature", JStr signature);
                               ("response", text)])))
    | (w', Throw e) => (w', Throw e)
    end in
  (forall channel,
      AlertsService.createSubscription this accountAddress ownerAddress
        channel channelTarget siweMessage signature w = answer channel)
  /\ AlertsService.createEmailSubscription this accountAddress ownerAddress
       channelTarget siweMessage signature w = answer email
  /\ (forall channel w' r,
         sent channel = (w', Ok r) ->
         exists text,
           JSON_stringify no_replacer (hex_bigints r) = Ok (Some text)
           /\ response_text r = Ok (JStr text)).
Proof.
  cbv zeta.
  split; [intros channel|split].
  - unfold AlertsService.createSubscription.
    run_request H. view_field H.
    destruct (String.eqb _ "string"); [reflexivity|].
    cbn [negb]. rewrite M_bind_run. unfold liftR.
    destruct (response_text _); reflexivity.
  - unfold AlertsService.createEmailSubscription,
      AlertsService.createSubscription.
    run_request H. view_field H.
    destruct (String.eqb _ "string"); [reflexivity|].
    cbn [negb]. rewrite M_bind_run. unfold liftR.
    destruct (response_text _); reflexivity.
  - intros channel w' r Hs. apply sendHttpRequest_ok in Hs.
    apply response_text_total, Hs.
Qed.

(** ** [getActiveSubscriptions] and [getRegistrations] *)

(** X17.  [getActiveSubscriptions] is all or nothing.  For a reply whose
    [subscriptions] is an array it returns that array, unchanged, when
    every element is an object whose [id], [channel] and [target] are
    strings; one element that is not ends the call with BAD_DATA, message
    [<url> failed], no cause, and the text of the whole reply as the
    context. *)
Theorem getActiveSubscriptions_all_or_nothing `{C : Collaborators}
  (this : Alerts)
  (accountAddress ownerAddress siweMessage signature : string)
  (w w' : World) (r : JsVal) (l : list JsVal) :
  let url := alerts_serviceEndpoint this ++ "/v1/alerts/subscriptions" in
  sendHttpRequest url
    (JObj [("account", JStr accountAddress);
           ("owner", JStr ownerAddress);
           ("chainId", chainId_number (alerts_chainId this));
           ("message", JStr siweMessage);
           ("signature", JStr signature)]) get default_headers w
  = (w', Ok r) ->
  field r "subscriptions" = JArr l ->
  exists text,
    JSON_stringify no_replacer (hex_bigints r) = Ok (Some text)
    /\ AlertsService.getActiveSubscriptions this accountAddress ownerAddress
         siweMessage signature w
       = (w', if forallb is_registration l
              then Ok (JArr l)
              else Throw (SafeRecoveryServiceSdkError BAD_DATA
                            (url ++ " failed") None JUndefined
                            (JObj [("response", JStr text)]))).
Proof.
  cbv zeta. intros Hs Hl.
  unfold AlertsService.getActiveSubscriptions.
  rewrite M_bind_run, Hs. apply sendHttpRequest_ok in Hs.
  destruct (response_text_total r Hs) as (text & Ht & Hrt).
  exists text. split; [exact Ht|].
  rewrite M_bind_run. unfold liftR at 1.
  rewrite (js_get_field r "s" "ubscriptions" Hs eq_refl eq_refl), Hl.
  rewrite M_bind_run. unfold liftR at 1. cbn [js_iterate].
  rewrite existsb_malformed.
  destruct (forallb is_registration l); cbn [negb]; [reflexivity|].
  rewrite M_bind_run. unfold liftR. rewrite Hrt. reflexivity.
Qed.

Lemma getActiveSubscriptions_all_or_nothing_witness :
  exists w',
    AlertsService.getActiveSubscriptions (C := Scripted) sample_alerts
      sample_account sample_guardian "message" "0xsignature"
      (reply_of (JObj [("subscriptions", two_targets)]))
    = (w', Ok two_targets).
Proof.
  eexists.
  edestruct (getActiveSubscriptions_all_or_nothing (C := Scripted)
               sample_alerts sample_account sample_guardian "message"
               "0xsignature"
               (reply_of (JObj [("subscriptions", two_targets)])))
    as (text & _ & H); [reflexivity | reflexivity | exact H].
Defined.

(** X18.  [getRegistrations] is all or nothing.  For a reply whose
    [registrations] is an array it returns that array, unchanged, when
    every element is an object whose [id], [channel] and [target] are
    strings; one element that is not ends the call with BAD_DATA, message
    [<url> failed], no cause, and the JSON text of the whole reply as the
    context. *)
Theorem getRegistrations_all_or_nothing `{C : Collaborators}
  (this : RecoveryByCustodialGuardian)
  (accountAddress siweMessage signature : string)
  (w w' : World) (r : JsVal) (l : list JsVal) :
  let url := custodial_serviceEndpoint this ++ "/v1/auth/registrations" in
  sendHttpRequest url
    (JObj [("account", JStr accountAddress);
           ("chainId", chainId_number (custodial_chainId this));
           ("message", JStr siweMessage);
           ("signature", JStr signature)]) get default_headers w
  = (w', Ok r) ->
  no_bigint r = true ->
  field r "registrations" = JArr l ->
  exists text,
    JSON_stringify no_replacer r = Ok (Some text)
    /\ Custodial.getRegistrations this accountAddress siweMessage signature w
       = (w', if forallb is_registration l
              then Ok (JArr l)
              else Throw (SafeRecoveryServiceSdkError BAD_DATA
                            (url ++ " failed") None JUndefined
                            (JObj [("response", JStr text)]))).
Proof.
  cbv zeta. intros Hs Hr Hl.
  unfold Custodial.getRegistrations.
  rewrite M_bind_run, Hs. apply sendHttpRequest_ok in Hs.
  destruct (serialize_total (js_depth r) EmptyString r Hr (Nat.le_refl _))
    as [t Ht].
  destruct (stringify_reply_some r t Hs Ht) as [text ->].
  exists text. split; [exact Ht|].
  rewrite M_bind_run. unfold liftR at 1.
  rewrite (js_get_field r "r" "egistrations" Hs eq_refl eq_refl), Hl.
  rewrite M_bind_run. unfold liftR at 1. cbn [js_iterate].
  rewrite existsb_malformed.
  destruct (forallb is_registration l); cbn [negb]; [reflexivity|].
  rewrite M_bind_run. unfold liftR, JSON_stringify. rewrite Ht. reflexivity.
Qed.

Lemma getRegistrations_all_or_nothing_witness :
  exists w',
    Custodial.getRegistrations (C := Scripted) sample_custodial
      sample_account "message" "0xsignature"
      (reply_of (JObj [("registrations", two_targets)]))
    = (w', Ok two_targets).
Proof.
  eexists.
  edestruct (getRegistrations_all_or_nothing (C := Scripted)
               sample_custodial sample_account "message" "0xsignature"
               (reply_of (JObj [("registrations", two_targets)])))
    as (text & _ & H); [reflexivity | reflexivity | reflexivity | exact H].
Defined.

(** ** The statements to sign *)

Lemma append_assoc (a b c : string) : (a ++ b) ++ c = a ++ (b ++ c).
Proof.
  induction a as [|x a IH]; [reflexivity|].
  change (String x ((a ++ b) ++ c) = String x (a ++ b ++ c)).
  f_equal. exact IH.
Qed.

Lemma GetSubstitution_plain (matched before after replacement : string) :
  has_char "$" replacement = false ->
  GetSubstitution matched before after replacement = replacement.
Proof.
  induction replacement as [|d r IH]; cbn; [reflexivity|].
  destruct (Ascii.eqb d "$"); cbn; [discriminate|].
  intros H. rewrite (IH H). reflexivity.
Qed.

Lemma find_first_skip (c : ascii) (p s t : string) :
  has_char c s = false ->
  find_first (String c p) (s ++ t)
  = match find_first (String c p) t with
    | Some (before, after) => Some (s ++ before, after)
    | None => None
    end.
Proof.
  induction s as [|a s IH].
  - intros _. change (EmptyString ++ t) with t.
    destruct (find_first (String c p) t) as [[]|]; reflexivity.
  - cbn [has_char]. intros H. apply orb_false_elim in H as [Ha Hs].
    change (String a s ++ t) with (String a (s ++ t)).
    cbn [find_first strip_prefix].
    rewrite Ascii.eqb_sym, Ha.
    rewrite (IH Hs).
    destruct (find_first (String c p) t) as [[]|]; reflexivity.
Qed.

Lemma registration_statement_text (channel : Channel) (target : string) :
  has_char "$" target = false ->
  has_char "{" target = false ->
  registration_statement channel target
  = "I authorize Safe Recovery Service to sign a recovery request for my account after I authenticate using "
      ++ target ++ " (via " ++ channel_name channel ++ ")".
Proof.
  intros Hd Hb. unfold registration_statement.
  set (prefix := "I authorize Safe Recovery Service to sign a recovery request for my account after I authenticate using ").
  assert (H1 : String_replace
                 "I authorize Safe Recovery Service to sign a recovery request for my account after I authenticate using {{target}} (via {{channel}})"
                 "{{target}}" target
               = prefix ++ target ++ " (via {{channel}})").
  { unfold String_replace.
    change (find_first "{{target}}" _)
      with (Some (prefix, " (via {{channel}})")).
    cbv beta iota.
    rewrite (GetSubstitution_plain _ _ _ _ Hd). reflexivity. }
  rewrite H1. unfold String_replace.
  rewrite (find_first_skip "{" "{channel}}" prefix _ eq_refl).
  rewrite (find_first_skip "{" "{channel}}" target _ Hb).
  change (find_first "{{channel}}" " (via {{channel}})")
    with (Some (" (via ", ")")).
  cbv beta iota.
  rewrite GetSubstitution_plain by (destruct channel; reflexivity).
  rewrite !append_assoc. reflexivity.
Qed.

Lemma delete_registration_statement_text (registrationId : string) :
  has_char "$" registrationId = false ->
  delete_registration_statement registrationId
  = "I request to remove the authentication method with registration ID "
      ++ registrationId ++ " from my account on Safe Recovery Service".
Proof.
  intros Hd. unfold delete_registration_statement, String_replace.
  change (find_first "{{id}}" _)
    with (Some ("I request to remove the authentication method with registration ID ",
                " from my account on Safe Recovery Service")).
  cbv beta iota.
  rewrite (GetSubstitution_plain _ _ _ _ Hd). reflexivity.
Qed.

(** A dollar sign in the target is read as a replacement pattern, and a
    target that holds the second placeholder takes the channel's place. *)
Example registration_statement_patterns :
  registration_statement email "a$&b@example.com"
  = "I authorize Safe Recovery Service to sign a recovery request for my account after I authenticate using a{{target}}b@example.com (via email)"
  /\ registration_statement sms "{{channel}}"
     = "I authorize Safe Recovery Service to sign a recovery request for my account after I authenticate using sms (via {{channel}})".
Proof. split; reflexivity. Qed.

(** X19.  The statement to sign for a registration names the target and the
    channel: for a target that holds neither a dollar sign nor an opening
    brace, [createRegistrationToRecoverySiweStatementToSign] is
    [generateSIWEMessage] on the template with the target and the channel
    in the place of the two placeholders, and the e-mail and SMS variants
    are the same call for the channels [email] and [sms]. *)
Theorem registration_statement_names_target_and_channel `{C : Collaborators}
  (this : RecoveryByCustodialGuardian) (accountAddress target : string) :
  has_char "$" target = false ->
  has_char "{" target = false ->
  let message channel :=
    generateSIWEMessage accountAddress
      ("I authorize Safe Recovery Service to sign a recovery request for my account after I authenticate using "
         ++ target ++ " (via " ++ channel_name channel ++ ")")
      (custodial_chainId this) (siweDomain this) (siweUri this) in
  (forall channel,
      CustodialStatements.createRegistrationToRecoverySiweStatementToSign this
        accountAddress channel target = message channel)
  /\ CustodialStatements.createRegistrationToEmailRecoverySiweStatementToSign
       this accountAddress target = message email
  /\ CustodialStatements.createRegistrationToSmsRecoverySiweStatementToSign
       this accountAddress target = message sms.
Proof.
  intros Hd Hb. cbv zeta.
  split; [intros channel|split];
    unfold CustodialStatements.createRegistrationToEmailRecoverySiweStatementToSign,
      CustodialStatements.createRegistrationToSmsRecoverySiweStatementToSign,
      CustodialStatements.createRegistrationToRecoverySiweStatementToSign;
    rewrite (registration_statement_text _ target Hd Hb); reflexivity.
Qed.

Lemma registration_statement_names_target_and_channel_witness :
  CustodialStatements.createRegistrationToEmailRecoverySiweStatementToSign
    (C := Scripted) sample_custodial sample_account "user@example.com"
  = generateSIWEMessage (C := Scripted) sample_account
      "I authorize Safe Recovery Service to sign a recovery request for my account after I authenticate using user@example.com (via email)"
      1 "service://safe-recovery-service" "service://safe-recovery-service".
Proof.
  exact (proj1 (proj2 (registration_statement_names_target_and_channel
                         (C := Scripted) sample_custodial sample_account
                         "user@example.com" eq_refl eq_refl))).
Defined.

(** X20.  The statement to sign for removing a registration names its id: for an
    id without a dollar sign, [deleteRegistrationSiweStatementToSign] is
    [generateSIWEMessage] on the template with the id in the place of its
    placeholder. *)
Theorem deleteRegistration_statement_names_id `{C : Collaborators}
  (this : RecoveryByCustodialGuardian) (accountAddress registrationId : string) :
  has_char "$" registrationId = false ->
  CustodialStatements.deleteRegistrationSiweStatementToSign this
    accountAddress registrationId
  = generateSIWEMessage accountAddress
      ("I request to remove the authentication method with registration ID "
         ++ registrationId ++ " from my account on Safe Recovery Service")
      (custodial_chainId this) (siweDomain this) (siweUri this).
Proof.
  intros Hd. unfold CustodialStatements.deleteRegistrationSiweStatementToSign.
  rewrite (delete_registration_statement_text _ Hd). reflexivity.
Qed.

Lemma deleteRegistration_statement_names_id_witness :
  CustodialStatements.deleteRegistrationSiweStatementToSign (C := Scripted)
    sample_custodial sample_account "42"
  = generateSIWEMessage (C := Scripted) sample_account
      "I request to remove the authentication method with registration ID 42 from my account on Safe Recovery Service"
      1 "service://safe-recovery-service" "service://safe-recovery-service".
Proof.
  exact (deleteRegistration_statement_names_id (C := Scripted)
           sample_custodial sample_account "42" eq_refl).
Defined.

(** ** Failures of the statements that catch *)

Lemma generateSIWEMessage_throws `{C : Collaborators}
  (accountAddress statement : string) (chain : Z) (domain uri : string)
  (w w' : World) (inner : JsError) :
  generateSIWEMessage accountAddress statement chain domain uri w
  = (w', Throw inner) ->
  exists err, inner = siwe_failure accountAddress statement err.
Proof.
  unfold generateSIWEMessage.
  destruct (Date_toISOString w) as [w1 issuedAt].
  destruct (ethers_getAddress accountAddress) as [address|err].
  - destruct (ethers_randomBytes 24 w1) as [w2 [bytes|err]].
    + destruct (SiweMessage_prepareMessage _) as [message|err].
      * discriminate.
      * intros [= <- <-]. eauto.
    + intros [= <- <-]. eauto.
  - intros [= <- <-]. eauto.
Qed.

(** X21.  A failure of [getRegistrationsSiweStatementToSign] is wrapped twice:
    the error it throws is a SIWE_ERROR whose cause is the SIWE_ERROR that
    [generateSIWEMessage] threw, itself caused by the original error; all
    three carry the original message, and the outer context adds the chain
    id. *)
Theorem getRegistrationsSiweStatementToSign_wraps_twice `{C : Collaborators}
  (this : RecoveryByCustodialGuardian) (accountAddress : string)
  (w w' : World) (e : JsError) :
  let statement :=
    "I request to retrieve all authentication methods currently registered to my account with Safe Recovery Service" in
  CustodialStatements.getRegistrationsSiweStatementToSign this accountAddress w
  = (w', Throw e) ->
  exists original,
    let inner :=
      SafeRecoveryServiceSdkError SIWE_ERROR (error_message original)
        (Some original) JUndefined
        (JObj [("accountAddress", JStr accountAddress);
               ("statement", JStr statement)]) in
    generateSIWEMessage accountAddress statement (custodial_chainId this)
      (siweDomain this) (siweUri this) w = (w', Throw inner)
    /\ e = SafeRecoveryServiceSdkError SIWE_ERROR (error_message original)
             (Some inner) JUndefined
             (JObj [("accountAddress", JStr accountAddress);
                    ("statement", JStr statement);
                    ("chainId", chainId_number (custodial_chainId this))]).
Proof.
  cbv zeta. unfold CustodialStatements.getRegistrationsSiweStatementToSign.
  destruct (generateSIWEMessage _ _ _ _ _ w) as [w1 [m|inner]] eqn:Hg;
    [discriminate|].
  intros [= <- <-].
  destruct (generateSIWEMessage_throws _ _ _ _ _ _ _ _ Hg) as [err ->].
  exists (ensureError err). split; reflexivity.
Qed.

Lemma getRegistrationsSiweStatementToSign_wraps_twice_witness :
  let statement :=
    "I request to retrieve all authentication methods currently registered to my account with Safe Recovery Service" in
  let inner :=
    SafeRecoveryServiceSdkError SIWE_ERROR "invalid address"
      (Some (TypeError "invalid address")) JUndefined
      (JObj [("accountAddress", JStr "0x1234");
             ("statement", JStr statement)]) in
  CustodialStatements.getRegistrationsSiweStatementToSign (C := Scripted)
    sample_custodial "0x1234" idle
  = (idle,
     Throw (SafeRecoveryServiceSdkError SIWE_ERROR "invalid address"
              (Some inner) JUndefined
              (JObj [("accountAddress", JStr "0x1234");
                     ("statement", JStr statement);
                     ("chainId", JNum 1)])))
  /\ generateSIWEMessage (C := Scripted) "0x1234" statement 1
       "service://safe-recovery-service" "service://safe-recovery-service"
       idle
     = (idle, Throw inner).
Proof.
  cbv zeta. split; [reflexivity|].
  destruct (getRegistrationsSiweStatementToSign_wraps_twice (C := Scripted)
              sample_custodial "0x1234" idle idle _ eq_refl)
    as (original & H & He).
  injection He as Hm Ho. subst original. exact H.
Defined.

(** X22.  A failure of [getSubscriptionsSiweStatementToSign] is wrapped twice in
    the same way; its outer context names the owner. *)
Theorem getSubscriptionsSiweStatementToSign_wraps_twice `{C : Collaborators}
  (this : Alerts) (ownerAddress : string) (w w' : World) (e : JsError) :
  let statement :=
    "I request to retrieve all Social Recovery Module alert subscriptions linked to my account" in
  AlertsService.getSubscriptionsSiweStatementToSign this ownerAddress w
  = (w', Throw e) ->
  exists original,
    let inner :=
      SafeRecoveryServiceSdkError SIWE_ERROR (error_message original)
        (Some original) JUndefined
        (JObj [("accountAddress", JStr ownerAddress);
               ("statement", JStr statement)]) in
    generateSIWEMessage ownerAddress statement (alerts_chainId this)
      (alerts_siweDomain this) (alerts_siweUri this) w = (w', Throw inner)
    /\ e = SafeRecoveryServiceSdkError SIWE_ERROR (error_message original)
             (Some inner) JUndefined
             (JObj [("owner", JStr ownerAddress);
                    ("statement", JStr statement);
                    ("chainId", chainId_number (alerts_chainId this))]).
Proof.
  cbv zeta. unfold AlertsService.getSubscriptionsSiweStatementToSign.
  destruct (generateSIWEMessage _ _ _ _ _ w) as [w1 [m|inner]] eqn:Hg;
    [discriminate|].
  intros [= <- <-].
  destruct (generateSIWEMessage_throws _ _ _ _ _ _ _ _ Hg) as [err ->].
  exists (ensureError err). split; reflexivity.
Qed.

Lemma getSubscriptionsSiweStatementToSign_wraps_twice_witness :
  let statement :=
    "I request to retrieve all Social Recovery Module alert subscriptions linked to my account" in
  let inner :=
    SafeRecoveryServiceSdkError SIWE_ERROR "invalid address"
      (Some (TypeError "invalid address")) JUndefined
      (JObj [("accountAddress", JStr "0x1234");
             ("statement", JStr statement)]) in
  AlertsService.getSubscriptionsSiweStatementToSign (C := Scripted)
    sample_alerts "0x1234" idle
  = (idle,
     Throw (SafeRecoveryServiceSdkError SIWE_ERROR "invalid address"
              (Some inner) JUndefined
              (JObj [("owner", JStr "0x1234");
                     ("statement", JStr statement);
                     ("chainId", JNum 1)])))
  /\ generateSIWEMessage (C := Scripted) "0x1234" statement 1
       "service://safe-recovery-service" "service://safe-recovery-service"
       idle
     = (idle, Throw inner).
Proof.
  cbv zeta. split; [reflexivity|].
  destruct (getSubscriptionsSiweStatementToSign_wraps_twice (C := Scripted)
              sample_alerts "0x1234" idle idle _ eq_refl)
    as (original & H & He).
  injection He as Hm Ho. subst original. exact H.
Defined.

(** ** Bigints written and read back *)

Lemma parse_hex_digits (d : Hexadecimal.uint) (acc : N) :
  parse_digits 16 (HexadecimalString.NilEmpty.string_of_uint d) acc
  = Some (hex_value d acc).
Proof.
  revert acc. induction d; intros acc; cbn [HexadecimalString.NilEmpty.string_of_uint hex_value];
    [reflexivity| cbn [parse_digits]; cbv [digit_value]; cbn; apply IHd ..].
Qed.

Lemma hex_value_pos (d : Hexadecimal.uint) (p : positive) :
  hex_value d (N.pos p) = N.pos (Pos.of_hex_uint_acc d p).
Proof.
  revert p. induction d; intros p; cbn [hex_value Pos.of_hex_uint_acc];
    [reflexivity|
     match goal with
     | |- hex_value _ ?a = N.pos (Pos.of_hex_uint_acc _ ?q) =>
         replace a with (N.pos q) by lia; apply IHd
     end ..].
Qed.

Lemma hex_value_zero (d : Hexadecimal.uint) :
  hex_value d 0 = N.of_hex_uint d.
Proof.
  unfold N.of_hex_uint.
  induction d; cbn [hex_value Pos.of_hex_uint]; try reflexivity;
    try exact IHd; apply hex_value_pos.
Qed.

Lemma hex_digits_no_space (d : Hexadecimal.uint) :
  forallb (fun c => negb (is_space c))
    (list_ascii_of_string (HexadecimalString.NilEmpty.string_of_uint d)) = true.
Proof.
  induction d; cbn [HexadecimalString.NilEmpty.string_of_uint list_ascii_of_string forallb];
    [reflexivity| rewrite IHd; reflexivity ..].
Qed.

Lemma trim_end_no_space (s : string) :
  forallb (fun c => negb (is_space c)) (list_ascii_of_string s) = true ->
  trim_end s = s.
Proof.
  induction s as [|c s IH]; [reflexivity|].
  cbn [list_ascii_of_string forallb]. intros H.
  apply andb_prop in H as [Hc Hs].
  cbn [trim_end]. rewrite (IH Hs).
  destruct s; [|reflexivity].
  destruct (is_space c); [discriminate|reflexivity].
Qed.

Lemma hex_no_space (n : N) :
  forallb (fun c => negb (is_space c)) (list_ascii_of_string (hex n)) = true.
Proof.
  unfold hex. destruct (N.to_hex_uint n) eqn:E; try reflexivity;
    match goal with
    | |- context [HexadecimalString.NilZero.string_of_uint ?d] =>
        change (HexadecimalString.NilZero.string_of_uint d)
          with (HexadecimalString.NilEmpty.string_of_uint d);
        apply hex_digits_no_space
    end.
Qed.

Lemma parse_hex (n : N) : parse_number 16 (hex n) = Some n.
Proof.
  unfold hex.
  rewrite <- (HexadecimalN.Unsigned.of_to n) at 2.
  rewrite <- hex_value_zero.
  destruct (N.to_hex_uint n) eqn:E; try reflexivity;
    match goal with
    | |- context [HexadecimalString.NilZero.string_of_uint ?d] =>
        change (HexadecimalString.NilZero.string_of_uint d)
          with (HexadecimalString.NilEmpty.string_of_uint d);
        change (parse_number 16 (HexadecimalString.NilEmpty.string_of_uint d))
          with (parse_digits 16 (HexadecimalString.NilEmpty.string_of_uint d) 0);
        apply parse_hex_digits
    end.
Qed.

Lemma BigInt_of_quantity_text (n : N) :
  js_BigInt (JStr ("0x" ++ hex n)) = Ok (Z.of_N n).
Proof.
  cbn [js_BigInt]. unfold BigInt_of_string, StringToBigInt, trim.
  change ("0x" ++ hex n) with (String "0" (String "x" (hex n))).
  cbn [trim_start]. change (is_space "0") with false. cbv iota.
  rewrite trim_end_no_space.
  - change (Ascii.eqb "x" "x") with true. cbn [orb].
    rewrite parse_hex. reflexivity.
  - cbn [list_ascii_of_string forallb]. rewrite hex_no_space. reflexivity.
Qed.

(** X23.  A bigint the SDK writes is read back as it was.  The replacer of
    [sendHttpRequest] writes a bigint that is not negative as a string that
    [BigInt], the conversion [getRecoveryRequests] and
    [createRecoveryRequest] apply to a nonce, reads back as the same
    number; so does the quantity [getRecoveryRequests] puts in its query.
    A negative bigint is written with the sign after the prefix, which
    [BigInt] refuses. *)
Theorem bigint_written_is_read_back :
  (forall key z,
      0 <= z -> js_BigInt (bigint_replacer key (JBig z)) = Ok z)
  /\ (forall n quantity,
         toQuantity n = Ok quantity -> js_BigInt (JStr quantity) = Ok n)
  /\ (forall key z,
         z < 0 ->
         exists e, js_BigInt (bigint_replacer key (JBig z)) = Throw e
                   /\ is_sdk_error e = false).
Proof.
  repeat split.
  - intros key z Hz. cbn [bigint_replacer]. unfold BigInt_toString16.
    destruct (Z.ltb_spec z 0); [lia|].
    rewrite BigInt_of_quantity_text. f_equal. lia.
  - intros n quantity. unfold toQuantity.
    destruct (Z.ltb_spec n 0); [discriminate|]. intros [= <-].
    rewrite BigInt_of_quantity_text. f_equal. lia.
  - intros key z Hz. cbn [bigint_replacer]. unfold BigInt_toString16.
    destruct (Z.ltb_spec z 0); [|lia].
    assert (Ht : trim_end (String "0" (String "x" (String "-" (hex (Z.to_N (- z))))))
                 = String "0" (String "x" (String "-" (hex (Z.to_N (- z)))))).
    { apply trim_end_no_space.
      cbn [list_ascii_of_string forallb]. rewrite hex_no_space. reflexivity. }
    exists (SyntaxError ("Cannot convert " ++ "0x" ++ "-" ++ hex (Z.to_N (- z))
                           ++ " to a BigInt")).
    split; [|reflexivity].
    cbn [js_BigInt]. unfold BigInt_of_string, StringToBigInt, trim.
    change ("0x" ++ "-" ++ hex (Z.to_N (- z)))
      with (String "0" (String "x" (String "-" (hex (Z.to_N (- z)))))).
    cbn [trim_start]. change (is_space "0") with false. cbv iota.
    rewrite Ht. reflexivity.
Qed.

(** ** One request for every call *)



(** ** The nonce-scoped status resolver *)












(** ** The custodial signature session *)

(** The request that [submitCustodialGuardianSignatureChallenge] sends. *)
Lemma submission_build (this : RecoveryByCustodialGuardian)
  (requestId challengeId otpChallenge : string) :
  build_request (submit_url this)
    (submission requestId challengeId otpChallenge) post default_headers
  = Ok (submit_url this,
        submission_request requestId challengeId otpChallenge).
Proof. reflexivity. Qed.

(** One submission: the reply to the one request it sends, handed on. *)
Lemma submit_step `{C : Collaborators} (this : RecoveryByCustodialGuardian)
  (requestId challengeId otpChallenge : string) (w : World) :
  let (w', reply) :=
    fetch_json (submit_url this)
      (submission_request requestId challengeId otpChallenge) w in
  exists out,
    Custodial.submitCustodialGuardianSignatureChallenge this requestId
      challengeId otpChallenge w = (w', out)
    /\ relayed reply out
    /\ verified out = verifies reply
    /\ returns_pair out = releases reply.
Proof.
  rewrite submit_run. unfold sendHttpRequest. rewrite submission_build.
  generalize (submission_request requestId challengeId otpChallenge).
  intros opts.
  destruct (fetch_json _ opts w) as [w' [r|err]].
  - unfold relayed, verifies, releases.
    destruct (js_in "code" r) as [[|]|e] eqn:Hin.
    + destruct (inspect_response_throws (submit_url this) opts r Hin)
        as (e & -> & _).
      eexists. split; [reflexivity|]. split; [eexists; reflexivity|].
      split; reflexivity.
    + unfold inspect_response. rewrite Hin.
      eexists. split; [reflexivity|]. split; [reflexivity|].
      split; reflexivity.
    + unfold inspect_response. rewrite Hin.
      eexists. split; [reflexivity|]. split; [eexists; reflexivity|].
      split; reflexivity.
  - simpl.
    destruct (request_context_total (submit_url this) opts) as [ctx ->].
    simpl. eexists. split; [reflexivity|]. split; [eexists; reflexivity|].
    split; reflexivity.
Qed.

(** A session, submission by submission. *)
Lemma session_relayed `{C : Collaborators} (this : RecoveryByCustodialGuardian)
  (requestId : string) (session : list (string * string)) (w : World) :
  Forall2 relayed (session_replies this requestId session w)
    (session_results this requestId session w)
  /\ caller_trace session (session_results this requestId session w)
     = authority_trace session (session_replies this requestId session w).
Proof.
  revert w. induction session as [|[challengeId otpChallenge] rest IH];
    intros w; cbn [session_replies session_results].
  - split; [constructor | reflexivity].
  - pose proof (submit_step this requestId challengeId otpChallenge w) as H.
    destruct (fetch_json _ _ w) as [w' reply].
    destruct H as (out & -> & Hrel & Hver & Hpair).
    destruct (IH w') as [Hall Htrace]. split.
    + constructor; assumption.
    + unfold caller_trace, authority_trace in *. cbn [zip_with fst].
      rewrite Hver, Hpair, Htrace. reflexivity.
Qed.

(** A signature request that is returned has a string [requestId] and a
    number [requiredVerifications]. *)
Lemma signature_request_fields `{C : Collaborators}
  (this : RecoveryByCustodialGuardian) (accountAddress : string)
  (newOwners : list string) (newThreshold : Z) (w0 w1 : World)
  (request : JsVal) :
  Custodial.requestCustodialGuardianSignatureChallenge this accountAddress
    newOwners newThreshold w0 = (w1, Ok request) ->
  exists requestId k,
    field request "requestId" = JStr requestId
    /\ field request "requiredVerifications" = JNum k.
Proof.
  unfold Custodial.requestCustodialGuardianSignatureChallenge.
  rewrite M_bind_run.
  destruct (sendHttpRequest _ _ _ _ w0) as [w' [r|e]] eqn:H; [|discriminate].
  apply sendHttpRequest_ok in H.
  repeat match goal with
  | |- context [lacks_field ?r (String ?c ?s) ?ty] =>
      rewrite (lacks_field_view r c s ty H eq_refl eq_refl eq_refl)
  end.
  destruct (field r "requestId") eqn:Hid;
    destruct (field r "requiredVerifications") eqn:Hk;
    try discriminate.
  intros [= <- <-]. rewrite Hid, Hk. eauto.
Qed.

(** C3, amended.  The SDK holds no count of verified channels, and each
    result of [submitCustodialGuardianSignatureChallenge] is the
    authority's reply to that one submission handed on.  For a signature
    request that [requestCustodialGuardianSignatureChallenge] returned,
    with its [requestId] and with [k] its [requiredVerifications], and for
    every sequence of submissions made for it: each result is the relay of
    the reply to the request that the submission sent, with [success],
    [signer] and [signature] as they are; so what the caller sees of the
    session is what the authority replied, and the caller is given a
    populated (address, signature) pair in the response to the submission
    that brings the number of distinct verified channels to [k], and in no
    other, exactly when the authority releases its signature in the reply
    to that submission and in no other. *)
Theorem signature_released_with_last_channel `{C : Collaborators}
  (this : RecoveryByCustodialGuardian) (accountAddress : string)
  (newOwners : list string) (newThreshold : Z) (w0 w1 : World)
  (request : JsVal) :
  Custodial.requestCustodialGuardianSignatureChallenge this accountAddress
    newOwners newThreshold w0 = (w1, Ok request) ->
  exists requestId k,
    field request "requestId" = JStr requestId
    /\ field request "requiredVerifications" = JNum k
    /\ forall (session : list (string * string)) (w : World),
         let replies := session_replies this requestId session w in
         let results := session_results this requestId session w in
         Forall2 relayed replies results
         /\ caller_trace session results = authority_trace session replies
         /\ (verify_all_release k [] (caller_trace session results) = true
             <-> verify_all_release k [] (authority_trace session replies)
                 = true).
Proof.
  intros Hrequest.
  destruct (signature_request_fields _ _ _ _ _ _ _ Hrequest)
    as (requestId & k & Hid & Hk).
  exists requestId, k. split; [exact Hid|]. split; [exact Hk|].
  intros session w. cbv zeta.
  destruct (session_relayed this requestId session w) as [Hall Htrace].
  split; [exact Hall|]. split; [exact Htrace|].
  rewrite Htrace. reflexivity.
Qed.

Lemma signature_released_with_last_channel_witness :
  exists w1 request,
    Custodial.requestCustodialGuardianSignatureChallenge (C := Scripted)
      sample_custodial sample_account [sample_guardian] 1
      verify_all_authority
    = (w1, Ok request)
    /\ field request "requiredVerifications" = JNum 2
    /\ let session := [("challenge-email", "111111");
                       ("challenge-sms", "222222")] in
       let results :=
         session_results (C := Scripted) sample_custodial "request-1"
           session w1 in
       Forall2 relayed
         (session_replies (C := Scripted) sample_custodial "request-1"
            session w1) results
       /\ map returns_pair results = [false; true]
       /\ verify_all_release 2 [] (caller_trace session results) = true.
Proof.
  destruct (Custodial.requestCustodialGuardianSignatureChallenge
              (C := Scripted) sample_custodial sample_account
              [sample_guardian] 1 verify_all_authority)
    as [w1 [request|e]] eqn:Hrequest; [|vm_compute in Hrequest; discriminate].
  exists w1, request. split; [reflexivity|].
  destruct (signature_released_with_last_channel (C := Scripted)
              sample_custodial sample_account [sample_guardian] 1
              verify_all_authority w1 request Hrequest)
    as (requestId & k & Hid & Hk & Hsession).
  destruct (Hsession [("challenge-email", "111111");
                      ("challenge-sms", "222222")] w1)
    as (Hall & _ & Hiff).
  clear Hsession.
  vm_compute in Hrequest. injection Hrequest as <- <-.
  vm_compute in Hid. injection Hid as <-.
  vm_compute in Hk. injection Hk as <-.
  split; [reflexivity|]. cbv zeta.
  split; [exact Hall|]. split; [vm_compute; reflexivity|].
  apply Hiff. vm_compute. reflexivity.
Defined.
